(** * Duplicate detector of the quote admin handler

    A shallow embedding of the fuzzy duplicate detection of
    [aws/lambda/admin_handler.py]: [normalize_text], [calculate_similarity],
    [are_similar_quotes] and the two scans that use them,
    [handle_create_quote] and [handle_check_duplicate]; then of the rest of
    the handler: caller identity, routing, the tag handlers, the listing and
    the search.

    Python strings are sequences of Unicode code points, floats are IEEE 754
    binary64 numbers; both are modelled as such.  [str.lower()] follows the
    case table of the interpreter's Unicode database, which is no part of the
    handler: the embedding takes it as a parameter, so that what is proved
    for every lower-casing function holds for the interpreter's. *)

From Stdlib Require Import List ZArith NArith QArith Lia Bool Permutation Sorted.
From Stdlib Require Import Strings.String Strings.Ascii Numbers.DecimalString.
Import ListNotations.

Open Scope Z_scope.

(** ** Python strings *)

Module PyStr.

(** A [str] is a list of code points. *)
Definition pystr := list N.

(** The code points of an ASCII literal. *)
Definition py (s : string) : pystr :=
  List.map N_of_ascii (list_ascii_of_string s).

Definition char_eqb (c d : N) : bool := N.eqb c d.

Fixpoint str_eqb (s t : pystr) : bool :=
  match s, t with
  | [], [] => true
  | c :: s', d :: t' => char_eqb c d && str_eqb s' t'
  | _, _ => false
  end.

Definition len (s : pystr) : Z := Z.of_nat (List.length s).

(** [not text] on a string: true for the empty string. *)
Definition is_empty (s : pystr) : bool :=
  match s with [] => true | _ => false end.

(** Whitespace as [str.strip()], [str.isspace()] and the [\s] class of [re]
    on [str] patterns see it: the code points with the Unicode White_Space
    property or a bidirectional type of WS, B or S. *)
Definition is_space (c : N) : bool :=
  ((9 <=? c) && (c <=? 13) || (28 <=? c) && (c <=? 32) ||
   (c =? 133) || (c =? 160) || (c =? 5760) ||
   (8192 <=? c) && (c <=? 8202) || (c =? 8232) || (c =? 8233) ||
   (c =? 8239) || (c =? 8287) || (c =? 12288))%N.

Fixpoint drop_while (p : N -> bool) (s : pystr) : pystr :=
  match s with
  | [] => []
  | c :: s' => if p c then drop_while p s' else s
  end.

Definition lstrip_by (p : N -> bool) (s : pystr) : pystr := drop_while p s.
Definition rstrip_by (p : N -> bool) (s : pystr) : pystr :=
  rev (drop_while p (rev s)).

(** [s.strip()] *)
Definition strip (s : pystr) : pystr :=
  rstrip_by is_space (lstrip_by is_space s).

(** [s.rstrip(chars)] *)
Definition rstrip (chars s : pystr) : pystr :=
  rstrip_by (fun c => existsb (char_eqb c) chars) s.

(** The case table of the Basic Latin and Latin-1 Supplement blocks: the
    capitals A-Z and U+00C0-U+00DE (the multiplication sign U+00D7 apart)
    move 32 code points up, every other code point of the two blocks is its
    own lower case.  The rest of the Unicode case table is not written out:
    [lower] is [s.lower()] on the texts of these two blocks and of the
    blocks without letters (punctuation, digits, symbols), and on no
    other. *)
Definition lower_char (c : N) : N :=
  (if (65 <=? c) && (c <=? 90) then c + 32
   else if (192 <=? c) && (c <=? 222) && negb (c =? 215) then c + 32
   else c)%N.

Definition lower (s : pystr) : pystr := List.map lower_char s.

Fixpoint starts_with (p s : pystr) : bool :=
  match p, s with
  | [], _ => true
  | c :: p', d :: s' => char_eqb c d && starts_with p' s'
  | _ :: _, [] => false
  end.

(** [s.replace(old, new)] for a non-empty [old]: the occurrences of [old]
    are found from the left and do not overlap.  [skip] counts the code
    points of an occurrence that are still to be dropped. *)
Fixpoint replace_from (old new : pystr) (skip : nat) (s : pystr) : pystr :=
  match s with
  | [] => []
  | c :: s' =>
      match skip with
      | S k => replace_from old new k s'
      | O =>
          if starts_with old s
          then new ++ replace_from old new (List.length old - 1) s'
          else c :: replace_from old new 0 s'
      end
  end.

Definition replace (old new s : pystr) : pystr := replace_from old new 0 s.

(** [s.split(' ')]: the pieces between single spaces, empty pieces kept;
    the empty string splits into one empty piece. *)
Fixpoint split_space (s : pystr) : list pystr :=
  match s with
  | [] => [[]]
  | c :: s' =>
      if char_eqb c 32 then [] :: split_space s'
      else match split_space s' with
           | w :: ws => (c :: w) :: ws
           | [] => [[c]]
           end
  end.

(** [re.sub(r'\s+', ' ', s)]: every maximal run of whitespace becomes one
    space.  [in_run] tells that the previous code point was whitespace. *)
Fixpoint sub_spaces_from (in_run : bool) (s : pystr) : pystr :=
  match s with
  | [] => []
  | c :: s' =>
      if is_space c
      then if in_run then sub_spaces_from true s'
           else 32%N :: sub_spaces_from true s'
      else c :: sub_spaces_from false s'
  end.

Definition sub_spaces (s : pystr) : pystr := sub_spaces_from false s.

(** [x in xs] on a list of strings. *)
Definition str_in (w : pystr) (ws : list pystr) : bool :=
  existsb (str_eqb w) ws.

End PyStr.

Import PyStr.

(** ** Lower case

    [s.lower()] of the interpreter: the lower-case mapping of the Unicode
    database, which reaches every block, can lengthen a text (U+0130 becomes
    two code points) and reads the context of a capital sigma.  The handler
    is embedded for any such function. *)
Class Lowering := { str_lower : pystr -> pystr }.

(** The case table of the two Latin blocks as a lower-casing: the one the
    embedding is run with on texts of these blocks. *)
Definition latin1_lowering : Lowering := {| str_lower := lower |}.

(** ** The text normalizer *)

(** The literals of [normalize_text], as the interpreter reads them. *)
Definition NEWLINE : pystr := [10%N].
Definition TAB : pystr := [9%N].
Definition SPACE : pystr := [32%N].
Definition DQUOTE : pystr := [34%N].
Definition APOSTROPHE : pystr := [39%N].
Definition HYPHEN : pystr := [45%N].
Definition PERIOD : pystr := [46%N].
Definition EM_DASH : pystr := [8212%N].
Definition EN_DASH : pystr := [8211%N].
Definition ELLIPSIS : pystr := [8230%N].

(** Line 27 of the handler reads
    [.replace(''', "'").replace(''', "'")]: three apostrophes open a
    triple-quoted literal that runs up to the next three apostrophes, so the
    line is ONE call of [replace] whose first argument is the 15 code points
    [, "'").replace(] and whose second argument is an apostrophe. *)
Definition APOSTROPHE_LINE_LITERAL : pystr :=
  [44; 32; 34; 39; 34; 41; 46; 114; 101; 112; 108; 97; 99; 101; 40]%N.

(** [normalize_text(text)] *)
Definition normalize_text {L : Lowering} (text : pystr) : pystr :=
  if is_empty text then []
  else
    let text :=
      rstrip PERIOD
        (replace ELLIPSIS (PERIOD ++ PERIOD ++ PERIOD)
        (replace EN_DASH HYPHEN
        (replace EM_DASH HYPHEN
        (replace APOSTROPHE_LINE_LITERAL APOSTROPHE
        (replace DQUOTE DQUOTE
        (replace DQUOTE DQUOTE
        (replace TAB SPACE
        (replace NEWLINE SPACE
        (str_lower
        (strip text)))))))))) in
    sub_spaces text.

(** ** Binary64 arithmetic

    The scores are Python floats.  A float is modelled by the rational
    number it denotes; the only operations the detector applies to floats
    are a division of two non-negative integers, comparisons and the
    [.2f] format.  [int / int] is correctly rounded in CPython, and so is
    [(2.0 * c) / t] for counts below 2^53, where [2.0 * c] and the
    conversion of [t] are exact.  The quotients of two string or word counts
    are far from the subnormal and overflow ranges, which are not modelled. *)

Module Binary64.

Definition float := Q.

(** The integer nearest to [n / d], ties to the even one ([0 <= n], [0 < d]). *)
Definition round_half_even (n d : Z) : Z :=
  let q := n / d in
  let r := n mod d in
  if 2 * r <? d then q
  else if d <? 2 * r then q + 1
  else if Z.even q then q else q + 1.

(** [b * 2^e <= a], for an exponent of either sign. *)
Definition scaled_le (b e a : Z) : bool :=
  if 0 <=? e then b * 2 ^ e <=? a else b <=? a * 2 ^ (- e).

(** The exponent [e] with [2^e <= a / b < 2^(e+1)] ([0 < a], [0 < b]). *)
Definition exponent (a b : Z) : Z :=
  let e0 := Z.log2 a - Z.log2 b in
  if scaled_le b e0 a then e0 else e0 - 1.

(** The binary64 number nearest to [a / b], ties to even: a 53-bit
    significand [m] scaled by [2^(e - 52)], kept in lowest terms so that
    equal floats are equal terms. *)
Definition div (a b : Z) : float :=
  if (a <=? 0) || (b <=? 0) then 0%Q
  else
    let s := 52 - exponent a b in
    Qred
      (if 0 <=? s
       then Qmake (round_half_even (a * 2 ^ s) b) (Z.to_pos (2 ^ s))
       else Qmake (round_half_even a (b * 2 ^ (- s)) * 2 ^ (- s)) 1).

(** A decimal literal [n / d] of the source, read as the nearest float. *)
Definition literal (n d : Z) : float := div n d.

(** [x >= y] *)
Definition ge (x y : float) : bool := Qle_bool y x.

Definition decimal (n : Z) : pystr :=
  py (NilZero.string_of_uint (N.to_uint (Z.to_N n))).

(** [f"{x:.2f}"] for [0 <= x]: the exact value of [x] rounded to
    hundredths, ties to even, printed with the two digits after the point. *)
Definition format_2f (x : float) : pystr :=
  let h := round_half_even (100 * Qnum x) (Zpos (Qden x)) in
  decimal (h / 100) ++ py "." ++
  decimal ((h mod 100) / 10) ++ decimal (h mod 10).

End Binary64.

(** ** The similarity scorer *)

(** A loop [for x in xs: if p(x): n += 1] started at [n = 0]. *)
Definition count_if {A : Type} (p : A -> bool) (xs : list A) : Z :=
  fold_left (fun n x => if p x then n + 1 else n) xs 0.

(** [range(n)] *)
Definition range (n : Z) : list Z :=
  List.map Z.of_nat (seq 0 (Z.to_nat n)).

(** [text[i]] for an index in range. *)
Definition char_at (text : pystr) (i : Z) : N := nth (Z.to_nat i) text 0%N.

(** [calculate_similarity(text1, text2)] *)
Definition calculate_similarity (text1 text2 : pystr) : Binary64.float :=
  if is_empty text1 && is_empty text2 then 1%Q
  else if is_empty text1 || is_empty text2 then 0%Q
  else if Z.abs (len text1 - len text2) <=? 3 then
    let max_length := Z.max (len text1) (len text2) in
    let matches :=
      count_if (fun i => (i <? len text1) && (i <? len text2) &&
                         char_eqb (char_at text1 i) (char_at text2 i))
               (range max_length) in
    if 0 <? max_length then Binary64.div matches max_length else 0%Q
  else
    let words1 := split_space text1 in
    let words2 := split_space text2 in
    let common_words :=
      count_if (fun word1 => str_in word1 words2 && (2 <? len word1)) words1 in
    let total_words :=
      Z.of_nat (List.length words1) + Z.of_nat (List.length words2) in
    if 0 <? total_words
    then Binary64.div (2 * common_words) total_words else 0%Q.

(** ** The duplicate decision *)

(** [are_similar_quotes(quote1_text, quote1_author, quote2_text,
    quote2_author)]; [None] is Python's [None]. *)
Definition are_similar_quotes {L : Lowering}
    (quote1_text quote1_author quote2_text quote2_author : pystr)
    : bool * option pystr :=
  let normalized_quote1 := normalize_text quote1_text in
  let normalized_quote2 := normalize_text quote2_text in
  let normalized_author1 := normalize_text quote1_author in
  let normalized_author2 := normalize_text quote2_author in
  if str_eqb normalized_quote1 normalized_quote2 &&
     str_eqb normalized_author1 normalized_author2
  then (true, Some (py "exact_match"))
  else
    let quote_similarity :=
      calculate_similarity normalized_quote1 normalized_quote2 in
    if Binary64.ge quote_similarity (Binary64.literal 90 100) &&
       str_eqb normalized_author1 normalized_author2
    then (true, Some (py "similar_quote_same_author_" ++
                      Binary64.format_2f quote_similarity))
    else
      let author_similarity :=
        calculate_similarity normalized_author1 normalized_author2 in
      if str_eqb normalized_quote1 normalized_quote2 &&
         Binary64.ge author_similarity (Binary64.literal 85 100)
      then (true, Some (py "same_quote_similar_author_" ++
                        Binary64.format_2f author_similarity))
      else
        if Binary64.ge quote_similarity (Binary64.literal 95 100) &&
           Binary64.ge author_similarity (Binary64.literal 90 100)
        then (true, Some (py "both_similar_q" ++
                          Binary64.format_2f quote_similarity ++
                          py "_a" ++ Binary64.format_2f author_similarity))
        else (false, None).

(** ** The quotes table and the two duplicate scans *)

(** An item of the quotes table, with the attributes the scans read.  [id]
    is the table's key and present on every item; the other attributes may
    be missing.  Attribute values are strings. *)
Record item := {
  item_id : pystr;
  item_quote : option pystr;
  item_author : option pystr;
  item_created_at : option pystr
}.

(** What the calls of [table.scan] of one invocation return: a response
    with [Items] and a [LastEvaluatedKey] (the loop calls again), a response
    without [LastEvaluatedKey] (the loop ends), or an exception. *)
Inductive scan_trace :=
  | ScanMore (items : list item) (next : scan_trace)
  | ScanLast (items : list item)
  | ScanRaises.

(** An entry of [duplicates_found]. *)
Record duplicate := {
  dup_id : pystr;
  dup_quote : pystr;
  dup_author : pystr;
  dup_created_at : option pystr;
  dup_match_reason : option pystr
}.

(** The item [handle_create_quote] writes. *)
Record quote_item := {
  q_id : pystr;
  q_quote : pystr;
  q_author : pystr;
  q_tags : list pystr;
  q_created_at : pystr;
  q_updated_at : pystr;
  q_created_by : pystr
}.

(** The writes a handler performs, in order. *)
Inductive effect :=
  | PutItem (it : quote_item)
  | UpdateTagsMetadata (new_tags : list pystr).

(** The JSON bodies of the responses of the two handlers. *)
Inductive response_body :=
  | ErrorMessage (error message : pystr)
  | Error (error : pystr)
  | ValidationFailed (details : list pystr)
  | DuplicateDetected (error message : pystr) (is_duplicate : bool)
      (duplicate_count : Z) (duplicates : list duplicate)
  | QuoteCreated (message : pystr) (quote : quote_item)
  | DuplicateReport (is_duplicate : bool) (duplicate_count : Z)
      (duplicates : list duplicate) (message : pystr).

Record response := { statusCode : Z; body : response_body }.

Definition create_response (status_code : Z) (b : response_body) : response :=
  {| statusCode := status_code; body := b |}.

(** A JSON value where a tag is expected: a string, or a value of another
    type. *)
Inductive tag_value :=
  | TagStr (s : pystr)
  | TagOther.

(** The value of [tags]: an array, or a value of another type. *)
Inductive tags_value :=
  | TagsList (tags : list tag_value)
  | TagsOther.

(** The event's body after [json.loads]: a decoding error, or an object
    whose [quote] and [author] are strings and whose [tags] is any JSON
    value, each of them possibly missing. *)
Record request_data := {
  data_quote : option pystr;
  data_author : option pystr;
  data_tags : option tags_value
}.

Inductive request_body :=
  | JSONDecodeError
  | Json (data : request_data).

Record user_claims := { username : pystr; is_admin : bool }.

(** What the invocation takes from its environment: the fresh uuid, the
    clock, and whether [table.put_item] raises. *)
Record environment := {
  uuid4 : pystr;
  utcnow : pystr;
  put_item_raises : bool
}.

Definition or_default (o : option pystr) (d : pystr) : pystr :=
  match o with Some s => s | None => d end.

(** [not data[field] or not data[field].strip()], also true for a missing
    field. *)
Definition field_missing_or_blank (o : option pystr) : bool :=
  match o with
  | None => true
  | Some s => is_empty s || is_empty (strip s)
  end.

(** [isinstance(tag, str) and tag.strip()] *)
Definition is_tag (tag : tag_value) : bool :=
  match tag with
  | TagStr s => negb (is_empty (strip s))
  | TagOther => false
  end.

(** [validate_quote_data(data)] *)
Definition validate_quote_data (data : request_data) : list pystr :=
  (if field_missing_or_blank (data_quote data)
   then [py "'quote' is required and cannot be empty"] else []) ++
  (if field_missing_or_blank (data_author data)
   then [py "'author' is required and cannot be empty"] else []) ++
  match data_tags data with
  | None => []
  | Some TagsOther => [py "'tags' must be an array"]
  | Some (TagsList tags) =>
      if forallb is_tag tags then []
      else [py "All tags must be non-empty strings"]
  end.

(** [body.get('tags', [])] of a request that passed the validation, where
    [tags] is missing or an array of strings: the strings of the array. *)
Definition tags_or_default (data : request_data) : list pystr :=
  match data_tags data with
  | Some (TagsList tags) =>
      flat_map (fun tag => match tag with TagStr s => [s] | TagOther => [] end)
               tags
  | Some TagsOther | None => []
  end.

Definition is_empty_list {A : Type} (l : list A) : bool :=
  match l with [] => true | _ => false end.

(** [f"Found {n} similar quote(s)"] *)
Definition found_message (n : Z) : pystr :=
  py "Found " ++ Binary64.decimal n ++ py " similar quote(s)".

(** [l[:5]] *)
Definition first5 {A : Type} (l : list A) : list A := firstn 5 l.

(** The body of the [for item in ...] loop of [handle_create_quote]. *)
Definition create_scan_item {L : Lowering} (quote_text author : pystr)
    (duplicates_found : list duplicate) (it : item) : list duplicate :=
  match item_quote it, item_author it with
  | Some q, Some a =>
      let '(is_similar, match_reason) :=
        are_similar_quotes quote_text author q a in
      if is_similar
      then duplicates_found ++
           [{| dup_id := item_id it; dup_quote := q; dup_author := a;
               dup_created_at := Some (or_default (item_created_at it) []);
               dup_match_reason := match_reason |}]
      else duplicates_found
  | _, _ => duplicates_found
  end.

(** The [while True] loop of [handle_create_quote]; [None] when
    [table.scan] raises. *)
Fixpoint create_scan {L : Lowering} (quote_text author : pystr)
    (tr : scan_trace)
    (duplicates_found : list duplicate) : option (list duplicate) :=
  match tr with
  | ScanRaises => None
  | ScanLast items =>
      Some (fold_left (create_scan_item quote_text author) items
                      duplicates_found)
  | ScanMore items next =>
      create_scan quote_text author next
        (fold_left (create_scan_item quote_text author) items
                   duplicates_found)
  end.

(** The part of [handle_create_quote] after the duplicate check; it is
    reached by validated requests only. *)
Definition create_new_quote (env : environment) (user : user_claims)
    (data : request_data) : response * list effect :=
  let quote_item :=
    {| q_id := uuid4 env;
       q_quote := strip (or_default (data_quote data) []);
       q_author := strip (or_default (data_author data) []);
       q_tags := tags_or_default data;
       q_created_at := utcnow env;
       q_updated_at := utcnow env;
       q_created_by := username user |} in
  if put_item_raises env
  then (create_response 500 (Error (py "Internal server error")), [])
  else (create_response 201
          (QuoteCreated (py "Quote created successfully") quote_item),
        [PutItem quote_item; UpdateTagsMetadata (q_tags quote_item)]).

(** [handle_create_quote(event, user_claims)] *)
Definition handle_create_quote {L : Lowering} (env : environment)
    (user : user_claims) (event_body : request_body) (tr : scan_trace) : response * list effect :=
  if negb (is_admin user)
  then (create_response 403
          (ErrorMessage (py "Forbidden") (py "Admin access required")), [])
  else
    match event_body with
    | JSONDecodeError =>
        (create_response 400 (Error (py "Invalid JSON in request body")), [])
    | Json data =>
        let validation_errors := validate_quote_data data in
        if negb (is_empty_list validation_errors)
        then (create_response 400 (ValidationFailed validation_errors), [])
        else
          let quote_text := strip (or_default (data_quote data) []) in
          let author := strip (or_default (data_author data) []) in
          match create_scan quote_text author tr [] with
          | Some (d :: ds) =>
              let duplicates_found := d :: ds in
              let n := Z.of_nat (List.length duplicates_found) in
              (create_response 409
                 (DuplicateDetected (py "Duplicate quote detected")
                    (found_message n) true n
                    (first5 duplicates_found)), [])
          | Some [] => create_new_quote env user data
          | None => create_new_quote env user data
          end
    end.

(** The body of the [for item in items] loop of [handle_check_duplicate]. *)
Definition check_scan_item {L : Lowering} (quote_text author : pystr)
    (duplicates_found : list duplicate) (it : item) : list duplicate :=
  if starts_with (py "TAGS_") (item_id it) ||
     is_empty (or_default (item_quote it) [])
  then duplicates_found
  else
    let existing_quote := or_default (item_quote it) [] in
    let existing_author := or_default (item_author it) [] in
    let '(is_similar, match_reason) :=
      are_similar_quotes quote_text author existing_quote existing_author in
    if is_similar
    then duplicates_found ++
         [{| dup_id := item_id it; dup_quote := existing_quote;
             dup_author := existing_author;
             dup_created_at := item_created_at it;
             dup_match_reason := match_reason |}]
    else duplicates_found.

(** The [while True] loop of [handle_check_duplicate]. *)
Fixpoint check_scan {L : Lowering} (quote_text author : pystr)
    (tr : scan_trace)
    (duplicates_found : list duplicate) : option (list duplicate) :=
  match tr with
  | ScanRaises => None
  | ScanLast items =>
      Some (fold_left (check_scan_item quote_text author) items
                      duplicates_found)
  | ScanMore items next =>
      check_scan quote_text author next
        (fold_left (check_scan_item quote_text author) items
                   duplicates_found)
  end.

(** [handle_check_duplicate(event, user_claims)] *)
Definition handle_check_duplicate {L : Lowering} (user : user_claims)
    (event_body : request_body) (tr : scan_trace) : response * list effect :=
  if negb (is_admin user)
  then (create_response 403
          (ErrorMessage (py "Forbidden") (py "Admin access required")), [])
  else
    match event_body with
    | JSONDecodeError =>
        (create_response 400 (Error (py "Invalid JSON in request body")), [])
    | Json data =>
        let quote_text := strip (or_default (data_quote data) []) in
        let author := strip (or_default (data_author data) []) in
        if is_empty quote_text || is_empty author
        then (create_response 400 (Error (py "Quote and author are required")),
              [])
        else
          match check_scan quote_text author tr [] with
          | None =>
              (create_response 500
                 (Error (py "Failed to check for duplicates")), [])
          | Some (d :: ds) =>
              let duplicates_found := d :: ds in
              let n := Z.of_nat (List.length duplicates_found) in
              (create_response 200
                 (DuplicateReport true n (first5 duplicates_found)
                    (found_message n)), [])
          | Some [] =>
              (create_response 200
                 (DuplicateReport false 0 [] (py "No duplicates found")), [])
          end
    end.

(** ** A score in a reason, as specified *)

(** [s] writes the score [x] with two decimal places: for an integer [h]
    that is nearest to [100 * x], it is the decimal numeral of [h / 100], a
    point, and the two decimal digits of [h mod 100]. *)
Definition two_decimals (x : Binary64.float) (s : pystr) : Prop :=
  exists (h : Z) (d1 d2 : N),
    (inject_Z (2 * h - 1) <= 200 * x)%Q /\
    (200 * x <= inject_Z (2 * h + 1))%Q /\
    (d1 < 10)%N /\ (d2 < 10)%N /\ h mod 100 = Z.of_N (10 * d1 + d2) /\
    s = Binary64.decimal (h / 100) ++ py "." ++ [48 + d1; 48 + d2]%N.

(** ** The scans, as specified *)

(** The records a scan enumerates, page after page; [None] when a call of
    [table.scan] raises. *)
Fixpoint scanned_items (tr : scan_trace) : option (list item) :=
  match tr with
  | ScanRaises => None
  | ScanLast items => Some items
  | ScanMore items next =>
      match scanned_items next with
      | Some rest => Some (items ++ rest)
      | None => None
      end
  end.

(** The texts of a record that a scan compares with the candidate, [None]
    for a record the scan skips. *)
Definition create_compared (it : item) : option (pystr * pystr) :=
  match item_quote it, item_author it with
  | Some q, Some a => Some (q, a)
  | _, _ => None
  end.

Definition check_compared (it : item) : option (pystr * pystr) :=
  if starts_with (py "TAGS_") (item_id it) then None
  else match item_quote it with
       | None | Some [] => None
       | Some q => Some (q, or_default (item_author it) [])
       end.

Section Matches.

Context {L : Lowering}.
Variable compared : item -> option (pystr * pystr).
Variable created_at_of : item -> option pystr.
Variables quote_text author : pystr.

(** A record matches when it is compared and the decision is positive. *)
Definition is_match (it : item) : bool :=
  match compared it with
  | Some (q, a) => fst (are_similar_quotes quote_text author q a)
  | None => false
  end.

Definition entry_of (it : item) : duplicate :=
  let '(q, a) := match compared it with Some qa => qa | None => ([], []) end in
  {| dup_id := item_id it; dup_quote := q; dup_author := a;
     dup_created_at := created_at_of it;
     dup_match_reason := snd (are_similar_quotes quote_text author q a) |}.

(** All matches of a sequence of records, in the order of the sequence. *)
Definition matches (records : list item) : list duplicate :=
  List.map entry_of (filter is_match records).

End Matches.

Definition create_matches {L : Lowering} :=
  matches create_compared
    (fun it => Some (or_default (item_created_at it) [])).
Definition check_matches {L : Lowering} :=
  matches check_compared item_created_at.

(** ** Shared words *)

(** The occurrences in [text1.split(' ')] that the word loop of
    [calculate_similarity] counts: words of more than two code points that
    are also words of [text2]. *)
Definition shared_words (text1 text2 : pystr) : list pystr :=
  filter (fun word1 => str_in word1 (split_space text2) && (2 <? len word1))
         (split_space text1).

(** [old in s] for a non-empty [old]. *)
Fixpoint occurs_in (old s : pystr) : bool :=
  match s with
  | [] => false
  | _ :: s' => starts_with old s || occurs_in old s'
  end.

(** ** Whitespace in a normalized text *)

(** No two whitespace code points in a row. *)
Fixpoint no_space_run (s : pystr) : bool :=
  match s with
  | c :: (d :: _) as s' => negb (is_space c && is_space d) && no_space_run s'
  | _ => true
  end.

(** No whitespace at the front. *)
Definition no_leading_space (s : pystr) : bool :=
  match s with
  | c :: _ => negb (is_space c)
  | [] => true
  end.

(** ** A sample table *)

Definition sample_env : environment :=
  {| uuid4 := py "0f8fad5b-d9cb-469f-a165-70867728950e";
     utcnow := py "2024-05-01T12:00:00Z";
     put_item_raises := false |}.

Definition admin_user : user_claims :=
  {| username := py "admin"; is_admin := true |}.

Definition sample_request : request_data :=
  {| data_quote := Some (py "Be yourself.");
     data_author := Some (py "Oscar Wilde");
     data_tags := Some (TagsList [TagStr (py "identity")]) |}.

Definition stored (id quote author : string) : item :=
  {| item_id := py id; item_quote := Some (py quote);
     item_author := Some (py author);
     item_created_at := Some (py "2024-01-01T00:00:00Z") |}.

Definition tags_metadata : item :=
  {| item_id := py "TAGS_METADATA"; item_quote := None;
     item_author := None; item_created_at := None |}.

Definition sample_page1 : list item :=
  [ tags_metadata;
    stored "q1" "be yourself" "oscar wilde.";
    stored "q2" "To be, or not to be" "William Shakespeare";
    stored "q3" "Be yourself!" "Oscar Wilde" ].

Definition sample_page2 : list item :=
  [ stored "q4" "BE YOURSELF" "Oscar Wilde";
    stored "q5" "Be yourself" "Oscar Wilda";
    stored "q6" "Be  yourself" "Oscar Wilde";
    stored "q7" "Be yourself..." "Oscar Wilde" ].

Definition sample_scan : scan_trace :=
  ScanMore sample_page1 (ScanMore [] (ScanLast sample_page2)).

Definition failing_scan : scan_trace :=
  ScanMore sample_page1 ScanRaises.

Definition ids_of (found : list duplicate) : list pystr :=
  List.map dup_id found.

(** The sentinel id on an item that carries a quote and an author, and a
    record without an author. *)
Definition sentinel_with_texts : item :=
  {| item_id := py "TAGS_METADATA"; item_quote := Some (py "Be yourself");
     item_author := Some (py "Oscar Wilde"); item_created_at := None |}.

Definition record_without_author : item :=
  {| item_id := py "q8"; item_quote := Some (py "Be yourself");
     item_author := None; item_created_at := None |}.

Definition dotted_author_request : request_data :=
  {| data_quote := Some (py "Be yourself.");
     data_author := Some (py "...");
     data_tags := None |}.

(** ** More of the handler: caller identity and routing *)

(** The value of the [cognito:groups] claim: a string, a list of strings,
    or a value of another type. *)
Inductive groups_claim :=
  | GroupsStr (s : pystr)
  | GroupsList (l : list pystr)
  | GroupsOther.

(** The [claims] dictionary of the authorizer ([{}] when the event has
    none): each of the three claims read may be missing. *)
Record cognito_claims := {
  claim_groups : option groups_claim;
  claim_username : option pystr;
  claim_email : option pystr
}.

(** The dictionary [get_user_claims] returns. *)
Record user_info := {
  info_username : pystr;
  info_email : pystr;
  info_is_admin : bool;
  info_groups : groups_claim
}.

(** [get_user_claims(event)], on the claims of the event.  On a string
    ['Admins' in groups] is a substring test, on a list a membership
    test. *)
Definition get_user_claims (claims : cognito_claims) : user_info :=
  let groups :=
    match claim_groups claims with Some g => g | None => GroupsStr [] end in
  let is_admin :=
    match groups with
    | GroupsStr s => occurs_in (py "Admins") s
    | GroupsList l => str_in (py "Admins") l
    | GroupsOther => false
    end in
  {| info_username := or_default (claim_username claims) (py "unknown");
     info_email := or_default (claim_email claims) [];
     info_is_admin := is_admin;
     info_groups := groups |}.

(** The part of the returned dictionary that the handlers read. *)
Definition claims_of (info : user_info) : user_claims :=
  {| username := info_username info; is_admin := info_is_admin info |}.

(** The handlers [lambda_handler] dispatches to. *)
Inductive handler :=
  | CreateQuote | UpdateQuote | DeleteQuote | ListQuotes | SearchQuotes
  | GetTags | AddTag | UpdateTag | CleanupUnusedTags | DeleteTag
  | CheckDuplicate | SaveCustomImage
  | NotFound.

(** The [if]/[elif] chain of [lambda_handler] on [httpMethod] and [path]
    (each [''] when the event has none); [NotFound] is the 404 answer. *)
Definition lambda_handler_route (method path : pystr) : handler :=
  if str_eqb method (py "POST") && str_eqb path (py "/admin/quotes")
  then CreateQuote
  else if str_eqb method (py "PUT") && starts_with (py "/admin/quotes/") path
  then UpdateQuote
  else if str_eqb method (py "DELETE") &&
          starts_with (py "/admin/quotes/") path
  then DeleteQuote
  else if str_eqb method (py "GET") && str_eqb path (py "/admin/quotes")
  then ListQuotes
  else if str_eqb method (py "GET") && str_eqb path (py "/admin/search")
  then SearchQuotes
  else if str_eqb method (py "GET") && str_eqb path (py "/admin/tags")
  then GetTags
  else if str_eqb method (py "POST") && str_eqb path (py "/admin/tags")
  then AddTag
  else if str_eqb method (py "PUT") && starts_with (py "/admin/tags/") path
  then UpdateTag
  else if str_eqb method (py "DELETE") &&
          str_eqb path (py "/admin/tags/unused")
  then CleanupUnusedTags
  else if str_eqb method (py "DELETE") &&
          starts_with (py "/admin/tags/") path
  then DeleteTag
  else if str_eqb method (py "POST") &&
          str_eqb path (py "/admin/check-duplicate")
  then CheckDuplicate
  else if str_eqb method (py "POST") &&
          str_eqb path (py "/admin/save-custom-image")
  then SaveCustomImage
  else NotFound.

(** ** More of the handler: the tags *)

(** [s < t] on strings: by code points, a proper prefix first. *)
Fixpoint str_ltb (s t : pystr) : bool :=
  match s, t with
  | _, [] => false
  | [], _ :: _ => true
  | c :: s', d :: t' => (c <? d)%N || (c =? d)%N && str_ltb s' t'
  end.

(** [s <= t] *)
Definition str_leb (s t : pystr) : bool := negb (str_ltb t s).

(** [sorted(list(tags))] for a set [tags]: the members in increasing
    order, each once.  The list does not depend on the order in which the
    set is iterated; it is built here by insertion. *)
Fixpoint insert_sorted (x : pystr) (l : list pystr) : list pystr :=
  match l with
  | [] => [x]
  | y :: l' =>
      if str_ltb x y then x :: l
      else if str_eqb x y then l
      else y :: insert_sorted x l'
  end.

Definition sorted_set (members : list pystr) : list pystr :=
  fold_right insert_sorted [] members.

(** What a call of [get_item] gives: an exception, a response without
    [Item], or the item. *)
Inductive get_item_outcome (A : Type) :=
  | GetRaises
  | GetMissing
  | GetFound (found : A).

Arguments GetRaises {A}.
Arguments GetMissing {A}.
Arguments GetFound {A} found.

(** The record [update_tags_metadata] writes under the id
    [TAGS_METADATA]. *)
Record tags_record := {
  record_tags : list pystr;
  record_updated_at : pystr
}.

(** [update_tags_metadata(new_tags)].  [get] is the outcome of reading the
    metadata record, with the [tags] attribute of the record when it has
    one.  The result is the record handed to [put_item], [None] when
    [put_item] raises; the function itself never raises. *)
Definition update_tags_metadata (get : get_item_outcome (option (list pystr)))
    (put_raises : bool) (timestamp : pystr) (new_tags : list pystr)
    : option tags_record :=
  let current_tags :=
    match get with
    | GetFound (Some tags) => tags
    | GetFound None => []
    | GetMissing => []
    | GetRaises => []
    end in
  let current_tags :=
    match new_tags with
    | [] => current_tags
    | _ => current_tags ++ new_tags
    end in
  if put_raises then None
  else Some {| record_tags := sorted_set current_tags;
               record_updated_at := timestamp |}.

(** The tags [update_tags_metadata] starts from: those of the record it
    read, none when there is no record, no [tags] attribute, or the read
    raised. *)
Definition tags_read (get : get_item_outcome (option (list pystr)))
    : list pystr :=
  match get with
  | GetFound (Some tags) => tags
  | _ => []
  end.

(** ** More of the handler: scans of whole items *)

(** An item of the quotes table as the listing, the search and the tag
    handlers see it.  [id] is the key; every other attribute may be
    missing.  [tags] is a list of strings; the attributes the handlers name
    are fields, the other attributes of the item, all strings, are kept by
    name in [row_other]. *)
Record row := {
  row_id : pystr;
  row_type : option pystr;
  row_quote : option pystr;
  row_author : option pystr;
  row_tags : option (list pystr);
  row_created_at : option pystr;
  row_updated_at : option pystr;
  row_other : list (pystr * pystr)
}.

(** The responses of the successive calls of one [scan] loop, as
    [scan_trace] above but for any kind of item. *)
Inductive scan_of (A : Type) :=
  | More (items : list A) (next : scan_of A)
  | Last (items : list A)
  | Raises.

Arguments More {A} items next.
Arguments Last {A} items.
Arguments Raises {A}.

(** A loop that calls [scan] until no [LastEvaluatedKey] comes back and
    keeps the items of every page: all items in order, [None] when a call
    raises. *)
Fixpoint drain {A : Type} (s : scan_of A) : option (list A) :=
  match s with
  | Raises => None
  | Last items => Some items
  | More items next =>
      match drain next with
      | Some rest => Some (items ++ rest)
      | None => None
      end
  end.

(** The items of the first response alone: what a single call of [scan]
    gives. *)
Definition first_page {A : Type} (s : scan_of A) : option (list A) :=
  match s with
  | Raises => None
  | Last items => Some items
  | More items _ => Some items
  end.

Definition tags_of (r : row) : list pystr :=
  match row_tags r with Some tags => tags | None => [] end.

(** The names an item loop over the tags table adds to its set:
    [item.get('tag', '')] when it is not empty. *)
Definition tag_names_of (items : list (option pystr)) : list pystr :=
  flat_map (fun tag => match tag with
                       | Some (c :: name) => [c :: name]
                       | _ => []
                       end) items.

(** An entry of the list [get_tags_metadata] returns; [name] and [tag] hold
    the same string. *)
Record tag_info := { tag_name : pystr; tag_quote_count : Z }.

(** [get_tags_metadata()]: the tags of the tags table, sorted, each with the
    number of times it occurs in the [tags] of the items of the quotes
    table; the empty list when a scan raises. *)
Definition get_tags_metadata (tags_scan : scan_of (option pystr))
    (quotes_scan : scan_of row) : list tag_info :=
  match drain tags_scan with
  | None => []
  | Some tag_items =>
      let tag_names := tag_names_of tag_items in
      match drain quotes_scan with
      | None => []
      | Some quote_items =>
          let occurrences := flat_map tags_of quote_items in
          List.map (fun name =>
                 {| tag_name := name;
                    tag_quote_count := count_if (str_eqb name) occurrences |})
              (sorted_set tag_names)
      end
  end.

(** [get_used_tags()]: one call of [scan], no further page; the tags of the
    items other than the metadata record, sorted; the empty list when the
    call raises. *)
Definition get_used_tags (quotes_scan : scan_of row) : list pystr :=
  match first_page quotes_scan with
  | None => []
  | Some quotes =>
      sorted_set
        (flat_map tags_of
           (filter (fun quote =>
                      negb (str_eqb (row_id quote) (py "TAGS_METADATA")))
                   quotes))
  end.

(** The body of the 200 answers of [handle_cleanup_unused_tags]. *)
Record cleanup_report := {
  cleanup_message : pystr;
  removed_tags : list pystr;
  remaining_tags : list pystr;
  count_removed : Z;
  count_remaining : Z
}.

Inductive cleanup_body :=
  | CleanupError (error : pystr)
  | CleanupForbidden (error message : pystr)
  | CleanupDone (report : cleanup_report).

(** [handle_cleanup_unused_tags(event, user_claims)].  [delete_raises]
    tells for which tags [tags_table.delete_item] raises.  The second
    component lists the tags [delete_item] is called for (the source goes
    through them in the iteration order of a set; they are listed sorted). *)
Definition handle_cleanup_unused_tags (user : user_claims)
    (tags_scan : scan_of (option pystr)) (quotes_scan : scan_of row)
    (delete_raises : pystr -> bool) : Z * cleanup_body * list pystr :=
  if negb (is_admin user)
  then (403, CleanupForbidden (py "Forbidden") (py "Admin access required"),
        [])
  else
    match drain tags_scan with
    | None => (500, CleanupError (py "Internal server error"), [])
    | Some tag_items =>
        let all_tags := sorted_set (tag_names_of tag_items) in
        let used_tags := sorted_set (get_used_tags quotes_scan) in
        let unused_tags :=
          filter (fun tag => negb (str_in tag used_tags)) all_tags in
        match unused_tags with
        | [] =>
            (200,
             CleanupDone
               {| cleanup_message := py "No unused tags found";
                  removed_tags := [];
                  remaining_tags := used_tags;
                  count_removed := 0;
                  count_remaining := Z.of_nat (List.length used_tags) |},
             [])
        | _ =>
            let removed_count :=
              count_if (fun tag => negb (delete_raises tag)) unused_tags in
            (200,
             CleanupDone
               {| cleanup_message :=
                    py "Successfully removed " ++
                    Binary64.decimal removed_count ++ py " unused tags";
                  removed_tags := unused_tags;
                  remaining_tags := used_tags;
                  count_removed := removed_count;
                  count_remaining := Z.of_nat (List.length used_tags) |},
             unused_tags)
        end
    end.

(** [set(get_tags_metadata())]: the elements of the list are dictionaries,
    which are not hashable, so [set] raises [TypeError] unless the list is
    empty. *)
Definition set_of_tag_dicts (tags : list tag_info) : option (list pystr) :=
  match tags with
  | [] => Some []
  | _ :: _ => None
  end.

(** The body of a tag request after [json.loads]. *)
Inductive tag_request :=
  | TagJSONDecodeError
  | TagJson (tag : option pystr).

Inductive tag_body :=
  | TagForbidden (error message : pystr)
  | TagError (error : pystr)
  | TagAdded (message tag : pystr) (all_tags : list pystr)
  | TagUpdated (message old_tag new_tag : pystr) (quotes_updated : Z)
      (all_tags : list pystr).

(** The writes of the tag handlers on the quotes table. *)
Inductive tag_write :=
  | PutTagsRecord (r : tags_record)
  | PutRow (r : row).

(** [handle_add_tag(event, user_claims)]; [tags_metadata] is what
    [get_tags_metadata()] returns. *)
Definition handle_add_tag (user : user_claims) (event_body : tag_request)
    (tags_metadata : list tag_info) (put_raises : bool) (timestamp : pystr)
    : Z * tag_body * list tag_write :=
  if negb (is_admin user)
  then (403, TagForbidden (py "Forbidden") (py "Admin access required"), [])
  else
    match event_body with
    | TagJSONDecodeError =>
        (400, TagError (py "Invalid JSON in request body"), [])
    | TagJson tag =>
        let new_tag := strip (or_default tag []) in
        if is_empty new_tag
        then (400, TagError (py "Tag name is required"), [])
        else
          match set_of_tag_dicts tags_metadata with
          | None => (500, TagError (py "Internal server error"), [])
          | Some current_tags =>
              if str_in new_tag current_tags
              then (400, TagError (py "Tag '" ++ new_tag ++
                                   py "' already exists"), [])
              else
                let current_tags := sorted_set (new_tag :: current_tags) in
                if put_raises
                then (500, TagError (py "Internal server error"), [])
                else
                  (201,
                   TagAdded (py "Successfully added tag '" ++ new_tag ++
                             py "'") new_tag current_tags,
                   [PutTagsRecord {| record_tags := current_tags;
                                     record_updated_at := timestamp |}])
          end
    end.

(** [current_tags.remove(old_tag)] on the sorted members of a set. *)
Definition set_remove (x : pystr) (members : list pystr) : list pystr :=
  filter (fun y => negb (str_eqb x y)) members.

(** The loop of [handle_update_tag] over the items of one call of [scan]:
    the items rewritten, in order. *)
Definition retag (old_tag new_tag timestamp : pystr) (items : list row)
    : list row :=
  flat_map
    (fun item =>
       match row_tags item with
       | Some tags =>
           if negb (str_eqb (row_id item) (py "TAGS_METADATA")) &&
              str_in old_tag tags
           then [{| row_id := row_id item; row_type := row_type item;
                    row_quote := row_quote item;
                    row_author := row_author item;
                    row_tags :=
                      Some (List.map (fun tag => if str_eqb tag old_tag
                                                 then new_tag else tag) tags);
                    row_created_at := row_created_at item;
                    row_updated_at := Some timestamp;
                    row_other := row_other item |}]
           else []
       | None => []
       end) items.

(** The calls of [put_item] of the loop, up to the first one that raises:
    the items written, and whether a call raised. *)
Fixpoint put_rows (put_raises : tag_write -> bool) (rows : list row)
    : list tag_write * bool :=
  match rows with
  | [] => ([], false)
  | r :: rows' =>
      if put_raises (PutRow r) then ([], true)
      else let '(written, raised) := put_rows put_raises rows' in
           (PutRow r :: written, raised)
  end.

(** [handle_update_tag(event, user_claims)]; [path_tag] is the [tag] path
    parameter, [tags_metadata] what [get_tags_metadata()] returns, and
    [put_raises] tells for which items [put_item] raises. *)
Definition handle_update_tag (user : user_claims) (path_tag : option pystr)
    (event_body : tag_request) (tags_metadata : list tag_info)
    (quotes_scan : scan_of row) (put_raises : tag_write -> bool)
    (timestamp : pystr)
    : Z * tag_body * list tag_write :=
  if negb (is_admin user)
  then (403, TagForbidden (py "Forbidden") (py "Admin access required"), [])
  else
    match path_tag with
    | None | Some [] => (400, TagError (py "Tag name is required in path"), [])
    | Some old_tag =>
        match event_body with
        | TagJSONDecodeError =>
            (400, TagError (py "Invalid JSON in request body"), [])
        | TagJson tag =>
            let new_tag := strip (or_default tag []) in
            if is_empty new_tag
            then (400, TagError (py "New tag name is required"), [])
            else if str_eqb old_tag new_tag
            then (400, TagError
                    (py "New tag name must be different from old tag name"),
                  [])
            else
              match set_of_tag_dicts tags_metadata with
              | None => (500, TagError (py "Internal server error"), [])
              | Some current_tags =>
                  if negb (str_in old_tag current_tags)
                  then (404, TagError (py "Tag '" ++ old_tag ++
                                       py "' not found"), [])
                  else if str_in new_tag current_tags
                  then (400, TagError (py "Tag '" ++ new_tag ++
                                       py "' already exists"), [])
                  else
                    let current_tags :=
                      sorted_set (new_tag :: set_remove old_tag current_tags) in
                    let metadata :=
                      PutTagsRecord {| record_tags := current_tags;
                                       record_updated_at := timestamp |} in
                    if put_raises metadata
                    then (500, TagError (py "Internal server error"), [])
                    else
                      match first_page quotes_scan with
                      | None =>
                          (500, TagError (py "Internal server error"),
                           [metadata])
                      | Some all_items =>
                          let '(written, raised) :=
                            put_rows put_raises
                              (retag old_tag new_tag timestamp all_items) in
                          if raised
                          then (500, TagError (py "Internal server error"),
                                metadata :: written)
                          else
                            (200,
                             TagUpdated
                               (py "Successfully updated tag '" ++ old_tag ++
                                py "' to '" ++ new_tag ++ py "'")
                               old_tag new_tag
                               (Z.of_nat (List.length written)) current_tags,
                             metadata :: written)
                      end
              end
        end
    end.

(** ** More of the handler: listing and searching *)

(** [int(query_params.get(name, default))]: the parameter is missing, holds
    an integer literal, or holds a text [int] raises [ValueError] on. *)
Inductive int_param :=
  | IntAbsent
  | IntValue (z : Z)
  | IntInvalid.

(** The query string parameters the two handlers read. *)
Record query_params := {
  param_q : option pystr;
  param_limit : int_param;
  param_sort_by : option pystr;
  param_sort_order : option pystr
}.

(** [list.sort(key=..., reverse=...)] is a stable sort: among the
    orderings of the list by key it is the one that keeps items of equal
    key in their order.  It is computed here by insertion; with
    [reverse=True] the list is reversed before and after, as the
    interpreter does. *)
Fixpoint insert_by (key : row -> pystr) (x : row) (l : list row) : list row :=
  match l with
  | [] => [x]
  | y :: l' =>
      if str_leb (key x) (key y) then x :: l else y :: insert_by key x l'
  end.

Definition stable_sort (key : row -> pystr) (l : list row) : list row :=
  fold_right (insert_by key) [] l.

Definition list_sort (key : row -> pystr) (reverse : bool) (l : list row)
    : list row :=
  if reverse then rev (stable_sort key (rev l)) else stable_sort key l.

(** The keys of the four sort fields. *)
Definition quote_key {L : Lowering} (x : row) : pystr :=
  str_lower (or_default (row_quote x) []).
Definition author_key {L : Lowering} (x : row) : pystr :=
  str_lower (or_default (row_author x) []).
Definition created_at_key (x : row) : pystr := or_default (row_created_at x) [].
Definition updated_at_key (x : row) : pystr := or_default (row_updated_at x) [].

(** The [if]/[elif] chain that sorts the quotes. *)
Definition sort_quotes {L : Lowering} (sort_by : pystr) (reverse_sort : bool)
    (quotes : list row) : list row :=
  if str_eqb sort_by (py "quote")
  then list_sort quote_key reverse_sort quotes
  else if str_eqb sort_by (py "author")
  then list_sort author_key reverse_sort quotes
  else if str_eqb sort_by (py "created_at")
  then list_sort created_at_key reverse_sort quotes
  else if str_eqb sort_by (py "updated_at")
  then list_sort updated_at_key reverse_sort quotes
  else quotes.

(** The value of an attribute: a string or a list of strings. *)
Inductive attribute :=
  | Text (s : pystr)
  | TextList (l : list pystr).

Fixpoint lookup (name : pystr) (others : list (pystr * pystr))
    : option pystr :=
  match others with
  | [] => None
  | (n, v) :: others' => if str_eqb n name then Some v else lookup name others'
  end.

(** [item.get(name, '')] *)
Definition get_attribute (name : pystr) (x : row) : attribute :=
  let text (o : option pystr) := Text (or_default o []) in
  if str_eqb name (py "id") then Text (row_id x)
  else if str_eqb name (py "type") then text (row_type x)
  else if str_eqb name (py "quote") then text (row_quote x)
  else if str_eqb name (py "author") then text (row_author x)
  else if str_eqb name (py "tags")
  then match row_tags x with Some l => TextList l | None => Text [] end
  else if str_eqb name (py "created_at") then text (row_created_at x)
  else if str_eqb name (py "updated_at") then text (row_updated_at x)
  else text (lookup name (row_other x)).

(** [l[:limit]], also for a negative [limit]. *)
Definition slice_to {A : Type} (l : list A) (limit : Z) : list A :=
  if 0 <=? limit then firstn (Z.to_nat limit) l
  else firstn (Z.to_nat (Z.of_nat (List.length l) + limit)) l.

(** The items the listing and the search keep: neither the metadata record
    nor an image generation job. *)
Definition is_quote_row (item : row) : bool :=
  negb (str_eqb (row_id item) (py "TAGS_METADATA")) &&
  negb (match row_type item with
        | Some t => str_eqb t (py "image_generation_job")
        | None => false
        end).

(** The pagination key, before [json.dumps]: the id of the last item of
    the page and its value for the sort field; the listing adds [sort_by]
    and [sort_order]. *)
Record page_key := {
  key_id : pystr;
  key_sort_value : attribute;
  key_sort : option (pystr * pystr)
}.

Inductive listing_body :=
  | ListingForbidden (error message : pystr)
  | ListingError (error : pystr)
  | InvalidSortField
  | InvalidSortOrder
  | Listing (quotes : list row) (total_count : Z) (count : Z)
      (has_more : bool) (last_key : option page_key).

Definition limit_of (p : int_param) : option Z :=
  match p with
  | IntAbsent => Some (Z.min 50 1000)
  | IntValue z => Some (Z.min z 1000)
  | IntInvalid => None
  end.

(** The end of both handlers: sort, cut the page, build the key
    ([with_sort] for the key of the listing). *)
Definition paginate {L : Lowering} (with_sort : bool) (sort_by sort_order : pystr)
    (limit : Z) (quotes : list row) : list row * bool * option page_key :=
  let reverse_sort := str_eqb sort_order (py "desc") in
  let sorted := sort_quotes sort_by reverse_sort quotes in
  let quotes_page := slice_to sorted limit in
  let has_more := limit <? Z.of_nat (List.length sorted) in
  let next_last_key :=
    match rev quotes_page with
    | last_item :: _ =>
        if has_more
        then Some {| key_id := row_id last_item;
                     key_sort_value := get_attribute sort_by last_item;
                     key_sort := if with_sort
                                 then Some (sort_by, sort_order) else None |}
        else None
    | [] => None
    end in
  (quotes_page, has_more, next_last_key).

(** [handle_list_quotes(event, user_claims)].  The [last_key] parameter only
    changes the key the first calls of [scan] are given; the responses of
    the calls are [quotes_scan]. *)
Definition handle_list_quotes {L : Lowering} (user : user_claims) (params : query_params)
    (quotes_scan : scan_of row) : Z * listing_body :=
  if negb (is_admin user)
  then (403, ListingForbidden (py "Forbidden") (py "Admin access required"))
  else
    match limit_of (param_limit params) with
    | None => (500, ListingError (py "Internal server error"))
    | Some limit =>
        let sort_by := or_default (param_sort_by params) (py "created_at") in
        let sort_order := or_default (param_sort_order params) (py "desc") in
        if negb (str_in sort_by [py "quote"; py "author"; py "created_at";
                                 py "updated_at"])
        then (400, InvalidSortField)
        else if negb (str_in sort_order [py "asc"; py "desc"])
        then (400, InvalidSortOrder)
        else
          match drain quotes_scan with
          | None => (500, ListingError (py "Internal server error"))
          | Some items =>
              let all_quotes := filter is_quote_row items in
              let '(quotes_page, has_more, next_last_key) :=
                paginate true sort_by sort_order limit all_quotes in
              (200, Listing quotes_page
                      (Z.of_nat (List.length all_quotes))
                      (Z.of_nat (List.length quotes_page))
                      has_more next_last_key)
          end
    end.

(** The test of the search loop on one item, for the lower-cased query. *)
Definition matches_query {L : Lowering} (search_query : pystr) (item : row)
    : bool :=
  let quote_text := str_lower (or_default (row_quote item) []) in
  let author := str_lower (or_default (row_author item) []) in
  let tags := List.map str_lower (tags_of item) in
  occurs_in search_query quote_text ||
  occurs_in search_query author ||
  str_in search_query tags ||
  existsb (occurs_in search_query) tags.

Inductive search_body :=
  | SearchForbidden (error message : pystr)
  | SearchError (error : pystr)
  | SearchResults (quotes : list row) (total : Z) (has_more : bool)
      (last_key : option page_key).

(** [handle_search_quotes(event, user_claims)] *)
Definition handle_search_quotes {L : Lowering} (user : user_claims) (params : query_params)
    (quotes_scan : scan_of row) : Z * search_body :=
  if negb (is_admin user)
  then (403, SearchForbidden (py "Forbidden") (py "Admin access required"))
  else
    let search_query := str_lower (or_default (param_q params) []) in
    match limit_of (param_limit params) with
    | None => (500, SearchError (py "Internal server error"))
    | Some limit =>
        let sort_by := or_default (param_sort_by params) (py "created_at") in
        let sort_order := or_default (param_sort_order params) (py "desc") in
        if is_empty search_query
        then (400, SearchError (py "Search query is required"))
        else
          match drain quotes_scan with
          | None => (500, SearchError (py "Internal server error"))
          | Some items =>
              let matching_quotes :=
                filter (fun item => is_quote_row item &&
                                    matches_query search_query item) items in
              let '(quotes_page, has_more, next_last_key) :=
                paginate false sort_by sort_order limit matching_quotes in
              (200, SearchResults quotes_page
                      (Z.of_nat (List.length matching_quotes))
                      has_more next_last_key)
          end
    end.

(** A row with a quote, for the examples. *)
Definition tagged_row (id : string) (tags : list pystr) : row :=
  {| row_id := py id; row_type := None; row_quote := Some (py "quote");
     row_author := Some (py "author"); row_tags := Some tags;
     row_created_at := None; row_updated_at := None; row_other := [] |}.

(** The key the listing sorts by, for a valid sort field. *)
Definition sort_key_of {L : Lowering} (sort_by : pystr) : row -> pystr :=
  if str_eqb sort_by (py "quote") then quote_key
  else if str_eqb sort_by (py "author") then author_key
  else if str_eqb sort_by (py "created_at") then created_at_key
  else updated_at_key.

(** A list in the order asked for: keys never decrease ([asc]) or never
    increase ([desc]). *)
Definition in_order (key : row -> pystr) (descending : bool) (l : list row)
    : Prop :=
  if descending
  then StronglySorted (fun a b => str_leb (key b) (key a) = true) l
  else StronglySorted (fun a b => str_leb (key a) (key b) = true) l.

(** The query occurs in the lower-cased quote, author or one of the tags. *)
Definition contains_query {L : Lowering} (search_query : pystr) (item : row)
    : bool :=
  occurs_in search_query (str_lower (or_default (row_quote item) [])) ||
  occurs_in search_query (str_lower (or_default (row_author item) [])) ||
  existsb (fun tag => occurs_in search_query (str_lower tag)) (tags_of item).

(** ** More of the handler: deleting a tag *)

(** The bodies of the answers of [handle_delete_tag]; [DeleteTagFailure]
    is an error text that ends with the text of the exception caught. *)
Inductive delete_tag_body :=
  | DeleteTagForbidden (error message : pystr)
  | DeleteTagError (error : pystr)
  | DeleteTagFailure (error_prefix : pystr)
  | TagDeleted (message deleted_tag : pystr) (quotes_updated : Z).

(** The writes of [handle_delete_tag]: items put back into the quotes
    table and the key deleted from the tags table. *)
Inductive delete_tag_write :=
  | RewriteRow (r : row)
  | DeleteTagItem (tag : pystr).

(** The item the loop of [handle_delete_tag] writes for a scanned item,
    [None] for an item it leaves alone. *)
Definition untag (tag_to_delete timestamp : pystr) (item : row) : option row :=
  match row_quote item, row_author item with
  | Some _, Some _ =>
      match row_tags item with
      | Some tags =>
          if str_in tag_to_delete tags
          then Some {| row_id := row_id item; row_type := row_type item;
                       row_quote := row_quote item;
                       row_author := row_author item;
                       row_tags :=
                         Some (filter (fun tag =>
                                         negb (str_eqb tag tag_to_delete))
                                      tags);
                       row_created_at := row_created_at item;
                       row_updated_at := Some timestamp;
                       row_other := row_other item |}
          else None
      | None => None
      end
  | _, _ => None
  end.

(** The [for item in ...] loop on one page: the items written, and whether
    a call of [put_item] raised. *)
Fixpoint untag_page (put_raises : row -> bool)
    (tag_to_delete timestamp : pystr) (items : list row) : list row * bool :=
  match items with
  | [] => ([], false)
  | item :: items' =>
      match untag tag_to_delete timestamp item with
      | Some updated =>
          if put_raises updated then ([], true)
          else
            let '(written, raised) :=
              untag_page put_raises tag_to_delete timestamp items' in
            (updated :: written, raised)
      | None => untag_page put_raises tag_to_delete timestamp items'
      end
  end.

(** The [while True] loop: pages are fetched and rewritten one after the
    other; the items written, and whether [scan] or [put_item] raised. *)
Fixpoint untag_scan (put_raises : row -> bool)
    (tag_to_delete timestamp : pystr) (s : scan_of row) : list row * bool :=
  match s with
  | Raises => ([], true)
  | Last items => untag_page put_raises tag_to_delete timestamp items
  | More items next =>
      let '(written, raised) :=
        untag_page put_raises tag_to_delete timestamp items in
      if raised then (written, true)
      else
        let '(written', raised') :=
          untag_scan put_raises tag_to_delete timestamp next in
        (written ++ written', raised')
  end.

Section DeleteTag.

(** [urllib.parse.unquote] *)
Variable unquote : pystr -> pystr.

(** [handle_delete_tag(event, user_claims)].  [path_tag] is the [tag] path
    parameter, [tag_item] the outcome of [tags_table.get_item] for a tag,
    [put_raises] tells for which items [put_item] raises and
    [delete_raises] whether [tags_table.delete_item] does. *)
Definition handle_delete_tag (user : user_claims) (path_tag : option pystr)
    (tag_item : pystr -> get_item_outcome unit) (quotes_scan : scan_of row)
    (put_raises : row -> bool) (delete_raises : bool) (timestamp : pystr)
    : Z * delete_tag_body * list delete_tag_write :=
  if negb (is_admin user)
  then (403, DeleteTagForbidden (py "Forbidden") (py "Admin access required"),
        [])
  else
    match path_tag with
    | None | Some [] =>
        (400, DeleteTagError (py "Tag name is required in path"), [])
    | Some raw =>
        let tag_to_delete := unquote raw in
        match tag_item tag_to_delete with
        | GetRaises =>
            (500, DeleteTagFailure (py "Error checking tag existence: "), [])
        | GetMissing =>
            (404, DeleteTagError (py "Tag '" ++ tag_to_delete ++
                                  py "' not found"), [])
        | GetFound _ =>
            let '(written, raised) :=
              untag_scan put_raises tag_to_delete timestamp quotes_scan in
            if raised
            then (500, DeleteTagError (py "Internal server error"),
                  List.map RewriteRow written)
            else if delete_raises
            then (500,
                  DeleteTagFailure
                    (py "Failed to delete tag from tags table: "),
                  List.map RewriteRow written)
            else
              (200,
               TagDeleted (py "Successfully deleted tag '" ++ tag_to_delete ++
                           py "'") tag_to_delete
                          (Z.of_nat (List.length written)),
               List.map RewriteRow written ++ [DeleteTagItem tag_to_delete])
        end
    end.

End DeleteTag.

(** The items [handle_delete_tag] has to rewrite: those with a quote, an
    author and the tag among their tags. *)
Definition carries_tag (tag : pystr) (item : row) : bool :=
  match row_quote item, row_author item, row_tags item with
  | Some _, Some _, Some tags => str_in tag tags
  | _, _, _ => false
  end.

(** Sample rows and requests for the listing and the search. *)
Definition quote_row (id quote author created_at : string) : row :=
  {| row_id := py id; row_type := None; row_quote := Some (py quote);
     row_author := Some (py author); row_tags := Some [py "Life"];
     row_created_at := Some (py created_at); row_updated_at := None;
     row_other := [] |}.

Definition tags_metadata_row : row :=
  {| row_id := py "TAGS_METADATA"; row_type := None; row_quote := None;
     row_author := None; row_tags := Some [py "Life"];
     row_created_at := None; row_updated_at := Some (py "2024-03-01");
     row_other := [] |}.

Definition sample_rows : scan_of row :=
  More [tags_metadata_row;
        quote_row "q1" "Be yourself" "Oscar Wilde" "2024-01-03";
        quote_row "q2" "Know thyself" "Socrates" "2024-01-01"]
       (Last [quote_row "q3" "I can resist everything except temptation"
                        "oscar wilde" "2024-01-02"]).

Definition sample_listing : query_params :=
  {| param_q := None; param_limit := IntValue 2;
     param_sort_by := Some (py "created_at");
     param_sort_order := Some (py "asc") |}.

Definition sample_search : query_params :=
  {| param_q := Some (py "WILDE"); param_limit := IntAbsent;
     param_sort_by := None; param_sort_order := None |}.

(** The verdict, the count and the list of duplicates of a response that
    reports duplicates. *)
Definition reported_duplicates (r : response)
    : option (bool * Z * list duplicate) :=
  match body r with
  | DuplicateDetected _ _ is_duplicate duplicate_count duplicates =>
      Some (is_duplicate, duplicate_count, duplicates)
  | DuplicateReport is_duplicate duplicate_count duplicates _ =>
      Some (is_duplicate, duplicate_count, duplicates)
  | _ => None
  end.

(** * Properties

    A statement with a lower-casing [L] among its variables holds for every
    lower-casing function, the interpreter's among them.  A statement
    without one runs the handler on texts of the two Latin blocks, with
    their case table. *)

#[global] Existing Instance latin1_lowering | 10.

(** ** Strings and counting loops *)

Ltac nodup_words :=
  repeat (apply NoDup_cons; [simpl; intuition discriminate|]); apply NoDup_nil.

Lemma str_eqb_eq (s t : pystr) : str_eqb s t = true <-> s = t.
Proof.
  revert t; induction s as [|c s IH]; intros [|d t]; simpl;
    try (split; [discriminate | congruence]); try tauto.
  unfold char_eqb. rewrite andb_true_iff, N.eqb_eq, IH.
  split; [intros [-> ->]; reflexivity | intros H; inversion H; auto].
Qed.

Lemma str_eqb_refl (s : pystr) : str_eqb s s = true.
Proof. apply str_eqb_eq; reflexivity. Qed.

Lemma str_eqb_sym (s t : pystr) : str_eqb s t = str_eqb t s.
Proof.
  destruct (str_eqb s t) eqn:E, (str_eqb t s) eqn:F; auto.
  - apply str_eqb_eq in E; subst. rewrite str_eqb_refl in F; discriminate.
  - apply str_eqb_eq in F; subst. rewrite str_eqb_refl in E; discriminate.
Qed.

Lemma str_in_In (w : pystr) (ws : list pystr) : str_in w ws = true <-> In w ws.
Proof.
  unfold str_in. rewrite existsb_exists. split.
  - intros (x & Hx & E). apply str_eqb_eq in E; subst; assumption.
  - intros H. exists w. split; [assumption | apply str_eqb_refl].
Qed.

Lemma count_if_from {A : Type} (p : A -> bool) (xs : list A) (n : Z) :
  fold_left (fun n x => if p x then n + 1 else n) xs n =
  n + Z.of_nat (List.length (filter p xs)).
Proof.
  revert n; induction xs as [|x xs IH]; intros n; simpl; [lia|].
  rewrite IH. destruct (p x); simpl List.length; lia.
Qed.

Lemma count_if_filter {A : Type} (p : A -> bool) (xs : list A) :
  count_if p xs = Z.of_nat (List.length (filter p xs)).
Proof. unfold count_if. rewrite count_if_from. lia. Qed.

Lemma count_if_bounds {A : Type} (p : A -> bool) (xs : list A) :
  0 <= count_if p xs <= Z.of_nat (List.length xs).
Proof.
  rewrite count_if_filter. pose proof (filter_length_le p xs). lia.
Qed.

Lemma count_if_ext {A : Type} (p q : A -> bool) (xs : list A) :
  (forall x, p x = q x) -> count_if p xs = count_if q xs.
Proof.
  intros H. rewrite !count_if_filter. f_equal. f_equal.
  apply filter_ext; assumption.
Qed.

Lemma range_length (n : Z) : 0 <= n -> Z.of_nat (List.length (range n)) = n.
Proof. intros H. unfold range. rewrite length_map, length_seq. lia. Qed.

(** ** Rounding *)

Module Binary64Facts.
Import Binary64.

Lemma round_half_even_nonneg (n d : Z) :
  0 <= n -> 0 < d -> 0 <= round_half_even n d.
Proof.
  intros Hn Hd. unfold round_half_even.
  assert (0 <= n / d) by (apply Z.div_pos; lia).
  destruct (2 * (n mod d) <? d); [lia|].
  destruct (d <? 2 * (n mod d)); [lia|].
  destruct (Z.even (n / d)); lia.
Qed.

Lemma round_half_even_le (n d k : Z) :
  0 < d -> n <= k * d -> round_half_even n d <= k.
Proof.
  intros Hd Hn. unfold round_half_even.
  pose proof (Z.div_mod n d ltac:(lia)) as E.
  pose proof (Z.mod_pos_bound n d Hd) as B.
  assert (n / d <= k) by nia.
  destruct (2 * (n mod d) <? d) eqn:L1; [lia|].
  apply Z.ltb_ge in L1.
  assert (n / d < k) by nia.
  destruct (d <? 2 * (n mod d)); [lia|].
  destruct (Z.even (n / d)); lia.
Qed.

(** The rounded quotient is within half a unit of the exact one. *)
Lemma round_half_even_nearest (n d : Z) :
  0 < d -> 2 * Z.abs (round_half_even n d * d - n) <= d.
Proof.
  intros Hd. unfold round_half_even.
  pose proof (Z.div_mod n d ltac:(lia)) as E.
  pose proof (Z.mod_pos_bound n d Hd) as B.
  destruct (2 * (n mod d) <? d) eqn:L1.
  - apply Z.ltb_lt in L1. nia.
  - apply Z.ltb_ge in L1. destruct (d <? 2 * (n mod d)) eqn:L2.
    + apply Z.ltb_lt in L2. nia.
    + apply Z.ltb_ge in L2. destruct (Z.even (n / d)); nia.
Qed.

(** [exponent a b] is the binary exponent of the quotient:
    [b * 2^e <= a < b * 2^(e+1)]. *)
Lemma exponent_spec (a b : Z) :
  0 < a -> 0 < b ->
  scaled_le b (exponent a b) a = true /\
  scaled_le b (exponent a b + 1) a = false.
Proof.
  intros Ha Hb.
  destruct (Z.log2_spec a Ha) as [A1 A2].
  destruct (Z.log2_spec b Hb) as [B1 B2].
  pose proof (Z.log2_nonneg a) as La. pose proof (Z.log2_nonneg b) as Lb.
  set (la := Z.log2 a) in *. set (lb := Z.log2 b) in *.
  assert (Up : scaled_le b (la - lb + 1) a = false).
  { unfold scaled_le. destruct (0 <=? la - lb + 1) eqn:S.
    - apply Z.leb_le in S. apply Z.leb_gt.
      replace (Z.succ la) with (lb + (la - lb + 1)) in A2 by lia.
      rewrite Z.pow_add_r in A2 by lia.
      assert (0 < 2 ^ (la - lb + 1)) by (apply Z.pow_pos_nonneg; lia). nia.
    - apply Z.leb_gt in S. apply Z.leb_gt.
      replace (Z.succ lb) with (lb + 1) in B2 by lia.
      assert (E : 2 ^ lb = 2 ^ (Z.succ la) * 2 ^ (- (la - lb + 1))).
      { rewrite <- Z.pow_add_r by lia. f_equal. lia. }
      assert (0 < 2 ^ (- (la - lb + 1))) by (apply Z.pow_pos_nonneg; lia).
      nia. }
  assert (Down : scaled_le b (la - lb - 1) a = true).
  { unfold scaled_le. destruct (0 <=? la - lb - 1) eqn:S.
    - apply Z.leb_le in S. apply Z.leb_le.
      assert (E : 2 ^ la = 2 ^ (Z.succ lb) * 2 ^ (la - lb - 1)).
      { rewrite <- Z.pow_add_r by lia. f_equal. lia. }
      assert (0 < 2 ^ (la - lb - 1)) by (apply Z.pow_pos_nonneg; lia).
      nia.
    - apply Z.leb_gt in S. apply Z.leb_le.
      assert (E : 2 ^ (Z.succ lb) = 2 ^ la * 2 ^ (- (la - lb - 1))).
      { rewrite <- Z.pow_add_r by lia. f_equal. lia. }
      assert (0 < 2 ^ (- (la - lb - 1))) by (apply Z.pow_pos_nonneg; lia).
      nia. }
  unfold exponent. fold la lb.
  destruct (scaled_le b (la - lb) a) eqn:S.
  - split; [exact S | exact Up].
  - replace (la - lb - 1 + 1) with (la - lb) by lia.
    split; [exact Down | exact S].
Qed.

Lemma exponent_le_0 (a b : Z) : 0 < a -> a <= b -> exponent a b <= 0.
Proof.
  intros Ha Hab. unfold exponent.
  pose proof (Z.log2_le_mono a b Hab).
  destruct (scaled_le b (Z.log2 a - Z.log2 b) a); lia.
Qed.

Lemma div_nonneg (a b : Z) : (0 <= div a b)%Q.
Proof.
  unfold div. destruct ((a <=? 0) || (b <=? 0)) eqn:G; [apply Qle_refl|].
  apply orb_false_iff in G. destruct G as [Ga Gb].
  apply Z.leb_gt in Ga, Gb.
  rewrite Qred_correct.
  destruct (0 <=? 52 - exponent a b) eqn:S; unfold Qle; cbn [Qnum Qden].
  - apply Z.leb_le in S. rewrite Z.mul_1_r.
    apply round_half_even_nonneg; [|assumption].
    apply Z.mul_nonneg_nonneg; [lia|]. apply Z.pow_nonneg; lia.
  - apply Z.leb_gt in S. rewrite !Z.mul_1_r.
    assert (0 < 2 ^ (- (52 - exponent a b))) by (apply Z.pow_pos_nonneg; lia).
    apply Z.mul_nonneg_nonneg; [|lia].
    apply round_half_even_nonneg; [lia|]. apply Z.mul_pos_pos; lia.
Qed.

Lemma div_le_1 (a b : Z) : a <= b -> (div a b <= 1)%Q.
Proof.
  intros Hab. unfold div.
  destruct ((a <=? 0) || (b <=? 0)) eqn:G; [discriminate|].
  apply orb_false_iff in G. destruct G as [Ga Gb].
  apply Z.leb_gt in Ga, Gb.
  rewrite Qred_correct.
  pose proof (exponent_le_0 a b Ga Hab) as He.
  destruct (0 <=? 52 - exponent a b) eqn:S; [|apply Z.leb_gt in S; lia].
  assert (P : 0 < 2 ^ (52 - exponent a b)) by (apply Z.pow_pos_nonneg; lia).
  unfold Qle; cbn [Qnum Qden]. rewrite Z.mul_1_r, Z.mul_1_l, Z2Pos.id by assumption.
  apply round_half_even_le; [assumption|]. nia.
Qed.

End Binary64Facts.

(** The rounding agrees with the interpreter on sample quotients:
    [9/10] is [0x1.ccccccccccccdp-1], [7/8] is exact, and [191/200] prints
    as [0.95] although the rational is a tie between 0.95 and 0.96. *)
Example div_9_10 :
  Binary64.div 9 10 = (8106479329266893 # 9007199254740992)%Q.
Proof. vm_compute. reflexivity. Qed.

Example div_7_8 : Binary64.div 7 8 = (7 # 8)%Q.
Proof. vm_compute. reflexivity. Qed.

Example div_2_3 :
  Binary64.div 2 3 = (6004799503160661 # 9007199254740992)%Q.
Proof. vm_compute. reflexivity. Qed.

Example div_8_5 :
  Binary64.div 8 5 = (3602879701896397 # 2251799813685248)%Q.
Proof. vm_compute. reflexivity. Qed.

Example literal_0_85 :
  Binary64.literal 85 100 = (7656119366529843 # 9007199254740992)%Q.
Proof. vm_compute. reflexivity. Qed.

Example literal_0_95 :
  Binary64.literal 95 100 = (4278419646001971 # 4503599627370496)%Q.
Proof. vm_compute. reflexivity. Qed.

Example format_2f_191_200 :
  Binary64.format_2f (Binary64.div 191 200) = py "0.95".
Proof. vm_compute. reflexivity. Qed.

Example format_2f_7_8 : Binary64.format_2f (Binary64.div 7 8) = py "0.88".
Proof. vm_compute. reflexivity. Qed.

(** ** The similarity scorer *)

Section Similarity.

Variables text1 text2 : pystr.

(** The number of matching positions is at most the longer length. *)
Lemma matches_le_max_length (p : Z -> bool) :
  count_if p (range (Z.max (len text1) (len text2))) <=
  Z.max (len text1) (len text2).
Proof.
  pose proof (count_if_bounds p (range (Z.max (len text1) (len text2)))).
  rewrite range_length in H; [lia|]. unfold len; lia.
Qed.

(** Each word of [text1] is counted once per occurrence. *)
Lemma common_words_le_words1 (p : pystr -> bool) :
  count_if p (split_space text1) <=
  Z.of_nat (List.length (split_space text1)).
Proof. apply count_if_bounds. Qed.

(** When no shared word is counted twice, the counted words are distinct
    words of [text2]. *)
Lemma common_words_le_words2 :
  NoDup (shared_words text1 text2) ->
  count_if (fun word1 => str_in word1 (split_space text2) && (2 <? len word1))
           (split_space text1) <=
  Z.of_nat (List.length (split_space text2)).
Proof.
  intros ND. rewrite count_if_filter. apply inj_le.
  apply NoDup_incl_length; [exact ND|].
  intros w Hw. apply filter_In in Hw. destruct Hw as [_ Hw].
  apply andb_true_iff in Hw. apply str_in_In, Hw.
Qed.

End Similarity.

Lemma calculate_similarity_nonneg (text1 text2 : pystr) :
  (0 <= calculate_similarity text1 text2)%Q.
Proof.
  unfold calculate_similarity.
  destruct (is_empty text1 && is_empty text2); [discriminate|].
  destruct (is_empty text1 || is_empty text2); [apply Qle_refl|].
  destruct (Z.abs (len text1 - len text2) <=? 3).
  - destruct (0 <? Z.max (len text1) (len text2));
      [apply Binary64Facts.div_nonneg | apply Qle_refl].
  - match goal with |- context [if ?c then _ else _] => destruct c end;
      [apply Binary64Facts.div_nonneg | apply Qle_refl].
Qed.

(** C2, as the scorer computes it: the score is a float in [0.0, 1.0]
    whenever the two lengths differ by at most 3, or no word of more than
    two characters that occurs in [text2.split(' ')] occurs more than once
    in [text1.split(' ')].  (Every occurrence in [text1] of a word of
    [text2] is counted, so a repeated word can push the score above 1.0.) *)
Theorem calculate_similarity_range (text1 text2 : pystr) :
  Z.abs (len text1 - len text2) <= 3 \/ NoDup (shared_words text1 text2) ->
  (0 <= calculate_similarity text1 text2 <= 1)%Q.
Proof.
  intros H. split; [apply calculate_similarity_nonneg|].
  unfold calculate_similarity.
  destruct (is_empty text1 && is_empty text2); [apply Qle_refl|].
  destruct (is_empty text1 || is_empty text2); [discriminate|].
  destruct (Z.abs (len text1 - len text2) <=? 3) eqn:D.
  - destruct (0 <? Z.max (len text1) (len text2)); [|discriminate].
    apply Binary64Facts.div_le_1, matches_le_max_length.
  - apply Z.leb_gt in D. destruct H as [H|ND]; [lia|].
    match goal with |- context [if ?c then _ else _] => destruct c end;
      [|discriminate].
    apply Binary64Facts.div_le_1.
    pose proof (common_words_le_words2 text1 text2 ND).
    pose proof (common_words_le_words1 text1
      (fun word1 => str_in word1 (split_space text2) && (2 <? len word1))).
    lia.
Qed.

Lemma calculate_similarity_range_witness :
  (0 <= calculate_similarity (py "to be or not to be, that is the question")
                             (py "the question")
     <= 1)%Q.
Proof.
  apply (calculate_similarity_range
           (py "to be or not to be, that is the question")
           (py "the question")).
  right. vm_compute. nodup_words.
Defined.

(** C2 as stated fails: the word [abc] of the second text is counted four
    times in the first, which gives [2.0 * 4 / 5 = 1.6]. *)
Lemma calculate_similarity_above_one :
  ~ (0 <= calculate_similarity (py "abc abc abc abc") (py "abc") <= 1)%Q.
Proof. vm_compute. intros [_ H]. apply H. reflexivity. Qed.

Example calculate_similarity_repeated_word :
  Binary64.format_2f (calculate_similarity (py "abc abc abc abc") (py "abc"))
  = py "1.60".
Proof. vm_compute. reflexivity. Qed.

(** The two position counts and the two word counts, seen from either
    side. *)
Lemma matches_sym (text1 text2 : pystr) (n : Z) :
  count_if (fun i => (i <? len text1) && (i <? len text2) &&
                     char_eqb (char_at text1 i) (char_at text2 i)) (range n) =
  count_if (fun i => (i <? len text2) && (i <? len text1) &&
                     char_eqb (char_at text2 i) (char_at text1 i)) (range n).
Proof.
  apply count_if_ext. intros i. unfold char_eqb.
  rewrite (andb_comm (i <? len text1)), (N.eqb_sym (char_at text1 i)).
  reflexivity.
Qed.

Lemma common_words_sym (text1 text2 : pystr) :
  NoDup (shared_words text1 text2) -> NoDup (shared_words text2 text1) ->
  count_if (fun w => str_in w (split_space text2) && (2 <? len w))
           (split_space text1) =
  count_if (fun w => str_in w (split_space text1) && (2 <? len w))
           (split_space text2).
Proof.
  intros N1 N2. rewrite !count_if_filter. f_equal.
  apply Permutation_length, NoDup_Permutation; [exact N1 | exact N2 |].
  intros w. rewrite !filter_In, !andb_true_iff, !str_in_In. tauto.
Qed.

(** C3, as the scorer computes it: the score is the same from both sides
    whenever the two lengths differ by at most 3, or one text is empty, or
    no word of more than two characters that occurs in both texts occurs
    more than once in either. *)
Theorem calculate_similarity_symmetric (text1 text2 : pystr) :
  Z.abs (len text1 - len text2) <= 3 \/ text1 = [] \/ text2 = [] \/
  (NoDup (shared_words text1 text2) /\ NoDup (shared_words text2 text1)) ->
  calculate_similarity text1 text2 = calculate_similarity text2 text1.
Proof.
  intros H. unfold calculate_similarity.
  rewrite (andb_comm (is_empty text2)), (orb_comm (is_empty text2)).
  destruct (is_empty text1 && is_empty text2); [reflexivity|].
  destruct (is_empty text1 || is_empty text2) eqn:E; [reflexivity|].
  apply orb_false_iff in E. destruct E as [E1 E2].
  replace (Z.abs (len text2 - len text1)) with (Z.abs (len text1 - len text2))
    by lia.
  rewrite (Z.max_comm (len text2)), (matches_sym text2 text1).
  destruct (Z.abs (len text1 - len text2) <=? 3) eqn:D; [reflexivity|].
  apply Z.leb_gt in D.
  destruct H as [H|[->|[->|[N1 N2]]]]; try lia; try discriminate.
  rewrite (common_words_sym _ _ N2 N1).
  rewrite (Z.add_comm (Z.of_nat (List.length (split_space text2)))).
  reflexivity.
Qed.

Lemma calculate_similarity_symmetric_witness :
  calculate_similarity (py "to be or not to be, that is the question")
                       (py "the question") =
  calculate_similarity (py "the question")
                       (py "to be or not to be, that is the question").
Proof.
  apply (calculate_similarity_symmetric
           (py "to be or not to be, that is the question")
           (py "the question")).
  right; right; right. vm_compute. split; nodup_words.
Defined.

(** C3 as stated fails: four occurrences of [abc] are counted from the
    left and one from the right, [1.6] against [0.4]. *)
Lemma calculate_similarity_not_symmetric :
  calculate_similarity (py "abc abc abc abc") (py "abc") <>
  calculate_similarity (py "abc") (py "abc abc abc abc").
Proof. vm_compute. discriminate. Qed.

(** ** The duplicate decision *)

Lemma decimal_digit (n : Z) :
  0 <= n < 10 -> Binary64.decimal n = [(48 + Z.to_N n)%N].
Proof.
  intros H. rewrite <- (Z2Nat.id n) by lia.
  assert (K : (Z.to_nat n < 10)%nat) by lia.
  revert K. generalize (Z.to_nat n) as k. intros k K.
  do 10 (destruct k as [|k]; [reflexivity|]). lia.
Qed.

(** The [.2f] format ends in a point and exactly two digits. *)
Lemma format_2f_two_decimals (x : Binary64.float) :
  exists (int_part : pystr) (d1 d2 : N),
    Binary64.format_2f x = int_part ++ py "." ++ [(48 + d1)%N; (48 + d2)%N] /\
    (d1 < 10)%N /\ (d2 < 10)%N.
Proof.
  unfold Binary64.format_2f.
  set (h := Binary64.round_half_even _ _).
  pose proof (Z.mod_pos_bound h 100 ltac:(lia)) as B1.
  pose proof (Z.mod_pos_bound h 10 ltac:(lia)) as B2.
  assert (B3 : 0 <= h mod 100 / 10 < 10).
  { split; [apply Z.div_pos; lia | apply Z.div_lt_upper_bound; lia]. }
  rewrite (decimal_digit _ B3), (decimal_digit _ B2).
  exists (Binary64.decimal (h / 100)), (Z.to_N (h mod 100 / 10)),
         (Z.to_N (h mod 10)).
  split; [reflexivity | lia].
Qed.

(** The [.2f] format writes a score with two decimal places. *)
Lemma format_2f_writes (x : Binary64.float) :
  two_decimals x (Binary64.format_2f x).
Proof.
  unfold two_decimals, Binary64.format_2f.
  set (h := Binary64.round_half_even _ _).
  pose proof (Binary64Facts.round_half_even_nearest
                (100 * Qnum x) (Zpos (Qden x)) ltac:(lia)) as Near.
  fold h in Near.
  pose proof (Z.mod_pos_bound h 100 ltac:(lia)) as B1.
  pose proof (Z.mod_pos_bound h 10 ltac:(lia)) as B2.
  assert (B3 : 0 <= h mod 100 / 10 < 10).
  { split; [apply Z.div_pos; lia | apply Z.div_lt_upper_bound; lia]. }
  rewrite (decimal_digit _ B3), (decimal_digit _ B2).
  exists h, (Z.to_N (h mod 100 / 10)), (Z.to_N (h mod 10)).
  split; [|split; [|split; [|split; [|split]]]]; try lia; try reflexivity.
  - destruct x as [n d]. unfold Qle. cbn [Qnum Qden inject_Z Qmult] in *. lia.
  - destruct x as [n d]. unfold Qle. cbn [Qnum Qden inject_Z Qmult] in *. lia.
  - clear Near. Z.div_mod_to_equations. lia.
Qed.

(** C4: [are_similar_quotes] decides on the normal forms of its four
    arguments by the first rule that fires, in the order exact_match
    (normalized quotes equal and normalized authors equal),
    similar_quote_same_author (quote score >= 0.90, authors equal),
    same_quote_similar_author (quotes equal, author score >= 0.85),
    both_similar (quote score >= 0.95 and author score >= 0.90); the reason
    of a rule carries its scores written with two decimal places, each a
    hundredth nearest to the score; when no rule fires the decision is
    [(False, None)].  This holds for every lower-casing; the three decisions
    that follow are those of texts of the Basic Latin block. *)
Theorem are_similar_quotes_decision :
  (forall (L : Lowering)
          (quote1_text quote1_author quote2_text quote2_author : pystr),
     let nq1 := normalize_text quote1_text in
     let nq2 := normalize_text quote2_text in
     let na1 := normalize_text quote1_author in
     let na2 := normalize_text quote2_author in
     let quote_score := calculate_similarity nq1 nq2 in
     let author_score := calculate_similarity na1 na2 in
     let exact := nq1 = nq2 /\ na1 = na2 in
     let similar_quote :=
       Binary64.ge quote_score (Binary64.literal 90 100) = true /\
       na1 = na2 in
     let similar_author :=
       nq1 = nq2 /\
       Binary64.ge author_score (Binary64.literal 85 100) = true in
     let both_similar :=
       Binary64.ge quote_score (Binary64.literal 95 100) = true /\
       Binary64.ge author_score (Binary64.literal 90 100) = true in
     let decision :=
       are_similar_quotes quote1_text quote1_author
                          quote2_text quote2_author in
     (exact -> decision = (true, Some (py "exact_match"))) /\
     (~ exact -> similar_quote ->
      exists s, two_decimals quote_score s /\
        decision = (true, Some (py "similar_quote_same_author_" ++ s))) /\
     (~ exact -> ~ similar_quote -> similar_author ->
      exists s, two_decimals author_score s /\
        decision = (true, Some (py "same_quote_similar_author_" ++ s))) /\
     (~ exact -> ~ similar_quote -> ~ similar_author -> both_similar ->
      exists s t, two_decimals quote_score s /\ two_decimals author_score t /\
        decision = (true, Some (py "both_similar_q" ++ s ++ py "_a" ++ t))) /\
     (~ exact -> ~ similar_quote -> ~ similar_author -> ~ both_similar ->
      decision = (false, None))) /\
  are_similar_quotes (py "Be yourself.") (py "Oscar Wilde")
                     (py "be yourself") (py "oscar wilde.") =
  (true, Some (py "exact_match")) /\
  are_similar_quotes
    (py "The only way to do great work is to love what you do")
    (py "Steve Jobs")
    (py "The only way to do great work is to love what you do!!")
    (py "Steve Jobs") =
  (true, Some (py "similar_quote_same_author_0.96")) /\
  are_similar_quotes
    (py "Life is what happens when you're busy making other plans")
    (py "John Lennon")
    (py "Life is what happens to you while you're busy making other plans")
    (py "John Lennon") =
  (false, None).
Proof.
  split; [|split; [|split]; vm_compute; reflexivity].
  intros L quote1_text quote1_author quote2_text quote2_author.
  cbv zeta. unfold are_similar_quotes.
  set (nq1 := normalize_text quote1_text).
  set (nq2 := normalize_text quote2_text).
  set (na1 := normalize_text quote1_author).
  set (na2 := normalize_text quote2_author).
  set (quote_score := calculate_similarity nq1 nq2).
  set (author_score := calculate_similarity na1 na2).
  pose proof (str_eqb_eq nq1 nq2) as Q.
  pose proof (str_eqb_eq na1 na2) as A.
  pose proof (format_2f_writes quote_score) as Fq.
  pose proof (format_2f_writes author_score) as Fa.
  destruct (str_eqb nq1 nq2) eqn:Eq, (str_eqb na1 na2) eqn:Ea;
    destruct (Binary64.ge quote_score (Binary64.literal 90 100)) eqn:Q90;
    destruct (Binary64.ge author_score (Binary64.literal 85 100)) eqn:A85;
    destruct (Binary64.ge quote_score (Binary64.literal 95 100)) eqn:Q95;
    destruct (Binary64.ge author_score (Binary64.literal 90 100)) eqn:A90;
    cbn [andb];
    (split; [|split; [|split; [|split]]]);
    try reflexivity;
    try (intros; exfalso; intuition congruence);
    try (intros; eexists; split; [eassumption | reflexivity]);
    try (intros; do 2 eexists;
         split; [eassumption | split; [eassumption | reflexivity]]).
Qed.

(** ** Authors that normalize to nothing *)

Lemma are_similar_quotes_normalized_author {L : Lowering}
    (author author' quote1 quote2 other : pystr) :
  normalize_text author = normalize_text author' ->
  are_similar_quotes quote1 author quote2 other =
  are_similar_quotes quote1 author' quote2 other /\
  are_similar_quotes quote1 other quote2 author =
  are_similar_quotes quote1 other quote2 author'.
Proof.
  intros E. unfold are_similar_quotes. rewrite E. split; reflexivity.
Qed.

(** C10: a non-empty text can normalize to the empty string, for example
    three periods, the ellipsis glyph or a blank; a candidate author of that
    kind is decided on exactly as the empty author is, against every
    existing record. *)
Theorem normalize_text_empties_author :
  exists author : pystr,
    author = py "..." /\ author <> [] /\ normalize_text author = [] /\
    normalize_text ELLIPSIS = [] /\ normalize_text (py "  ") = [] /\
    forall candidate_quote existing_quote existing_author : pystr,
      are_similar_quotes candidate_quote author
                         existing_quote existing_author =
      are_similar_quotes candidate_quote []
                         existing_quote existing_author.
Proof.
  exists (py "...").
  split; [reflexivity|]. split; [discriminate|].
  split; [reflexivity|]. split; [reflexivity|]. split; [reflexivity|].
  intros. apply are_similar_quotes_normalized_author. reflexivity.
Qed.

(** ** The duplicate scans *)

Section MatchesFacts.

Context {L : Lowering}.
Variable compared : item -> option (pystr * pystr).
Variable created_at_of : item -> option pystr.
Variables quote_text author : pystr.

Variable scan_item : list duplicate -> item -> list duplicate.
Hypothesis scan_item_spec : forall found it,
  scan_item found it =
  if is_match compared quote_text author it
  then found ++ [entry_of compared created_at_of quote_text author it]
  else found.

Lemma scan_page (items : list item) (found : list duplicate) :
  fold_left scan_item items found =
  found ++ matches compared created_at_of quote_text author items.
Proof.
  revert found; induction items as [|it items IH]; intros found;
    unfold matches in *; simpl.
  - rewrite app_nil_r; reflexivity.
  - rewrite IH, scan_item_spec. destruct (is_match compared quote_text author it); simpl.
    + rewrite <- app_assoc. reflexivity.
    + reflexivity.
Qed.

Lemma matches_app (l1 l2 : list item) :
  matches compared created_at_of quote_text author (l1 ++ l2) =
  matches compared created_at_of quote_text author l1 ++
  matches compared created_at_of quote_text author l2.
Proof. unfold matches. rewrite filter_app, map_app. reflexivity. Qed.

End MatchesFacts.

Lemma create_scan_item_spec {L : Lowering} (quote_text author : pystr) found it :
  create_scan_item quote_text author found it =
  if is_match create_compared quote_text author it
  then found ++ [entry_of create_compared
                   (fun it => Some (or_default (item_created_at it) []))
                   quote_text author it]
  else found.
Proof.
  unfold create_scan_item, is_match, entry_of, create_compared.
  destruct (item_quote it) as [q|]; [|reflexivity].
  destruct (item_author it) as [a|]; [|reflexivity].
  destruct (are_similar_quotes quote_text author q a) as [[] r]; reflexivity.
Qed.

Lemma check_scan_item_spec {L : Lowering} (quote_text author : pystr) found it :
  check_scan_item quote_text author found it =
  if is_match check_compared quote_text author it
  then found ++ [entry_of check_compared item_created_at quote_text author it]
  else found.
Proof.
  unfold check_scan_item, is_match, entry_of, check_compared.
  destruct (starts_with (py "TAGS_") (item_id it)); [reflexivity|].
  destruct (item_quote it) as [[|c q]|]; try reflexivity.
  cbn [orb or_default is_empty].
  destruct (are_similar_quotes quote_text author (c :: q)
              (or_default (item_author it) [])) as [[] r]; reflexivity.
Qed.

(** Each loop drains the whole scan and keeps every match, in order. *)
Lemma create_scan_matches {L : Lowering} (quote_text author : pystr) tr found :
  create_scan quote_text author tr found =
  option_map (fun records => found ++ create_matches quote_text author records)
             (scanned_items tr).
Proof.
  revert found; induction tr as [items next IH|items|]; intros found; simpl.
  - rewrite IH, (scan_page _ _ _ _ _ (create_scan_item_spec quote_text author)).
    destruct (scanned_items next); simpl; [|reflexivity].
    unfold create_matches. rewrite matches_app, app_assoc. reflexivity.
  - rewrite (scan_page _ _ _ _ _ (create_scan_item_spec quote_text author)).
    reflexivity.
  - reflexivity.
Qed.

Lemma check_scan_matches {L : Lowering} (quote_text author : pystr) tr found :
  check_scan quote_text author tr found =
  option_map (fun records => found ++ check_matches quote_text author records)
             (scanned_items tr).
Proof.
  revert found; induction tr as [items next IH|items|]; intros found; simpl.
  - rewrite IH, (scan_page _ _ _ _ _ (check_scan_item_spec quote_text author)).
    destruct (scanned_items next); simpl; [|reflexivity].
    unfold check_matches. rewrite matches_app, app_assoc. reflexivity.
  - rewrite (scan_page _ _ _ _ _ (check_scan_item_spec quote_text author)).
    reflexivity.
  - reflexivity.
Qed.

(** A request that passes [validate_quote_data] has a quote and an author
    that are not blank. *)
Lemma validate_quote_data_ok (data : request_data) :
  validate_quote_data data = [] ->
  is_empty (strip (or_default (data_quote data) [])) = false /\
  is_empty (strip (or_default (data_author data) [])) = false.
Proof.
  unfold validate_quote_data, field_missing_or_blank. intros H.
  destruct (data_quote data) as [q|]; [|discriminate].
  destruct (data_author data) as [a|]; [|destruct (_ || _); discriminate].
  destruct (is_empty q || is_empty (strip q)) eqn:Q; [discriminate|].
  destruct (is_empty a || is_empty (strip a)) eqn:A; [discriminate|].
  apply orb_false_iff in Q, A. simpl. tauto.
Qed.

Section Handlers.

Context {L : Lowering}.
Variable env : environment.
Variable user : user_claims.
Variable data : request_data.
Variable tr : scan_trace.

Hypothesis admin : is_admin user = true.
Hypothesis valid : validate_quote_data data = [].

Lemma handle_create_quote_scanned :
  handle_create_quote env user (Json data) tr =
  match scanned_items tr with
  | Some records =>
      match create_matches (strip (or_default (data_quote data) []))
                           (strip (or_default (data_author data) []))
                           records with
      | [] => create_new_quote env user data
      | found =>
          let n := Z.of_nat (List.length found) in
          (create_response 409
             (DuplicateDetected (py "Duplicate quote detected")
                    (found_message n) true n (first5 found)), [])
      end
  | None => create_new_quote env user data
  end.
Proof.
  unfold handle_create_quote. rewrite admin, valid. cbn [negb is_empty_list].
  rewrite create_scan_matches.
  destruct (scanned_items tr) as [records|]; simpl; reflexivity.
Qed.

Lemma handle_check_duplicate_scanned :
  handle_check_duplicate user (Json data) tr =
  match scanned_items tr with
  | Some records =>
      match check_matches (strip (or_default (data_quote data) []))
                          (strip (or_default (data_author data) []))
                          records with
      | [] =>
          (create_response 200
             (DuplicateReport false 0 [] (py "No duplicates found")), [])
      | found =>
          let n := Z.of_nat (List.length found) in
          (create_response 200
             (DuplicateReport true n (first5 found) (found_message n)), [])
      end
  | None =>
      (create_response 500 (Error (py "Failed to check for duplicates")), [])
  end.
Proof.
  unfold handle_check_duplicate. rewrite admin. cbn [negb].
  destruct (validate_quote_data_ok data valid) as [Q A].
  rewrite Q, A. cbn [orb].
  rewrite check_scan_matches.
  destruct (scanned_items tr) as [records|]; simpl; reflexivity.
Qed.

End Handlers.

(** C6: for every completed scan, both handlers collect every match of
    every page; [duplicates] holds the matches in the order the scan met
    them, cut to the first 5, and [duplicate_count] is the number of all
    matches. *)
Theorem duplicates_in_scan_order_and_counted {L : Lowering}
    (env : environment) (user : user_claims) (data : request_data)
    (tr : scan_trace) (records : list item) :
  is_admin user = true ->
  validate_quote_data data = [] ->
  scanned_items tr = Some records ->
  let quote_text := strip (or_default (data_quote data) []) in
  let author := strip (or_default (data_author data) []) in
  let found_create := create_matches quote_text author records in
  let found_check := check_matches quote_text author records in
  (found_create <> [] ->
   fst (handle_create_quote env user (Json data) tr) =
   create_response 409
     (DuplicateDetected (py "Duplicate quote detected")
        (found_message (Z.of_nat (List.length found_create))) true
        (Z.of_nat (List.length found_create)) (firstn 5 found_create))) /\
  (found_check <> [] ->
   fst (handle_check_duplicate user (Json data) tr) =
   create_response 200
     (DuplicateReport true
        (Z.of_nat (List.length found_check)) (firstn 5 found_check)
        (found_message (Z.of_nat (List.length found_check))))) /\
  (found_check = [] ->
   fst (handle_check_duplicate user (Json data) tr) =
   create_response 200
     (DuplicateReport false 0 [] (py "No duplicates found"))).
Proof.
  intros admin valid scanned quote_text author found_create found_check.
  rewrite (handle_create_quote_scanned env user data tr admin valid).
  rewrite (handle_check_duplicate_scanned user data tr admin valid).
  rewrite scanned. fold quote_text author found_create found_check.
  repeat split.
  - intros NE. destruct found_create; [congruence | reflexivity].
  - intros NE. destruct found_check; [congruence | reflexivity].
  - intros ->. reflexivity.
Qed.

(** C7: when a call of [table.scan] raises, the creation path goes on as
    after a scan without any match and writes the quote, and the
    check-duplicate path answers 500. *)
Theorem scan_failure_open_on_create_error_on_check {L : Lowering}
    (env : environment) (user : user_claims) (data : request_data)
    (tr : scan_trace) :
  is_admin user = true ->
  validate_quote_data data = [] ->
  scanned_items tr = None ->
  handle_create_quote env user (Json data) tr =
  handle_create_quote env user (Json data) (ScanLast []) /\
  (put_item_raises env = false ->
   exists it : quote_item,
     handle_create_quote env user (Json data) tr =
     (create_response 201 (QuoteCreated (py "Quote created successfully") it),
      [PutItem it; UpdateTagsMetadata (q_tags it)]) /\
     q_quote it = strip (or_default (data_quote data) []) /\
     q_author it = strip (or_default (data_author data) [])) /\
  handle_check_duplicate user (Json data) tr =
  (create_response 500 (Error (py "Failed to check for duplicates")), []).
Proof.
  intros admin valid failed.
  rewrite !(handle_create_quote_scanned env user data _ admin valid).
  rewrite (handle_check_duplicate_scanned user data tr admin valid).
  rewrite failed. cbn [scanned_items create_matches matches filter List.map].
  split; [reflexivity|]. split; [|reflexivity].
  intros put_ok. unfold create_new_quote. rewrite put_ok.
  eexists. split; [reflexivity|]. split; reflexivity.
Qed.

(** C8: when the completed scan of the creation path has a match, the
    answer is 409 and nothing is written; the check-duplicate path never
    writes, and answers 200 for every completed scan. *)
Theorem duplicate_blocks_creation_only {L : Lowering}
    (env : environment) (user : user_claims) (data : request_data)
    (tr : scan_trace) (records : list item) :
  is_admin user = true ->
  validate_quote_data data = [] ->
  scanned_items tr = Some records ->
  create_matches (strip (or_default (data_quote data) []))
                 (strip (or_default (data_author data) [])) records <> [] ->
  statusCode (fst (handle_create_quote env user (Json data) tr)) = 409 /\
  snd (handle_create_quote env user (Json data) tr) = [] /\
  statusCode (fst (handle_check_duplicate user (Json data) tr)) = 200 /\
  forall (user' : user_claims) (event_body : request_body) (tr' : scan_trace),
    snd (handle_check_duplicate user' event_body tr') = [].
Proof.
  intros admin valid scanned found.
  rewrite (handle_create_quote_scanned env user data tr admin valid).
  rewrite (handle_check_duplicate_scanned user data tr admin valid).
  rewrite scanned.
  split; [|split; [|split]].
  - destruct (create_matches _ _ records); [congruence | reflexivity].
  - destruct (create_matches _ _ records); [congruence | reflexivity].
  - destruct (check_matches _ _ records); reflexivity.
  - intros user' event_body tr'. unfold handle_check_duplicate.
    destruct (negb (is_admin user')); [reflexivity|].
    destruct event_body as [|data']; [reflexivity|].
    destruct (_ || _); [reflexivity|].
    destruct (check_scan _ _ tr' []) as [[|d ds]|]; reflexivity.
Qed.

Lemma duplicates_in_scan_order_and_counted_witness :
  fst (handle_create_quote sample_env admin_user (Json sample_request)
         sample_scan) =
  create_response 409
    (DuplicateDetected (py "Duplicate quote detected")
       (py "Found 6 similar quote(s)") true 6
       (firstn 5 (create_matches (py "Be yourself.") (py "Oscar Wilde")
                    (sample_page1 ++ sample_page2)))) /\
  ids_of (create_matches (py "Be yourself.") (py "Oscar Wilde")
            (sample_page1 ++ sample_page2)) =
  [py "q1"; py "q3"; py "q4"; py "q5"; py "q6"; py "q7"].
Proof.
  destruct (duplicates_in_scan_order_and_counted sample_env admin_user
              sample_request sample_scan (sample_page1 ++ sample_page2)
              eq_refl eq_refl eq_refl) as (C & _ & _).
  split; [|vm_compute; reflexivity].
  rewrite C; [vm_compute; reflexivity | vm_compute; discriminate].
Defined.

Lemma scan_failure_open_on_create_error_on_check_witness :
  handle_create_quote sample_env admin_user (Json sample_request)
    failing_scan =
  handle_create_quote sample_env admin_user (Json sample_request)
    (ScanLast []) /\
  handle_check_duplicate admin_user (Json sample_request) failing_scan =
  (create_response 500 (Error (py "Failed to check for duplicates")), []).
Proof.
  destruct (scan_failure_open_on_create_error_on_check sample_env admin_user
              sample_request failing_scan eq_refl eq_refl eq_refl)
    as (C & _ & K).
  split; [exact C | exact K].
Defined.

Lemma duplicate_blocks_creation_only_witness :
  statusCode (fst (handle_create_quote sample_env admin_user
                     (Json sample_request) sample_scan)) = 409 /\
  snd (handle_create_quote sample_env admin_user (Json sample_request)
         sample_scan) = [].
Proof.
  destruct (duplicate_blocks_creation_only sample_env admin_user
              sample_request sample_scan (sample_page1 ++ sample_page2)
              eq_refl eq_refl eq_refl) as (C & W & _).
  - vm_compute; discriminate.
  - split; [exact C | exact W].
Defined.

(** What each scan does skip. *)
Lemma create_scan_skips {L : Lowering} (quote_text author : pystr) found (it : item) :
  item_quote it = None \/ item_author it = None ->
  create_scan_item quote_text author found it = found.
Proof.
  unfold create_scan_item. intros [-> | ->]; [reflexivity|].
  destruct (item_quote it); reflexivity.
Qed.

Lemma check_scan_skips {L : Lowering} (quote_text author : pystr) found (it : item) :
  starts_with (py "TAGS_") (item_id it) = true \/ item_quote it = None \/
  item_quote it = Some [] ->
  check_scan_item quote_text author found it = found.
Proof.
  unfold check_scan_item. intros [-> | [-> | ->]]; [reflexivity| |];
    rewrite orb_true_r; reflexivity.
Qed.

(** C5, at two tables: the creation path compares an item with the
    sentinel id that carries a quote and an author and reports it as a
    duplicate; the check-duplicate path compares a record without an author
    as if its author were empty and reports it. *)
Theorem scans_compare_sentinel_and_authorless_records :
  fst (handle_create_quote sample_env admin_user (Json sample_request)
         (ScanLast [sentinel_with_texts])) =
  create_response 409
    (DuplicateDetected (py "Duplicate quote detected")
       (py "Found 1 similar quote(s)") true 1
       [ {| dup_id := py "TAGS_METADATA"; dup_quote := py "Be yourself";
            dup_author := py "Oscar Wilde"; dup_created_at := Some [];
            dup_match_reason := Some (py "exact_match") |} ]) /\
  fst (handle_check_duplicate admin_user (Json dotted_author_request)
         (ScanLast [record_without_author])) =
  create_response 200
    (DuplicateReport true 1
       [ {| dup_id := py "q8"; dup_quote := py "Be yourself";
            dup_author := []; dup_created_at := None;
            dup_match_reason := Some (py "exact_match") |} ]
       (py "Found 1 similar quote(s)")).
Proof. split; vm_compute; reflexivity. Qed.

(** ** The normalizer on a text with a blank before its last period *)

(** C9, at ["Mark Twain ."]: [rstrip('.')] runs after [strip()], and the
    blank it uncovers stays at the end of the result. *)
Theorem normalize_text_leaves_trailing_space :
  normalize_text (py "Mark Twain .") = py "mark twain " /\
  is_space (last (normalize_text (py "Mark Twain .")) 0%N) = true.
Proof. split; vm_compute; reflexivity. Qed.

(** C1, at the same text: the second pass strips the blank that the first
    pass left. *)
Theorem normalize_text_twice_differs :
  normalize_text (normalize_text (py "Mark Twain .")) = py "mark twain" /\
  normalize_text (normalize_text (py "Mark Twain .")) <>
  normalize_text (py "Mark Twain .").
Proof. split; [vm_compute; reflexivity | vm_compute; discriminate]. Qed.

(** ** What the normalizer does guarantee on whitespace *)

Lemma sub_spaces_from_only_space (in_run : bool) (s : pystr) (c : N) :
  In c (sub_spaces_from in_run s) -> is_space c = true -> c = 32%N.
Proof.
  revert in_run; induction s as [|d s IH]; intros in_run; simpl; [tauto|].
  destruct (is_space d) eqn:D.
  - destruct in_run; simpl; [apply IH|].
    intros [<-|H]; [reflexivity | apply (IH true H)].
  - simpl. intros [<-|H] Hc; [congruence | apply (IH false H Hc)].
Qed.

Lemma sub_spaces_from_no_run (in_run : bool) (s : pystr) :
  no_space_run (sub_spaces_from in_run s) = true /\
  (in_run = true -> no_leading_space (sub_spaces_from in_run s) = true).
Proof.
  revert in_run; induction s as [|d s IH]; intros in_run; [split; reflexivity|].
  cbn [sub_spaces_from].
  destruct (is_space d) eqn:D.
  - destruct in_run.
    + apply IH.
    + split; [|discriminate].
      destruct (IH true) as [R L]. specialize (L eq_refl).
      cbn [no_space_run]. destruct (sub_spaces_from true s) as [|e r] eqn:E;
        [reflexivity|].
      cbn [no_leading_space] in L. apply negb_true_iff in L.
      rewrite L, andb_false_r. exact R.
  - destruct (IH false) as [R _]. split.
    + cbn [no_space_run]. destruct (sub_spaces_from false s) as [|e r] eqn:E;
        [reflexivity|].
      rewrite D. exact R.
    + intros _. cbn [no_leading_space]. rewrite D. reflexivity.
Qed.

Lemma sub_spaces_no_leading_space (s : pystr) :
  no_leading_space s = true -> no_leading_space (sub_spaces s) = true.
Proof.
  destruct s as [|c s]; [reflexivity|]. unfold sub_spaces; simpl.
  intros H. apply negb_true_iff in H. rewrite H. simpl. rewrite H. reflexivity.
Qed.

Lemma drop_while_no_leading_space (s : pystr) :
  no_leading_space (drop_while is_space s) = true.
Proof.
  induction s as [|c s IH]; [reflexivity|]. simpl.
  destruct (is_space c) eqn:C; [exact IH|]. simpl. rewrite C. reflexivity.
Qed.

(** Stripping on the right leaves a prefix. *)
Lemma rstrip_by_prefix (p : N -> bool) (s : pystr) :
  exists t, s = rstrip_by p s ++ t.
Proof.
  unfold rstrip_by.
  assert (G : forall r, exists t, r = rev t ++ drop_while p r).
  { induction r as [|c r [t IH]]; [exists []; reflexivity|]. simpl.
    destruct (p c).
    - exists (t ++ [c]). rewrite rev_app_distr. simpl. congruence.
    - exists []. reflexivity. }
  destruct (G (rev s)) as [t E]. exists (rev (rev t)).
  rewrite <- rev_app_distr, <- E, rev_involutive. reflexivity.
Qed.

Lemma rstrip_by_no_leading_space (p : N -> bool) (s : pystr) :
  no_leading_space s = true -> no_leading_space (rstrip_by p s) = true.
Proof.
  destruct (rstrip_by_prefix p s) as [t E]. intros H.
  destruct (rstrip_by p s) as [|c r]; [reflexivity|].
  rewrite E in H. exact H.
Qed.

Lemma lower_char_not_space (c : N) :
  is_space c = false -> is_space (lower_char c) = false.
Proof.
  unfold lower_char.
  destruct ((65 <=? c)%N && (c <=? 90)%N) eqn:A.
  - intros _. apply andb_true_iff in A. destruct A as [A1 A2].
    apply N.leb_le in A1, A2. unfold is_space.
    repeat match goal with
           | |- context [(?a <=? ?b)%N] =>
               destruct (N.leb_spec a b); try lia
           | |- context [(?a =? ?b)%N] =>
               destruct (N.eqb_spec a b); try lia
           end; reflexivity.
  - destruct ((192 <=? c)%N && (c <=? 222)%N && negb (c =? 215)%N) eqn:B;
      [|tauto].
    intros _. apply andb_true_iff in B. destruct B as [B _].
    apply andb_true_iff in B. destruct B as [B1 B2].
    apply N.leb_le in B1, B2. unfold is_space.
    repeat match goal with
           | |- context [(?a <=? ?b)%N] =>
               destruct (N.leb_spec a b); try lia
           | |- context [(?a =? ?b)%N] =>
               destruct (N.eqb_spec a b); try lia
           end; reflexivity.
Qed.

Lemma lower_no_leading_space (s : pystr) :
  no_leading_space s = true -> no_leading_space (lower s) = true.
Proof.
  destruct s as [|c s]; [reflexivity|]. simpl. intros H.
  apply negb_true_iff in H. rewrite (lower_char_not_space c H). reflexivity.
Qed.

(** A replacement leaves the front free of whitespace when the text it
    looks for starts with whitespace, or the text it puts in does not. *)
Lemma replace_no_leading_space (old new s : pystr) :
  (exists o old', old = o :: old' /\ is_space o = true) \/
  (exists n new', new = n :: new' /\ is_space n = false) ->
  no_leading_space s = true -> no_leading_space (replace old new s) = true.
Proof.
  intros H. destruct s as [|c s]; [reflexivity|].
  unfold replace. cbn [replace_from no_leading_space]. intros C.
  apply negb_true_iff in C.
  destruct (starts_with old (c :: s)) eqn:S.
  - destruct H as [(o & old' & -> & O)|(n & new' & -> & Hn)].
    + simpl in S. apply andb_true_iff in S. destruct S as [S _].
      apply N.eqb_eq in S. congruence.
    + simpl. rewrite Hn. reflexivity.
  - simpl. rewrite C. reflexivity.
Qed.

(** What the last step of the normalizer guarantees, whatever the
    lower-casing: whitespace in the result is the space character only,
    never twice in a row; and it is not at the front when the lower-cased
    text does not start with it. *)
Lemma normalize_text_spaces {L : Lowering} (text : pystr) :
  (forall c, In c (normalize_text text) -> is_space c = true -> c = 32%N) /\
  no_space_run (normalize_text text) = true /\
  (no_leading_space (str_lower (strip text)) = true ->
   no_leading_space (normalize_text text) = true).
Proof.
  unfold normalize_text. destruct (is_empty text).
  - split; [intros c []|split; [reflexivity | intros _; reflexivity]].
  - split; [apply sub_spaces_from_only_space|].
    split; [apply sub_spaces_from_no_run|]. intros H.
    apply sub_spaces_no_leading_space, rstrip_by_no_leading_space.
    repeat (apply replace_no_leading_space;
            [first [ left; do 2 eexists; split; reflexivity
                   | right; do 2 eexists; split; reflexivity ] |]).
    exact H.
Qed.

(** The three parts of C9 that hold for every text of the Latin blocks:
    whitespace in the result is the space character only (no tab, no
    newline), never twice in a row, and never at the front. *)
Lemma normalize_text_whitespace (text : pystr) :
  (forall c, In c (normalize_text text) -> is_space c = true -> c = 32%N) /\
  no_space_run (normalize_text text) = true /\
  no_leading_space (normalize_text text) = true.
Proof.
  destruct (normalize_text_spaces text) as (W & R & F).
  split; [exact W|]. split; [exact R|]. apply F.
  apply lower_no_leading_space, rstrip_by_no_leading_space.
  apply drop_while_no_leading_space.
Qed.

(** ** Where a second pass changes nothing *)

Lemma replace_from_Forall (P : N -> Prop) (old new : pystr) :
  Forall P new -> forall s skip,
  Forall P s -> Forall P (replace_from old new skip s).
Proof.
  intros Hn. induction s as [|c s IH]; intros skip Hs; [constructor|].
  inversion Hs; subst. cbn [replace_from].
  destruct skip; [|apply IH; assumption].
  destruct (starts_with old (c :: s)).
  - apply Forall_app. split; [assumption | apply IH; assumption].
  - constructor; [assumption | apply IH; assumption].
Qed.

Lemma replace_Forall (P : N -> Prop) (old new s : pystr) :
  Forall P new -> Forall P s -> Forall P (replace old new s).
Proof. intros Hn Hs. apply replace_from_Forall; assumption. Qed.

(** Replacing one code point by a text without it removes it. *)
Lemma replace_char_removes (x : N) (new s : pystr) :
  Forall (fun c => c <> x) new ->
  Forall (fun c => c <> x) (replace [x] new s).
Proof.
  intros Hn. unfold replace. induction s as [|c s IH]; [constructor|].
  cbn [replace_from starts_with List.length Nat.sub].
  unfold char_eqb. destruct (N.eqb_spec x c) as [->|D]; simpl.
  - apply Forall_app. split; assumption.
  - constructor; [congruence | assumption].
Qed.

(** A replacement finds nothing in a text without the code point it looks
    for, and changes nothing when it puts back what it finds. *)
Lemma replace_char_absent (x : N) (new s : pystr) :
  Forall (fun c => c <> x) s -> replace [x] new s = s.
Proof.
  unfold replace. induction 1 as [|c s Hc Hs IH]; [reflexivity|].
  cbn [replace_from starts_with]. unfold char_eqb.
  destruct (N.eqb_spec x c) as [->|D]; [congruence|]. simpl.
  rewrite IH. reflexivity.
Qed.

Lemma replace_char_same (x : N) (s : pystr) : replace [x] [x] s = s.
Proof.
  unfold replace. induction s as [|c s IH]; [reflexivity|].
  cbn [replace_from starts_with List.length Nat.sub]. unfold char_eqb.
  destruct (N.eqb_spec x c) as [->|D]; simpl; rewrite IH; reflexivity.
Qed.

Lemma replace_absent (old new s : pystr) :
  occurs_in old s = false -> replace old new s = s.
Proof.
  unfold replace. induction s as [|c s IH]; [reflexivity|].
  cbn [occurs_in replace_from]. intros H. apply orb_false_iff in H.
  destruct H as [H1 H2]. rewrite H1, (IH H2). reflexivity.
Qed.

Lemma rstrip_by_Forall (P : N -> Prop) (p : N -> bool) (s : pystr) :
  Forall P s -> Forall P (rstrip_by p s).
Proof.
  destruct (rstrip_by_prefix p s) as [t E]. intros H. rewrite E in H.
  apply Forall_app in H. apply H.
Qed.

Lemma sub_spaces_from_Forall (P : N -> Prop) (in_run : bool) (s : pystr) :
  P 32%N -> Forall P s -> Forall P (sub_spaces_from in_run s).
Proof.
  intros H32 Hs. revert in_run. induction Hs as [|c s Hc Hs IH]; intros in_run;
    [constructor|].
  cbn [sub_spaces_from]. destruct (is_space c).
  - destruct in_run; [apply IH | constructor; [assumption | apply IH]].
  - constructor; [assumption | apply IH].
Qed.

(** Stripping on the right changes nothing when the last code point stays,
    and what it leaves does not end in a stripped code point. *)
Lemma drop_while_head (p : N -> bool) (s : pystr) :
  match drop_while p s with c :: _ => p c = false | [] => True end.
Proof.
  induction s as [|c s IH]; simpl; [exact I|].
  destruct (p c) eqn:C; [exact IH | exact C].
Qed.

Lemma last_rev (s : pystr) (d : N) : last s d = hd d (rev s).
Proof.
  destruct (rev s) as [|c r] eqn:E.
  - apply (f_equal (@rev N)) in E. rewrite rev_involutive in E. subst.
    reflexivity.
  - apply (f_equal (@rev N)) in E. rewrite rev_involutive in E. subst.
    simpl. apply last_last.
Qed.

Lemma rstrip_by_last (p : N -> bool) (s : pystr) :
  rstrip_by p s = [] \/ p (last (rstrip_by p s) 0%N) = false.
Proof.
  unfold rstrip_by. rewrite last_rev, rev_involutive.
  pose proof (drop_while_head p (rev s)) as H.
  destruct (drop_while p (rev s)) as [|c r]; [left; reflexivity|].
  right. exact H.
Qed.

Lemma rstrip_by_fixed (p : N -> bool) (s : pystr) :
  s = [] \/ p (last s 0%N) = false -> rstrip_by p s = s.
Proof.
  intros [->|H]; [reflexivity|].
  unfold rstrip_by. rewrite last_rev in H.
  destruct (rev s) as [|c r] eqn:E.
  - apply (f_equal (@rev N)) in E. rewrite rev_involutive in E. exact (eq_sym E).
  - simpl in H |- *. rewrite H, <- E. apply rev_involutive.
Qed.

Lemma lstrip_by_fixed (s : pystr) :
  no_leading_space s = true -> lstrip_by is_space s = s.
Proof.
  destruct s as [|c s]; [reflexivity|]. simpl. intros H.
  apply negb_true_iff in H. rewrite H. reflexivity.
Qed.

(** The whitespace pass changes nothing in a text whose whitespace is
    single spaces. *)
Lemma sub_spaces_from_fixed (s : pystr) :
  Forall (fun c => is_space c = true -> c = 32%N) s ->
  no_space_run s = true ->
  forall in_run,
    (in_run = true -> no_leading_space s = true) ->
    sub_spaces_from in_run s = s.
Proof.
  induction 1 as [|c s Hc Hs IH]; intros R in_run L; [reflexivity|].
  assert (R' : no_space_run s = true).
  { cbn [no_space_run] in R. destruct s; [reflexivity|].
    apply andb_true_iff in R. apply R. }
  cbn [sub_spaces_from]. destruct (is_space c) eqn:C.
  - destruct in_run.
    + specialize (L eq_refl). simpl in L. rewrite C in L. discriminate.
    + rewrite (Hc eq_refl). f_equal. apply IH; [exact R'|]. intros _.
      cbn [no_space_run] in R. destruct s as [|d s']; [reflexivity|].
      apply andb_true_iff in R. destruct R as [R _].
      rewrite C in R. simpl in R |- *. exact R.
  - f_equal. apply IH; [exact R' | discriminate].
Qed.

Lemma sub_spaces_from_false_nil (s : pystr) :
  sub_spaces_from false s = [] -> s = [].
Proof.
  destruct s as [|c s]; [reflexivity|]. cbn [sub_spaces_from].
  destruct (is_space c); discriminate.
Qed.

Lemma last_tail (c : N) (s : pystr) (d : N) :
  s <> [] -> last (c :: s) d = last s d.
Proof. destruct s; [contradiction | reflexivity]. Qed.

(** The whitespace pass does not bring a period to the end. *)
Lemma sub_spaces_from_last (s : pystr) :
  s = [] \/ last s 0%N <> 46%N ->
  forall in_run,
    sub_spaces_from in_run s = [] \/
    last (sub_spaces_from in_run s) 0%N <> 46%N.
Proof.
  induction s as [|c s IH]; intros H in_run; [left; reflexivity|].
  destruct H as [H|H]; [discriminate|].
  assert (Hs : s = [] \/ last s 0%N <> 46%N).
  { destruct s as [|d s']; [left; reflexivity | right; exact H]. }
  specialize (IH Hs). cbn [sub_spaces_from].
  destruct (is_space c) eqn:C.
  - destruct in_run; [apply IH|]. right.
    destruct (IH true) as [E|E].
    + rewrite E. simpl. discriminate.
    + destruct (sub_spaces_from true s) as [|e r]; [simpl; discriminate|].
      exact E.
  - right. destruct s as [|d s'].
    + exact H.
    + rewrite last_tail.
      * destruct (IH false) as [E|E]; [|exact E].
        apply sub_spaces_from_false_nil in E. discriminate.
      * intros E. apply sub_spaces_from_false_nil in E. discriminate.
Qed.

Lemma lower_char_idempotent (c : N) : lower_char (lower_char c) = lower_char c.
Proof.
  unfold lower_char.
  destruct ((65 <=? c)%N && (c <=? 90)%N) eqn:A.
  - apply andb_true_iff in A. destruct A as [A1 A2].
    apply N.leb_le in A1, A2.
    replace (65 <=? c + 32)%N with true by (symmetry; apply N.leb_le; lia).
    replace (c + 32 <=? 90)%N with false by (symmetry; apply N.leb_gt; lia).
    replace (c + 32 <=? 222)%N with true by (symmetry; apply N.leb_le; lia).
    replace (192 <=? c + 32)%N with false by (symmetry; apply N.leb_gt; lia).
    reflexivity.
  - destruct ((192 <=? c)%N && (c <=? 222)%N && negb (c =? 215)%N) eqn:B.
    + apply andb_true_iff in B. destruct B as [B _].
      apply andb_true_iff in B. destruct B as [B1 B2].
      apply N.leb_le in B1, B2.
      replace (c + 32 <=? 90)%N with false by (symmetry; apply N.leb_gt; lia).
      replace (c + 32 <=? 222)%N with false by (symmetry; apply N.leb_gt; lia).
      rewrite !andb_false_r. reflexivity.
    + rewrite A, B. reflexivity.
Qed.

Lemma lower_fixed (s : pystr) :
  Forall (fun c => lower_char c = c) s -> lower s = s.
Proof.
  unfold lower. induction 1 as [|c s Hc Hs IH]; [reflexivity|].
  simpl. rewrite Hc, IH. reflexivity.
Qed.

Lemma lower_lowered (s : pystr) : Forall (fun c => lower_char c = c) (lower s).
Proof.
  unfold lower. induction s as [|c s IH]; constructor;
    [apply lower_char_idempotent | exact IH].
Qed.

Ltac forall_literal := repeat constructor; try discriminate; try reflexivity.

(** What every normalized text looks like, whatever the lower-casing: free
    of dashes and ellipsis glyphs, and not ending in a period. *)
Lemma normalize_text_glyphs {L : Lowering} (text : pystr) :
  Forall (fun c => c <> 8212%N) (normalize_text text) /\
  Forall (fun c => c <> 8211%N) (normalize_text text) /\
  Forall (fun c => c <> 8230%N) (normalize_text text) /\
  (normalize_text text = [] \/ last (normalize_text text) 0%N <> 46%N).
Proof.
  unfold normalize_text. destruct (is_empty text).
  { repeat split; try constructor. reflexivity. }
  unfold sub_spaces, rstrip.
  split; [|split; [|split]].
  - apply sub_spaces_from_Forall; [discriminate|]. apply rstrip_by_Forall.
    do 2 (apply replace_Forall; [forall_literal|]).
    apply replace_char_removes. forall_literal.
  - apply sub_spaces_from_Forall; [discriminate|]. apply rstrip_by_Forall.
    apply replace_Forall; [forall_literal|].
    apply replace_char_removes. forall_literal.
  - apply sub_spaces_from_Forall; [discriminate|]. apply rstrip_by_Forall.
    apply replace_char_removes. forall_literal.
  - apply sub_spaces_from_last.
    match goal with |- context [rstrip_by ?p ?s] =>
      destruct (rstrip_by_last p s) as [E|E] end; [left; exact E|].
    right. intros K. rewrite K in E. discriminate.
Qed.

(** On the Latin blocks a normalized text is folded to lower case as
    well. *)
Lemma normalize_text_shape (text : pystr) :
  Forall (fun c => lower_char c = c) (normalize_text text) /\
  Forall (fun c => c <> 8212%N) (normalize_text text) /\
  Forall (fun c => c <> 8211%N) (normalize_text text) /\
  Forall (fun c => c <> 8230%N) (normalize_text text) /\
  (normalize_text text = [] \/ last (normalize_text text) 0%N <> 46%N).
Proof.
  split; [|apply normalize_text_glyphs].
  unfold normalize_text. destruct (is_empty text); [constructor|].
  unfold sub_spaces, rstrip.
  apply sub_spaces_from_Forall; [reflexivity|]. apply rstrip_by_Forall.
  repeat (apply replace_Forall; [forall_literal|]). apply lower_lowered.
Qed.

(** A second pass returns a normalized text unchanged when the text
    neither starts nor ends with whitespace, does not hold the literal of
    line 27 and is its own lower case. *)
Lemma normalize_text_again {L : Lowering} (text : pystr) :
  no_leading_space (normalize_text text) = true ->
  is_space (last (normalize_text text) 0%N) = false ->
  occurs_in APOSTROPHE_LINE_LITERAL (normalize_text text) = false ->
  str_lower (normalize_text text) = normalize_text text ->
  normalize_text (normalize_text text) = normalize_text text.
Proof.
  destruct (normalize_text_spaces text) as (W & R & _).
  destruct (normalize_text_glyphs text) as (Em & En & El & P).
  set (r := normalize_text text) in *. intros F T A Low.
  unfold normalize_text at 1. destruct r as [|c0 r0] eqn:Er; [reflexivity|].
  rewrite <- Er in *. cbn [is_empty]. replace (is_empty r) with false
    by (rewrite Er; reflexivity).
  assert (Ws : Forall (fun c => is_space c = true -> c = 32%N) r)
    by (apply Forall_forall; exact W).
  assert (S : strip r = r).
  { unfold strip. rewrite (lstrip_by_fixed r F). apply rstrip_by_fixed.
    right. exact T. }
  rewrite S, Low.
  unfold NEWLINE, TAB, DQUOTE, EM_DASH, EN_DASH, ELLIPSIS.
  rewrite (replace_char_absent 10%N).
  2:{ eapply Forall_impl; [|exact Ws]. intros c Hc ->.
      specialize (Hc eq_refl). discriminate. }
  rewrite (replace_char_absent 9%N).
  2:{ eapply Forall_impl; [|exact Ws]. intros c Hc ->.
      specialize (Hc eq_refl). discriminate. }
  rewrite !replace_char_same, (replace_absent _ _ r A).
  rewrite (replace_char_absent 8212%N _ r Em).
  rewrite (replace_char_absent 8211%N _ r En).
  rewrite (replace_char_absent 8230%N _ r El).
  unfold rstrip. rewrite rstrip_by_fixed.
  - unfold sub_spaces. apply sub_spaces_from_fixed; [exact Ws | exact R|].
    discriminate.
  - destruct P as [P|P]; [left; exact P|]. right. simpl.
    unfold char_eqb. destruct (N.eqb_spec (last r 0%N) 46%N); [contradiction|].
    reflexivity.
Qed.

(** On the Latin blocks a second pass returns a normalized text unchanged
    unless the text ends in a space or holds the literal of line 27: these
    are the only two ways in which [normalize_text] is not idempotent
    there. *)
Lemma normalize_text_second_pass (text : pystr) :
  is_space (last (normalize_text text) 0%N) = false ->
  occurs_in APOSTROPHE_LINE_LITERAL (normalize_text text) = false ->
  normalize_text (normalize_text text) = normalize_text text.
Proof.
  destruct (normalize_text_whitespace text) as (_ & _ & F).
  destruct (normalize_text_shape text) as (Low & _).
  intros T A. apply normalize_text_again; try assumption.
  apply (lower_fixed _ Low).
Qed.

(** The literal of line 27 can come back: replacing its occurrence inside
    a copy of itself puts the copy together, and a second pass replaces
    that one. *)
Example normalize_text_literal_returns :
  normalize_text (firstn 3 APOSTROPHE_LINE_LITERAL ++ APOSTROPHE_LINE_LITERAL ++
                  skipn 4 APOSTROPHE_LINE_LITERAL) = APOSTROPHE_LINE_LITERAL /\
  normalize_text APOSTROPHE_LINE_LITERAL = APOSTROPHE.
Proof. split; vm_compute; reflexivity. Qed.

(** * Further properties of the normalizer, the scorer and the decision *)

(** X1: whatever the lower-casing, whitespace in a normalized text is the
    space character alone (no tab, no newline) and never comes twice in a
    row; it is not at the front either, unless lower-casing the stripped
    text puts whitespace there. *)
Theorem normalize_text_output_whitespace {L : Lowering} (text : pystr) :
  (forall c, In c (normalize_text text) -> is_space c = true -> c = 32%N) /\
  no_space_run (normalize_text text) = true /\
  (no_leading_space (str_lower (strip text)) = true ->
   no_leading_space (normalize_text text) = true).
Proof. exact (normalize_text_spaces text). Qed.

(** X2: whatever the lower-casing, a normalized text holds no em dash, no
    en dash and no ellipsis glyph, and does not end in a period. *)
Theorem normalize_text_output_shape {L : Lowering} (text : pystr) :
  Forall (fun c => c <> 8212%N /\ c <> 8211%N /\ c <> 8230%N)
         (normalize_text text) /\
  (normalize_text text = [] \/ last (normalize_text text) 0%N <> 46%N).
Proof.
  destruct (normalize_text_glyphs text) as (Em & En & El & P).
  split; [|exact P]. rewrite Forall_forall in *. intros c Hc.
  repeat split; [apply Em | apply En | apply El]; exact Hc.
Qed.

(** X3: whatever the lower-casing, normalizing twice gives the same text as
    normalizing once whenever the first result neither starts nor ends with
    whitespace, does not hold the literal of line 27 and is its own lower
    case. *)
Theorem normalize_text_idempotent_on_clean_output {L : Lowering}
    (text : pystr) :
  no_leading_space (normalize_text text) = true ->
  is_space (last (normalize_text text) 0%N) = false ->
  occurs_in APOSTROPHE_LINE_LITERAL (normalize_text text) = false ->
  str_lower (normalize_text text) = normalize_text text ->
  normalize_text (normalize_text text) = normalize_text text.
Proof. exact (normalize_text_again text). Qed.

Lemma normalize_text_idempotent_on_clean_output_witness :
  normalize_text (normalize_text (py "  The Road -- not   taken...  ")) =
  normalize_text (py "  The Road -- not   taken...  ").
Proof.
  apply (normalize_text_idempotent_on_clean_output
           (py "  The Road -- not   taken...  ")); vm_compute; reflexivity.
Defined.

Lemma div_le_2 (a b : Z) : a <= 2 * b -> (Binary64.div a b <= 2)%Q.
Proof.
  intros Hab. unfold Binary64.div.
  destruct ((a <=? 0) || (b <=? 0)) eqn:G; [discriminate|].
  apply orb_false_iff in G. destruct G as [Ga Gb].
  apply Z.leb_gt in Ga, Gb.
  rewrite Qred_correct.
  assert (He : Binary64.exponent a b <= 1).
  { unfold Binary64.exponent.
    pose proof (Z.log2_le_mono a (2 * b) Hab) as M.
    rewrite (Z.log2_double b Gb) in M.
    destruct (Binary64.scaled_le b (Z.log2 a - Z.log2 b) a); lia. }
  destruct (0 <=? 52 - Binary64.exponent a b) eqn:S;
    [|apply Z.leb_gt in S; lia].
  assert (P : 0 < 2 ^ (52 - Binary64.exponent a b))
    by (apply Z.pow_pos_nonneg; lia).
  unfold Qle; cbn [Qnum Qden]. rewrite Z.mul_1_r, Z2Pos.id by assumption.
  apply Binary64Facts.round_half_even_le; [assumption|]. nia.
Qed.

Lemma div_self (n : Z) : 0 < n -> Binary64.div n n = 1%Q.
Proof.
  intros Hn. unfold Binary64.div.
  replace ((n <=? 0) || (n <=? 0)) with false
    by (symmetry; apply orb_false_iff; split; apply Z.leb_gt; exact Hn).
  assert (E : Binary64.exponent n n = 0).
  { unfold Binary64.exponent, Binary64.scaled_le.
    rewrite Z.sub_diag. cbn [Z.leb Z.compare Z.pow].
    replace (n * 1 <=? n) with true by (symmetry; apply Z.leb_le; lia).
    reflexivity. }
  rewrite E. cbn [Z.sub Z.opp Z.add Z.leb Z.compare Z.pos_sub].
  assert (R : Binary64.round_half_even (n * 2 ^ 52) n = 2 ^ 52).
  { unfold Binary64.round_half_even.
    rewrite (Z.mul_comm n), Z.div_mul, Z.mod_mul by lia.
    replace (2 * 0 <? n) with true by (symmetry; apply Z.ltb_lt; lia).
    reflexivity. }
  rewrite R. vm_compute. reflexivity.
Qed.

(** X4: for every pair of texts the score lies between 0.0 and 2.0. *)
Theorem calculate_similarity_between_0_and_2 (text1 text2 : pystr) :
  (0 <= calculate_similarity text1 text2 <= 2)%Q.
Proof.
  split; [apply calculate_similarity_nonneg|].
  unfold calculate_similarity.
  destruct (is_empty text1 && is_empty text2); [discriminate|].
  destruct (is_empty text1 || is_empty text2); [discriminate|].
  destruct (Z.abs (len text1 - len text2) <=? 3).
  - destruct (0 <? Z.max (len text1) (len text2)); [|discriminate].
    apply div_le_2.
    pose proof (matches_le_max_length text1 text2
      (fun i => (i <? len text1) && (i <? len text2) &&
                char_eqb (char_at text1 i) (char_at text2 i))).
    unfold len in *. lia.
  - match goal with |- context [if ?c then _ else _] => destruct c end;
      [|discriminate].
    apply div_le_2.
    pose proof (common_words_le_words1 text1
      (fun word1 => str_in word1 (split_space text2) && (2 <? len word1))).
    lia.
Qed.

Lemma matches_self (text : pystr) :
  count_if (fun i => (i <? len text) && (i <? len text) &&
                     char_eqb (char_at text i) (char_at text i))
           (range (len text)) = len text.
Proof.
  rewrite count_if_filter.
  rewrite forallb_filter_id.
  - apply range_length. unfold len; lia.
  - apply forallb_forall. intros i Hi. unfold range in Hi.
    apply in_map_iff in Hi. destruct Hi as (k & <- & Hk).
    apply in_seq in Hk. unfold char_eqb. rewrite N.eqb_refl, andb_true_r.
    replace (Z.of_nat k <? len text) with true; [reflexivity|].
    symmetry. apply Z.ltb_lt. unfold len in *. lia.
Qed.

(** X5: a non-empty text scores 1.0 against itself and 0.0 against the
    empty text, from either side. *)
Theorem calculate_similarity_self_and_empty (text : pystr) :
  text <> [] ->
  calculate_similarity text text = 1%Q /\
  calculate_similarity text [] = 0%Q /\
  calculate_similarity [] text = 0%Q.
Proof.
  intros NE. destruct text as [|c text]; [contradiction|].
  split; [|split; reflexivity].
  unfold calculate_similarity. cbn [is_empty andb orb].
  rewrite Z.sub_diag, Z.max_id. cbn [Z.abs Z.leb Z.compare].
  rewrite matches_self.
  assert (P : 0 < len (c :: text)) by (unfold len; simpl List.length; lia).
  replace (0 <? len (c :: text)) with true by (symmetry; apply Z.ltb_lt; exact P).
  apply div_self, P.
Qed.

Lemma calculate_similarity_self_and_empty_witness :
  calculate_similarity (py "Oscar Wilde") (py "Oscar Wilde") = 1%Q /\
  calculate_similarity (py "Oscar Wilde") [] = 0%Q /\
  calculate_similarity [] (py "Oscar Wilde") = 0%Q.
Proof.
  apply (calculate_similarity_self_and_empty (py "Oscar Wilde")). discriminate.
Defined.

Lemma reason_not_exact_match (x : pystr) :
  py "similar_quote_same_author_" ++ x <> py "exact_match" /\
  py "same_quote_similar_author_" ++ x <> py "exact_match" /\
  py "both_similar_q" ++ x <> py "exact_match".
Proof. repeat split; intros H; vm_compute in H; discriminate. Qed.

(** X6: the decision is [(True, "exact_match")] exactly when the two quotes
    normalize to the same text and the two authors normalize to the same
    text; in particular every quote matches itself. *)
Theorem exact_match_iff_same_normal_forms {L : Lowering}
    (quote1_text quote1_author quote2_text quote2_author : pystr) :
  are_similar_quotes quote1_text quote1_author quote2_text quote2_author =
  (true, Some (py "exact_match")) <->
  normalize_text quote1_text = normalize_text quote2_text /\
  normalize_text quote1_author = normalize_text quote2_author.
Proof.
  unfold are_similar_quotes.
  rewrite <- !str_eqb_eq, <- andb_true_iff.
  destruct (str_eqb (normalize_text quote1_text) (normalize_text quote2_text)
            && str_eqb (normalize_text quote1_author)
                       (normalize_text quote2_author)) eqn:E.
  - split; reflexivity.
  - split; [|discriminate]. intros H.
    repeat match type of H with
           | (if ?c then _ else _) = _ => destruct c
           end; try discriminate; inversion H as [R];
      match type of R with
      | _ ++ ?x = _ => destruct (reason_not_exact_match x) as (A & B & C)
      end; contradiction.
Qed.

Lemma verdict_comes_with_reason_aux {L : Lowering} (q1 a1 q2 a2 : pystr) :
  are_similar_quotes q1 a1 q2 a2 = (false, None) \/
  exists reason : pystr, are_similar_quotes q1 a1 q2 a2 = (true, Some reason).
Proof.
  unfold are_similar_quotes.
  repeat match goal with
         | |- context [if ?c then _ else _] => destruct c
         end; try (left; reflexivity); right; eexists; reflexivity.
Qed.

(** X7: the verdict and the reason go together: the decision is either
    [(False, None)] or [(True, reason)] with a reason. *)
Theorem verdict_comes_with_reason {L : Lowering}
    (quote1_text quote1_author quote2_text quote2_author : pystr) :
  are_similar_quotes quote1_text quote1_author quote2_text quote2_author =
  (false, None) \/
  exists reason : pystr,
    are_similar_quotes quote1_text quote1_author quote2_text quote2_author =
    (true, Some reason).
Proof.
  exact (verdict_comes_with_reason_aux
           quote1_text quote1_author quote2_text quote2_author).
Qed.

(** X8: when one author normalizes to the empty text and the other does
    not, no rule fires, whatever the quotes are. *)
Theorem no_match_between_empty_and_non_empty_author {L : Lowering}
    (quote1_text quote1_author quote2_text quote2_author : pystr) :
  (normalize_text quote1_author = [] /\ normalize_text quote2_author <> []) \/
  (normalize_text quote1_author <> [] /\ normalize_text quote2_author = []) ->
  are_similar_quotes quote1_text quote1_author quote2_text quote2_author =
  (false, None).
Proof.
  intros H. unfold are_similar_quotes.
  assert (E : str_eqb (normalize_text quote1_author)
                      (normalize_text quote2_author) = false).
  { destruct H as [[-> N]|[N ->]];
      destruct (normalize_text _) as [|c s] in N |- *; try contradiction;
      reflexivity. }
  assert (S : calculate_similarity (normalize_text quote1_author)
                                   (normalize_text quote2_author) = 0%Q).
  { destruct H as [[-> N]|[N ->]];
      destruct (normalize_text _) as [|c s] in N |- *; try contradiction;
      reflexivity. }
  rewrite E, S, !andb_false_r. reflexivity.
Qed.

Lemma no_match_between_empty_and_non_empty_author_witness :
  are_similar_quotes (py "Be yourself") (py "...")
                     (py "Be yourself") (py "Oscar Wilde") = (false, None).
Proof.
  apply (no_match_between_empty_and_non_empty_author
           (py "Be yourself") (py "...") (py "Be yourself") (py "Oscar Wilde")).
  left. split; [reflexivity | vm_compute; discriminate].
Defined.

(** ** Further properties of the request validation and the two handlers *)

Lemma is_empty_nil (s : pystr) : is_empty s = true <-> s = [].
Proof. destruct s; simpl; split; congruence. Qed.

Lemma strip_nil_of_nil (s : pystr) : s = [] -> strip s = [].
Proof. intros ->. reflexivity. Qed.

Lemma forallb_is_tag (tags : list tag_value) :
  forallb is_tag tags = true <->
  exists texts, tags = List.map TagStr texts /\
                Forall (fun tag => strip tag <> []) texts.
Proof.
  induction tags as [|tag tags IH]; simpl.
  - split; [intros _; exists []; split; [reflexivity | constructor]|].
    reflexivity.
  - rewrite andb_true_iff, IH. split.
    + intros [T (texts & -> & F)]. destruct tag as [t|]; [|discriminate].
      exists (t :: texts). split; [reflexivity|]. constructor; [|exact F].
      simpl in T. apply negb_true_iff in T. intros E. rewrite E in T.
      discriminate.
    + intros ([|t texts] & E & F); [discriminate|].
      inversion E; subst. inversion F; subst. split.
      * simpl. destruct (strip t); [contradiction | reflexivity].
      * exists texts. split; [reflexivity | assumption].
Qed.

(** X9: a request passes [validate_quote_data] exactly when it has a quote
    and an author that are not blank and its [tags], if there are any, is
    an array of strings none of which is blank.  A [tags] of another type
    is answered with ['tags' must be an array]; an array with an element
    that is not a string, or is a blank one, with [All tags must be
    non-empty strings]. *)
Theorem validate_quote_data_accepts_iff (data : request_data) :
  (validate_quote_data data = [] <->
   (exists q, data_quote data = Some q /\ strip q <> []) /\
   (exists a, data_author data = Some a /\ strip a <> []) /\
   (data_tags data = None \/
    exists texts,
      data_tags data = Some (TagsList (List.map TagStr texts)) /\
      Forall (fun tag => strip tag <> []) texts)) /\
  (data_tags data = Some TagsOther ->
   In (py "'tags' must be an array") (validate_quote_data data)) /\
  (forall tags tag,
     data_tags data = Some (TagsList tags) -> In tag tags ->
     tag = TagOther \/ (exists t, tag = TagStr t /\ strip t = []) ->
     In (py "All tags must be non-empty strings")
        (validate_quote_data data)).
Proof.
  unfold validate_quote_data, field_missing_or_blank.
  split; [split|split].
  - intros H. apply app_eq_nil in H. destruct H as [Q H].
    apply app_eq_nil in H. destruct H as [A T].
    destruct (data_quote data) as [q|]; [|discriminate].
    destruct (data_author data) as [a|]; [|discriminate].
    destruct (is_empty q || is_empty (strip q)) eqn:Eq; [discriminate|].
    destruct (is_empty a || is_empty (strip a)) eqn:Ea; [discriminate|].
    apply orb_false_iff in Eq, Ea.
    split; [exists q; split; [reflexivity|]|
            split; [exists a; split; [reflexivity|]|]].
    + intros E. apply is_empty_nil in E. destruct Eq; congruence.
    + intros E. apply is_empty_nil in E. destruct Ea; congruence.
    + destruct (data_tags data) as [[tags|]|];
        [|discriminate | left; reflexivity].
      destruct (forallb is_tag tags) eqn:F; [|discriminate].
      apply forallb_is_tag in F. destruct F as (texts & -> & F).
      right. exists texts. split; [reflexivity | exact F].
  - intros ((q & -> & Hq) & (a & -> & Ha) & T).
    assert (Bq : is_empty q || is_empty (strip q) = false).
    { apply orb_false_iff. split.
      - destruct q; [contradiction Hq; reflexivity | reflexivity].
      - destruct (strip q); [contradiction | reflexivity]. }
    assert (Ba : is_empty a || is_empty (strip a) = false).
    { apply orb_false_iff. split.
      - destruct a; [contradiction Ha; reflexivity | reflexivity].
      - destruct (strip a); [contradiction | reflexivity]. }
    rewrite Bq, Ba. cbn [app].
    destruct T as [-> | (texts & -> & F)]; [reflexivity|].
    replace (forallb is_tag (List.map TagStr texts)) with true;
      [reflexivity|].
    symmetry. apply forallb_is_tag. exists texts.
    split; [reflexivity | exact F].
  - intros ->. apply in_or_app. right. apply in_or_app. right.
    left. reflexivity.
  - intros tags tag -> Hin Bad. apply in_or_app. right. apply in_or_app.
    right. replace (forallb is_tag tags) with false; [left; reflexivity|].
    symmetry. apply not_true_is_false. intros F.
    rewrite forallb_forall in F. specialize (F tag Hin).
    destruct Bad as [-> | (t & -> & E)]; [discriminate|].
    simpl in F. rewrite E in F. discriminate.
Qed.

Lemma strip_no_leading_space (s : pystr) : no_leading_space (strip s) = true.
Proof.
  unfold strip. apply rstrip_by_no_leading_space, drop_while_no_leading_space.
Qed.

Lemma strip_last (s : pystr) :
  strip s = [] \/ is_space (last (strip s) 0%N) = false.
Proof. unfold strip. apply rstrip_by_last. Qed.

Lemma strip_strip (s : pystr) : strip (strip s) = strip s.
Proof.
  unfold strip at 1. rewrite (lstrip_by_fixed _ (strip_no_leading_space s)).
  apply rstrip_by_fixed, strip_last.
Qed.

Lemma handle_create_quote_scan_ext {L : Lowering} (env : environment) (user : user_claims)
    (event_body : request_body) (tr tr' : scan_trace) :
  (forall q a, create_scan q a tr [] = create_scan q a tr' []) ->
  handle_create_quote env user event_body tr =
  handle_create_quote env user event_body tr'.
Proof.
  intros H. unfold handle_create_quote.
  destruct (negb (is_admin user)); [reflexivity|].
  destruct event_body as [|data]; [reflexivity|].
  destruct (negb (is_empty_list (validate_quote_data data))); [reflexivity|].
  rewrite H. reflexivity.
Qed.

Lemma handle_check_duplicate_scan_ext {L : Lowering} (user : user_claims)
    (event_body : request_body) (tr tr' : scan_trace) :
  (forall q a, check_scan q a tr [] = check_scan q a tr' []) ->
  handle_check_duplicate user event_body tr =
  handle_check_duplicate user event_body tr'.
Proof.
  intros H. unfold handle_check_duplicate.
  destruct (negb (is_admin user)); [reflexivity|].
  destruct event_body as [|data]; [reflexivity|].
  destruct (_ || _); [reflexivity|].
  rewrite H. reflexivity.
Qed.

(** X10: a request to create a quote that comes from a non-admin, is not
    JSON or fails the validation is answered 403 or 400 whatever the table
    holds, and nothing is written. *)
Theorem create_rejects_without_scanning {L : Lowering}
    (env : environment) (user : user_claims) (event_body : request_body)
    (tr tr' : scan_trace) :
  is_admin user = false \/ event_body = JSONDecodeError \/
  (exists data, event_body = Json data /\ validate_quote_data data <> []) ->
  handle_create_quote env user event_body tr =
  handle_create_quote env user event_body tr' /\
  snd (handle_create_quote env user event_body tr) = [] /\
  (statusCode (fst (handle_create_quote env user event_body tr)) = 403 \/
   statusCode (fst (handle_create_quote env user event_body tr)) = 400).
Proof.
  intros H. unfold handle_create_quote.
  destruct (is_admin user) eqn:A; cbn [negb].
  2:{ split; [reflexivity|]. split; [reflexivity | left; reflexivity]. }
  destruct H as [H|[->|(data & -> & V)]]; [discriminate| |].
  - split; [reflexivity|]. split; [reflexivity | right; reflexivity].
  - destruct (validate_quote_data data) as [|e es]; [contradiction|].
    cbn [is_empty_list negb].
    split; [reflexivity|]. split; [reflexivity | right; reflexivity].
Qed.

Lemma create_rejects_without_scanning_witness :
  handle_create_quote sample_env admin_user
    (Json {| data_quote := Some (py "   "); data_author := None;
             data_tags := None |}) sample_scan =
  handle_create_quote sample_env admin_user
    (Json {| data_quote := Some (py "   "); data_author := None;
             data_tags := None |}) ScanRaises.
Proof.
  apply (create_rejects_without_scanning sample_env admin_user
           (Json {| data_quote := Some (py "   "); data_author := None;
                    data_tags := None |}) sample_scan ScanRaises).
  right; right. eexists. split; [reflexivity | vm_compute; discriminate].
Defined.

(** X11: whatever the request and the table, a quote that
    [handle_create_quote] writes goes with the answer 201, has the fresh
    uuid as its id, and its quote and author are not empty and carry no
    whitespace at either end. *)
Theorem create_writes_only_trimmed_quotes {L : Lowering}
    (env : environment) (user : user_claims) (event_body : request_body)
    (tr : scan_trace) (it : quote_item) :
  In (PutItem it) (snd (handle_create_quote env user event_body tr)) ->
  statusCode (fst (handle_create_quote env user event_body tr)) = 201 /\
  q_id it = uuid4 env /\
  q_quote it <> [] /\ strip (q_quote it) = q_quote it /\
  q_author it <> [] /\ strip (q_author it) = q_author it.
Proof.
  unfold handle_create_quote.
  destruct (negb (is_admin user)); [intros []|].
  destruct event_body as [|data]; [intros []|].
  destruct (validate_quote_data data) as [|e es] eqn:V; [|intros []].
  cbn [is_empty_list negb].
  destruct (validate_quote_data_ok data V) as [Q A].
  assert (G : In (PutItem it) (snd (create_new_quote env user data)) ->
              statusCode (fst (create_new_quote env user data)) = 201 /\
              q_id it = uuid4 env /\
              q_quote it <> [] /\ strip (q_quote it) = q_quote it /\
              q_author it <> [] /\ strip (q_author it) = q_author it).
  { unfold create_new_quote. destruct (put_item_raises env); [intros []|].
    cbn [snd fst statusCode create_response].
    intros [E|[E|[]]]; [|discriminate]. inversion E; subst it; clear E.
    cbn [q_id q_quote q_author]. rewrite !strip_strip.
    repeat split; try reflexivity.
    - intros E. rewrite E in Q. discriminate.
    - intros E. rewrite E in A. discriminate. }
  destruct (create_scan _ _ tr []) as [[|d ds]|]; [exact G | intros [] | exact G].
Qed.

Lemma create_writes_only_trimmed_quotes_witness :
  exists it : quote_item,
    In (PutItem it)
       (snd (handle_create_quote sample_env admin_user
               (Json {| data_quote := Some (py "  Know thyself.  ");
                        data_author := Some (py " Socrates ");
                        data_tags := None |}) sample_scan)) /\
    q_quote it = py "Know thyself." /\ q_author it = py "Socrates" /\
    strip (q_quote it) = q_quote it.
Proof.
  eexists. split; [left; reflexivity|].
  split; [reflexivity|]. split; [reflexivity|].
  eapply (create_writes_only_trimmed_quotes sample_env admin_user
            (Json {| data_quote := Some (py "  Know thyself.  ");
                     data_author := Some (py " Socrates ");
                     data_tags := None |}) sample_scan).
  left. reflexivity.
Defined.

(** X12: the answers of both handlers depend on the scan only through the
    sequence of records it enumerates (or its failure), not on how the
    records are cut into pages. *)
Theorem paging_is_irrelevant {L : Lowering}
    (env : environment) (user : user_claims) (event_body : request_body)
    (tr tr' : scan_trace) :
  scanned_items tr = scanned_items tr' ->
  handle_create_quote env user event_body tr =
  handle_create_quote env user event_body tr' /\
  handle_check_duplicate user event_body tr =
  handle_check_duplicate user event_body tr'.
Proof.
  intros H. split.
  - apply handle_create_quote_scan_ext. intros q a.
    rewrite !create_scan_matches, H. reflexivity.
  - apply handle_check_duplicate_scan_ext. intros q a.
    rewrite !check_scan_matches, H. reflexivity.
Qed.

Lemma paging_is_irrelevant_witness :
  handle_create_quote sample_env admin_user (Json sample_request) sample_scan =
  handle_create_quote sample_env admin_user (Json sample_request)
    (ScanLast (sample_page1 ++ sample_page2)) /\
  handle_check_duplicate admin_user (Json sample_request) sample_scan =
  handle_check_duplicate admin_user (Json sample_request)
    (ScanLast (sample_page1 ++ sample_page2)).
Proof.
  apply (paging_is_irrelevant sample_env admin_user (Json sample_request)
           sample_scan (ScanLast (sample_page1 ++ sample_page2))).
  reflexivity.
Defined.

Lemma matches_skip {L : Lowering} (compared : item -> option (pystr * pystr))
    (created_at_of : item -> option pystr) (q a : pystr)
    (before after : list item) (m : item) :
  compared m = None ->
  matches compared created_at_of q a (before ++ m :: after) =
  matches compared created_at_of q a (before ++ after).
Proof.
  intros H. rewrite !matches_app. f_equal.
  unfold matches. cbn [filter]. unfold is_match at 1. rewrite H. reflexivity.
Qed.

(** X13: a record without a [quote] attribute, such as the tags metadata
    record that [update_tags_metadata] writes, changes the answer of neither
    handler, wherever it stands in the scan. *)
Theorem records_without_quote_are_ignored {L : Lowering}
    (env : environment) (user : user_claims) (event_body : request_body)
    (tr tr' : scan_trace) (before after : list item) (m : item) :
  item_quote m = None ->
  scanned_items tr = Some (before ++ m :: after) ->
  scanned_items tr' = Some (before ++ after) ->
  handle_create_quote env user event_body tr =
  handle_create_quote env user event_body tr' /\
  handle_check_duplicate user event_body tr =
  handle_check_duplicate user event_body tr'.
Proof.
  intros Q H H'. split.
  - apply handle_create_quote_scan_ext. intros q a.
    rewrite !create_scan_matches, H, H'. cbn [option_map].
    unfold create_matches. rewrite matches_skip; [reflexivity|].
    unfold create_compared. rewrite Q. reflexivity.
  - apply handle_check_duplicate_scan_ext. intros q a.
    rewrite !check_scan_matches, H, H'. cbn [option_map].
    unfold check_matches. rewrite matches_skip; [reflexivity|].
    unfold check_compared. rewrite Q.
    destruct (starts_with _ _); reflexivity.
Qed.

Lemma records_without_quote_are_ignored_witness :
  handle_check_duplicate admin_user (Json sample_request)
    (ScanLast sample_page1) =
  handle_check_duplicate admin_user (Json sample_request)
    (ScanLast (tl sample_page1)).
Proof.
  apply (records_without_quote_are_ignored sample_env admin_user
           (Json sample_request) (ScanLast sample_page1)
           (ScanLast (tl sample_page1)) [] (tl sample_page1) tags_metadata);
    reflexivity.
Defined.

Lemma matches_have_reasons {L : Lowering} (compared : item -> option (pystr * pystr))
    (created_at_of : item -> option pystr) (q a : pystr)
    (records : list item) :
  Forall (fun d => dup_match_reason d <> None)
         (matches compared created_at_of q a records).
Proof.
  unfold matches. apply Forall_forall. intros d Hd.
  apply in_map_iff in Hd. destruct Hd as (it & <- & Hit).
  apply filter_In in Hit. destruct Hit as [_ M].
  unfold is_match in M. unfold entry_of.
  destruct (compared it) as [[iq ia]|]; [|discriminate].
  cbn [dup_match_reason].
  destruct (verdict_comes_with_reason_aux q a iq ia) as [E|[r E]];
    rewrite E in *; [discriminate M | discriminate].
Qed.

Lemma report_shape (found : list duplicate) :
  Forall (fun d => dup_match_reason d <> None) found ->
  (List.length (first5 found) <= 5)%nat /\
  Z.of_nat (List.length (first5 found)) =
  Z.min (Z.of_nat (List.length found)) 5 /\
  Forall (fun d => dup_match_reason d <> None) (first5 found).
Proof.
  intros F. unfold first5. rewrite length_firstn.
  split; [lia|]. split; [lia|].
  rewrite <- (firstn_skipn 5 found) in F. apply Forall_app in F. apply F.
Qed.

(** X14: whenever a handler reports duplicates, the list holds at most 5
    entries, it holds [min(duplicate_count, 5)] of them, each entry carries
    a reason, and [is_duplicate] is true exactly when [duplicate_count] is
    positive (always, on the creation path). *)
Theorem reported_duplicates_are_capped {L : Lowering}
    (env : environment) (user : user_claims) (event_body : request_body)
    (tr : scan_trace) :
  match reported_duplicates
          (fst (handle_create_quote env user event_body tr)) with
  | Some (is_duplicate, duplicate_count, duplicates) =>
      (List.length duplicates <= 5)%nat /\
      Z.of_nat (List.length duplicates) = Z.min duplicate_count 5 /\
      Forall (fun d => dup_match_reason d <> None) duplicates /\
      is_duplicate = true /\ 0 < duplicate_count
  | None => True
  end /\
  match reported_duplicates
          (fst (handle_check_duplicate user event_body tr)) with
  | Some (is_duplicate, duplicate_count, duplicates) =>
      (List.length duplicates <= 5)%nat /\
      Z.of_nat (List.length duplicates) = Z.min duplicate_count 5 /\
      Forall (fun d => dup_match_reason d <> None) duplicates /\
      (is_duplicate = true <-> 0 < duplicate_count)
  | None => True
  end.
Proof.
  split.
  - unfold handle_create_quote.
    destruct (negb (is_admin user)); [exact I|].
    destruct event_body as [|data]; [exact I|].
    destruct (negb (is_empty_list (validate_quote_data data))); [exact I|].
    rewrite create_scan_matches.
    destruct (scanned_items tr) as [records|]; cbn [option_map app].
    + pose proof (matches_have_reasons create_compared
        (fun it => Some (or_default (item_created_at it) []))
        (strip (or_default (data_quote data) []))
        (strip (or_default (data_author data) [])) records) as F.
      fold create_matches in F.
      destruct (create_matches _ _ records) as [|d ds] eqn:E.
      * unfold create_new_quote. destruct (put_item_raises env); exact I.
      * cbn [reported_duplicates fst body create_response].
        destruct (report_shape (d :: ds) F) as (A & B & C).
        repeat split; try assumption; try (simpl List.length; lia).
    + unfold create_new_quote. destruct (put_item_raises env); exact I.
  - unfold handle_check_duplicate.
    destruct (negb (is_admin user)); [exact I|].
    destruct event_body as [|data]; [exact I|].
    destruct (_ || _); [exact I|].
    rewrite check_scan_matches.
    destruct (scanned_items tr) as [records|]; cbn [option_map app];
      [|exact I].
    pose proof (matches_have_reasons check_compared item_created_at
      (strip (or_default (data_quote data) []))
      (strip (or_default (data_author data) [])) records) as F.
    fold check_matches in F.
    destruct (check_matches _ _ records) as [|d ds] eqn:E.
    + cbn [reported_duplicates fst body create_response].
      repeat split; try discriminate; try (simpl List.length; lia);
        constructor.
    + cbn [reported_duplicates fst body create_response].
      destruct (report_shape (d :: ds) F) as (A & B & C).
      repeat split; try assumption; try reflexivity;
        try (simpl List.length; lia).
Qed.

(** X15: a check-duplicate request from a non-admin, with a body that is
    not JSON, or with a quote or an author that is missing or blank is
    answered 403 or 400 whatever the table holds. *)
Theorem check_rejects_without_scanning {L : Lowering}
    (user : user_claims) (event_body : request_body) (tr tr' : scan_trace) :
  is_admin user = false \/ event_body = JSONDecodeError \/
  (exists data, event_body = Json data /\
     (strip (or_default (data_quote data) []) = [] \/
      strip (or_default (data_author data) []) = [])) ->
  handle_check_duplicate user event_body tr =
  handle_check_duplicate user event_body tr' /\
  (statusCode (fst (handle_check_duplicate user event_body tr)) = 403 \/
   statusCode (fst (handle_check_duplicate user event_body tr)) = 400).
Proof.
  intros H. unfold handle_check_duplicate.
  destruct (is_admin user) eqn:A; cbn [negb].
  2:{ split; [reflexivity | left; reflexivity]. }
  destruct H as [H|[->|(data & -> & B)]]; [discriminate| |].
  - split; [reflexivity | right; reflexivity].
  - replace (is_empty (strip (or_default (data_quote data) [])) ||
             is_empty (strip (or_default (data_author data) []))) with true.
    + split; [reflexivity | right; reflexivity].
    + symmetry. apply orb_true_iff.
      destruct B as [-> | ->]; [left | right]; reflexivity.
Qed.

Lemma check_rejects_without_scanning_witness :
  handle_check_duplicate admin_user
    (Json {| data_quote := Some (py "Be yourself"); data_author := None;
             data_tags := None |}) sample_scan =
  handle_check_duplicate admin_user
    (Json {| data_quote := Some (py "Be yourself"); data_author := None;
             data_tags := None |}) ScanRaises.
Proof.
  apply (check_rejects_without_scanning admin_user
           (Json {| data_quote := Some (py "Be yourself");
                    data_author := None; data_tags := None |})
           sample_scan ScanRaises).
  right; right. eexists. split; [reflexivity | right; reflexivity].
Defined.

(** * Properties of the caller identity, the routing and the tags *)

Lemma starts_with_iff (p s : pystr) :
  starts_with p s = true <-> exists q, s = p ++ q.
Proof.
  revert s; induction p as [|c p IH]; intros s; simpl.
  - split; [intros _; exists s; reflexivity | reflexivity].
  - destruct s as [|d s].
    + split; [discriminate | intros [q E]; discriminate].
    + unfold char_eqb. rewrite andb_true_iff, N.eqb_eq, IH. split.
      * intros [-> [q ->]]. exists q. reflexivity.
      * intros [q E]. inversion E. split; [reflexivity | exists q; reflexivity].
Qed.

Lemma occurs_in_iff (old s : pystr) :
  old <> [] ->
  occurs_in old s = true <-> exists p q, s = p ++ old ++ q.
Proof.
  intros NE. induction s as [|c s IH]; cbn [occurs_in].
  - split; [discriminate|]. intros (p & q & E).
    destruct p; destruct old; try contradiction; discriminate.
  - rewrite orb_true_iff, starts_with_iff, IH. split.
    + intros [[q E]|(p & q & E)].
      * exists [], q. exact E.
      * exists (c :: p), q. rewrite E. reflexivity.
    + intros (p & q & E). destruct p as [|d p].
      * left. exists q. exact E.
      * right. inversion E. exists p, q. reflexivity.
Qed.

(** X16: the caller is an admin exactly when the groups claim is a string
    that contains [Admins] anywhere (so a group named [SubAdmins] counts),
    or a list with the member [Admins]; without the claim, or with a value
    of another type, the caller is not an admin. *)
Theorem admin_by_groups (claims : cognito_claims) :
  info_is_admin (get_user_claims claims) = true <->
  (exists before after,
     claim_groups claims = Some (GroupsStr (before ++ py "Admins" ++ after)))
  \/
  (exists l, claim_groups claims = Some (GroupsList l) /\ In (py "Admins") l).
Proof.
  unfold get_user_claims. cbn [info_is_admin].
  destruct (claim_groups claims) as [[s|l|]|].
  - rewrite occurs_in_iff by discriminate. split.
    + intros (p & q & ->). left. exists p, q. reflexivity.
    + intros [(p & q & E)|(l & E & _)]; [|discriminate].
      inversion E. exists p, q. reflexivity.
  - rewrite str_in_In. split.
    + intros H. right. exists l. split; [reflexivity | exact H].
    + intros [(p & q & E)|(l' & E & H)]; [discriminate|].
      inversion E. subst. exact H.
  - split; [discriminate|]. intros [(p & q & E)|(l & E & _)]; discriminate.
  - simpl. split; [discriminate|].
    intros [(p & q & E)|(l & E & _)]; discriminate.
Qed.

Example admin_by_substring :
  info_is_admin
    (get_user_claims {| claim_groups := Some (GroupsStr (py "SubAdmins"));
                        claim_username := None; claim_email := None |}) = true
  /\
  info_is_admin
    (get_user_claims {| claim_groups := Some (GroupsList [py "SubAdmins"]);
                        claim_username := None; claim_email := None |}) = false.
Proof. split; reflexivity. Qed.

Ltac route_chain :=
  repeat match goal with
         | |- context [if ?c then _ else _] =>
             let E := fresh "E" in destruct c eqn:E; try discriminate
         end.

(** X17: a request reaches [handle_delete_tag] exactly when its method is
    DELETE and its path is [/admin/tags/] followed by a tag other than
    [unused]: the tag named [unused] cannot be deleted through this
    route. *)
Theorem delete_tag_route (method path : pystr) :
  lambda_handler_route method path = DeleteTag <->
  method = py "DELETE" /\
  exists tag, path = py "/admin/tags/" ++ tag /\ tag <> py "unused".
Proof.
  split.
  - unfold lambda_handler_route. route_chain. intros _.
    apply andb_true_iff in E8. destruct E8 as [M P].
    apply str_eqb_eq in M. apply starts_with_iff in P. destruct P as [tag ->].
    split; [exact M|]. exists tag. split; [reflexivity|].
    intros ->. subst method. discriminate E7.
  - intros (-> & tag & -> & NE). unfold lambda_handler_route.
    assert (U : str_eqb (py "/admin/tags/" ++ tag) (py "/admin/tags/unused")
                = false).
    { destruct (str_eqb _ _) eqn:E; [|reflexivity].
      apply str_eqb_eq in E.
      change (py "/admin/tags/unused") with (py "/admin/tags/" ++ py "unused")
        in E.
      apply app_inv_head in E. contradiction. }
    rewrite U. reflexivity.
Qed.

Lemma starts_with_admin (path rest : pystr) :
  starts_with (py "/admin/" ++ rest) path = true ->
  starts_with (py "/admin/") path = true.
Proof.
  rewrite !starts_with_iff. intros [q ->]. exists (rest ++ q).
  rewrite app_assoc. reflexivity.
Qed.

(** X18: a request is answered by a handler only when its method is GET,
    POST, PUT or DELETE and its path begins with [/admin/]; every other
    request gets the 404 answer. *)
Theorem routed_requests (method path : pystr) :
  lambda_handler_route method path <> NotFound ->
  In method [py "GET"; py "POST"; py "PUT"; py "DELETE"] /\
  starts_with (py "/admin/") path = true.
Proof.
  unfold lambda_handler_route. route_chain; intros H;
    try (contradiction H; reflexivity);
    match goal with
    | E : _ && _ = true |- _ =>
        apply andb_true_iff in E; destruct E as [M P]
    end;
    apply str_eqb_eq in M; subst method;
    (split; [simpl; tauto|]);
    first [ apply str_eqb_eq in P; subst path; reflexivity
          | apply (starts_with_admin path (py "quotes/")); exact P
          | apply (starts_with_admin path (py "tags/")); exact P ].
Qed.

Lemma routed_requests_witness :
  In (py "DELETE") [py "GET"; py "POST"; py "PUT"; py "DELETE"] /\
  starts_with (py "/admin/") (py "/admin/tags/unused") = true.
Proof.
  apply (routed_requests (py "DELETE") (py "/admin/tags/unused")).
  vm_compute. discriminate.
Defined.

(** The order on strings. *)
Lemma str_ltb_irrefl (s : pystr) : str_ltb s s = false.
Proof.
  induction s as [|c s IH]; [reflexivity|]. simpl.
  rewrite N.ltb_irrefl, N.eqb_refl, IH. reflexivity.
Qed.

Lemma str_ltb_trans (s t u : pystr) :
  str_ltb s t = true -> str_ltb t u = true -> str_ltb s u = true.
Proof.
  revert t u; induction s as [|c s IH]; intros [|d t] [|e u]; simpl;
    try discriminate; try reflexivity.
  rewrite !orb_true_iff, !andb_true_iff, !N.ltb_lt, !N.eqb_eq.
  intros [H1|[H1 H2]] [H3|[H3 H4]]; subst.
  - left. lia.
  - left. exact H1.
  - left. exact H3.
  - right. split; [reflexivity | apply (IH t u); assumption].
Qed.

Lemma str_ltb_total (s t : pystr) :
  str_ltb s t = false -> str_eqb s t = false -> str_ltb t s = true.
Proof.
  revert t; induction s as [|c s IH]; intros [|d t]; simpl;
    try discriminate; try reflexivity.
  unfold char_eqb. rewrite (N.eqb_sym d c).
  destruct (N.ltb_spec c d); [discriminate|]. simpl.
  destruct (N.eqb_spec c d) as [->|NE]; simpl.
  - rewrite N.ltb_irrefl. simpl. apply IH.
  - intros _ _. replace (d <? c)%N with true; [reflexivity|].
    symmetry. apply N.ltb_lt. lia.
Qed.

Lemma insert_sorted_In (x t : pystr) (l : list pystr) :
  In t (insert_sorted x l) <-> t = x \/ In t l.
Proof.
  induction l as [|y l IH]; simpl; [intuition congruence|].
  destruct (str_ltb x y); [simpl; intuition congruence|].
  destruct (str_eqb x y) eqn:E.
  - apply str_eqb_eq in E. subst. simpl. intuition congruence.
  - simpl. rewrite IH. intuition congruence.
Qed.

Lemma sorted_set_In (t : pystr) (members : list pystr) :
  In t (sorted_set members) <-> In t members.
Proof.
  induction members as [|x l IH]; simpl; [tauto|].
  rewrite insert_sorted_In, IH. intuition congruence.
Qed.

Lemma insert_sorted_sorted (x : pystr) (l : list pystr) :
  StronglySorted (fun a b => str_ltb a b = true) l ->
  StronglySorted (fun a b => str_ltb a b = true) (insert_sorted x l).
Proof.
  induction 1 as [|y l S IH F]; simpl.
  - constructor; constructor.
  - destruct (str_ltb x y) eqn:L.
    + constructor; [constructor; assumption|].
      constructor; [exact L|].
      eapply Forall_impl; [|exact F]. intros z Hz.
      exact (str_ltb_trans x y z L Hz).
    + destruct (str_eqb x y) eqn:E; [constructor; assumption|].
      constructor; [exact IH|].
      apply Forall_forall. intros z Hz. apply insert_sorted_In in Hz.
      destruct Hz as [->|Hz].
      * apply str_ltb_total; [exact L | exact E].
      * rewrite Forall_forall in F. apply F, Hz.
Qed.

Lemma sorted_set_sorted (members : list pystr) :
  StronglySorted (fun a b => str_ltb a b = true) (sorted_set members).
Proof.
  induction members as [|x l IH]; simpl; [constructor|].
  apply insert_sorted_sorted, IH.
Qed.

Lemma strictly_sorted_NoDup (l : list pystr) :
  StronglySorted (fun a b => str_ltb a b = true) l -> NoDup l.
Proof.
  induction 1 as [|y l S IH F]; constructor; [|exact IH].
  intros Hin. rewrite Forall_forall in F. specialize (F y Hin).
  rewrite str_ltb_irrefl in F. discriminate.
Qed.

(** X19: unless [put_item] raises, [update_tags_metadata] writes a record
    whose tags are in strictly increasing order (hence without duplicates)
    and are exactly the tags it read together with the new tags: no tag of
    the record read is lost.  When the read raised or found nothing, the
    tags start from none. *)
Theorem update_tags_metadata_merges
    (get : get_item_outcome (option (list pystr))) (put_raises : bool)
    (timestamp : pystr) (new_tags : list pystr) :
  match update_tags_metadata get put_raises timestamp new_tags with
  | Some r =>
      StronglySorted (fun a b => str_ltb a b = true) (record_tags r) /\
      NoDup (record_tags r) /\
      (forall t, In t (record_tags r) <->
                 In t (tags_read get) \/ In t new_tags) /\
      record_updated_at r = timestamp
  | None => put_raises = true
  end.
Proof.
  unfold update_tags_metadata. destruct put_raises; [reflexivity|].
  cbn [record_tags record_updated_at].
  split; [apply sorted_set_sorted|].
  split; [apply strictly_sorted_NoDup, sorted_set_sorted|].
  split; [|reflexivity].
  intros t. rewrite sorted_set_In.
  assert (E : match get with
              | GetFound (Some tags) => tags
              | GetFound None => [] | GetMissing => [] | GetRaises => []
              end = tags_read get)
    by (destruct get as [| |[tags|]]; reflexivity).
  rewrite E. destruct new_tags as [|n ns]; [simpl; tauto|].
  apply in_app_iff.
Qed.

Lemma tag_names_of_In (name : pystr) (items : list (option pystr)) :
  In name (tag_names_of items) <-> name <> [] /\ In (Some name) items.
Proof.
  unfold tag_names_of. rewrite in_flat_map. split.
  - intros ([[|c n]|] & Hin & H); simpl in H; try contradiction.
    destruct H as [<-|[]]. split; [discriminate | exact Hin].
  - intros [NE Hin]. exists (Some name). split; [exact Hin|].
    destruct name; [contradiction | left; reflexivity].
Qed.

(** X20: when both scans complete, [get_tags_metadata] lists every
    non-empty tag of the tags table exactly once, in strictly increasing
    order; when a scan raises it returns the empty list. *)
Theorem get_tags_metadata_lists_each_tag_once
    (tags_scan : scan_of (option pystr)) (quotes_scan : scan_of row) :
  match drain tags_scan, drain quotes_scan with
  | Some tag_items, Some quote_items =>
      let names := List.map tag_name
                     (get_tags_metadata tags_scan quotes_scan) in
      StronglySorted (fun a b => str_ltb a b = true) names /\
      NoDup names /\
      forall name, In name names <-> name <> [] /\ In (Some name) tag_items
  | _, _ => get_tags_metadata tags_scan quotes_scan = []
  end.
Proof.
  unfold get_tags_metadata.
  destruct (drain tags_scan) as [tag_items|]; [|reflexivity].
  destruct (drain quotes_scan) as [quote_items|]; [|reflexivity].
  cbv zeta. rewrite map_map. cbn [tag_name]. rewrite map_id.
  split; [apply sorted_set_sorted|].
  split; [apply strictly_sorted_NoDup, sorted_set_sorted|].
  intros name. rewrite sorted_set_In. apply tag_names_of_In.
Qed.

Lemma cleanup_deletes (user : user_claims)
    (tags_scan : scan_of (option pystr)) (quotes_scan : scan_of row)
    (delete_raises : pystr -> bool) (tag_items : list (option pystr)) :
  is_admin user = true ->
  drain tags_scan = Some tag_items ->
  snd (handle_cleanup_unused_tags user tags_scan quotes_scan delete_raises) =
  filter (fun tag => negb (str_in tag (sorted_set (get_used_tags quotes_scan))))
         (sorted_set (tag_names_of tag_items)).
Proof.
  intros A D. unfold handle_cleanup_unused_tags. rewrite A, D. cbn [negb].
  destruct (filter _ _); reflexivity.
Qed.

(** X21: [handle_cleanup_unused_tags] calls [delete_item] for exactly the
    tags of the tags table that no item of the FIRST page of the quotes
    scan (the metadata record apart) carries.  Tags used only by items of
    later pages are deleted, and when the scan raises every tag is. *)
Theorem cleanup_deletes_tags_unused_on_first_page
    (user : user_claims) (tags_scan : scan_of (option pystr))
    (quotes_scan : scan_of row) (delete_raises : pystr -> bool)
    (tag_items : list (option pystr)) (tag : pystr) :
  is_admin user = true ->
  drain tags_scan = Some tag_items ->
  In tag (snd (handle_cleanup_unused_tags user tags_scan quotes_scan
                 delete_raises)) <->
  (tag <> [] /\ In (Some tag) tag_items) /\
  ~ exists quote,
      In quote (match first_page quotes_scan with
                | Some quotes => quotes
                | None => []
                end) /\
      row_id quote <> py "TAGS_METADATA" /\ In tag (tags_of quote).
Proof.
  intros A D. rewrite (cleanup_deletes _ _ _ _ _ A D).
  rewrite filter_In, sorted_set_In, tag_names_of_In, negb_true_iff.
  assert (U : str_in tag (sorted_set (get_used_tags quotes_scan)) = true <->
              exists quote,
                In quote (match first_page quotes_scan with
                          | Some quotes => quotes
                          | None => []
                          end) /\
                row_id quote <> py "TAGS_METADATA" /\ In tag (tags_of quote)).
  { rewrite str_in_In, sorted_set_In. unfold get_used_tags.
    destruct (first_page quotes_scan) as [quotes|].
    - rewrite sorted_set_In, in_flat_map. split.
      + intros (quote & Hq & Ht). apply filter_In in Hq.
        destruct Hq as [Hq Hid]. exists quote.
        split; [exact Hq|]. split; [|exact Ht].
        intros E. apply str_eqb_eq in E. rewrite E in Hid. discriminate.
      + intros (quote & Hq & Hid & Ht). exists quote. split; [|exact Ht].
        apply filter_In. split; [exact Hq|].
        destruct (str_eqb _ _) eqn:E; [|reflexivity].
        apply str_eqb_eq in E. contradiction.
    - simpl. split; [tauto | intros (quote & [] & _)]. }
  rewrite <- U. destruct (str_in _ _); intuition congruence.
Qed.

Lemma cleanup_deletes_tags_unused_on_first_page_witness :
  In (py "wisdom")
     (snd (handle_cleanup_unused_tags admin_user
             (Last [Some (py "humor"); Some (py "wisdom")])
             (More [tagged_row "q1" [py "humor"]]
                   (Last [tagged_row "q2" [py "wisdom"]]))
             (fun _ => false))).
Proof.
  apply (cleanup_deletes_tags_unused_on_first_page admin_user
           (Last [Some (py "humor"); Some (py "wisdom")])
           (More [tagged_row "q1" [py "humor"]]
                 (Last [tagged_row "q2" [py "wisdom"]]))
           (fun _ => false) [Some (py "humor"); Some (py "wisdom")]
           (py "wisdom")); try reflexivity.
  split; [split; [discriminate | simpl; tauto]|].
  intros (quote & [<-|[]] & _ & [H|[]]). discriminate H.
Defined.

(** X22: when [get_tags_metadata] returns at least one tag,
    [handle_add_tag] never answers 201 and writes nothing: building a set
    from the list of dictionaries raises, and an admin request with a tag
    that is not blank is answered 500. *)
Theorem add_tag_fails_when_tags_exist
    (user : user_claims) (event_body : tag_request)
    (tags_metadata : list tag_info) (put_raises : bool) (timestamp : pystr) :
  tags_metadata <> [] ->
  snd (handle_add_tag user event_body tags_metadata put_raises timestamp) = []
  /\
  fst (fst (handle_add_tag user event_body tags_metadata put_raises timestamp))
  <> 201 /\
  (is_admin user = true ->
   forall tag, event_body = TagJson (Some tag) -> strip tag <> [] ->
   fst (fst (handle_add_tag user event_body tags_metadata put_raises
               timestamp)) = 500).
Proof.
  intros NE. destruct tags_metadata as [|info rest]; [contradiction|].
  unfold handle_add_tag.
  destruct (is_admin user); cbn [negb].
  2:{ repeat split; try discriminate. }
  destruct event_body as [|tag].
  { repeat split; try discriminate. }
  destruct (is_empty (strip (or_default tag []))) eqn:B.
  - repeat split; try discriminate.
    intros _ t E S. inversion E; subst. simpl in B.
    apply is_empty_nil in B. contradiction.
  - repeat split; try discriminate.
Qed.

Lemma add_tag_fails_when_tags_exist_witness :
  snd (handle_add_tag admin_user (TagJson (Some (py "courage")))
         [{| tag_name := py "wisdom"; tag_quote_count := 3 |}] false
         (py "2024-05-01T12:00:00Z")) = [] /\
  fst (fst (handle_add_tag admin_user (TagJson (Some (py "courage")))
              [{| tag_name := py "wisdom"; tag_quote_count := 3 |}] false
              (py "2024-05-01T12:00:00Z"))) = 500.
Proof.
  destruct (add_tag_fails_when_tags_exist admin_user
              (TagJson (Some (py "courage")))
              [{| tag_name := py "wisdom"; tag_quote_count := 3 |}] false
              (py "2024-05-01T12:00:00Z")) as (W & _ & S);
    [discriminate|].
  split; [exact W|].
  apply (S eq_refl (py "courage") eq_refl). vm_compute. discriminate.
Defined.

(** X23: [handle_update_tag] never renames a tag: for every request and
    every table it writes nothing and its answer is never 200.  With tags
    present the set of dictionaries cannot be built (500); without tags the
    old tag is not found (404). *)
Theorem update_tag_never_succeeds
    (user : user_claims) (path_tag : option pystr) (event_body : tag_request)
    (tags_metadata : list tag_info) (quotes_scan : scan_of row)
    (put_raises : tag_write -> bool) (timestamp : pystr) :
  snd (handle_update_tag user path_tag event_body tags_metadata quotes_scan
         put_raises timestamp) = [] /\
  fst (fst (handle_update_tag user path_tag event_body tags_metadata
              quotes_scan put_raises timestamp)) <> 200.
Proof.
  unfold handle_update_tag.
  destruct (negb (is_admin user)); [split; [reflexivity | discriminate]|].
  destruct path_tag as [[|c old]|]; try (split; [reflexivity | discriminate]).
  destruct event_body as [|tag]; [split; [reflexivity | discriminate]|].
  destruct (is_empty _); [split; [reflexivity | discriminate]|].
  destruct (str_eqb _ _); [split; [reflexivity | discriminate]|].
  destruct tags_metadata as [|info rest]; split;
    try reflexivity; discriminate.
Qed.

(** * Properties of the listing and the search *)

Lemma str_ltb_asym (s t : pystr) : str_ltb s t = true -> str_ltb t s = false.
Proof.
  intros H. destruct (str_ltb t s) eqn:E; [|reflexivity].
  pose proof (str_ltb_trans s t s H E) as C.
  rewrite str_ltb_irrefl in C. discriminate.
Qed.

Lemma str_leb_total (s t : pystr) : str_leb s t = false -> str_leb t s = true.
Proof.
  unfold str_leb. intros H. apply negb_false_iff in H.
  rewrite (str_ltb_asym t s H). reflexivity.
Qed.

Lemma str_leb_trans (s t u : pystr) :
  str_leb s t = true -> str_leb t u = true -> str_leb s u = true.
Proof.
  unfold str_leb. rewrite !negb_true_iff. intros H1 H2.
  destruct (str_ltb u s) eqn:C; [|reflexivity].
  destruct (str_ltb s t) eqn:L.
  - rewrite (str_ltb_trans u s t C L) in H2. discriminate.
  - destruct (str_eqb s t) eqn:E.
    + apply str_eqb_eq in E. subst. congruence.
    + rewrite (str_ltb_total s t L E) in H1. discriminate.
Qed.

Section Sorting.

Variable key : row -> pystr.

Lemma insert_by_perm (x : row) (l : list row) :
  Permutation (insert_by key x l) (x :: l).
Proof.
  induction l as [|y l IH]; simpl; [reflexivity|].
  destruct (str_leb (key x) (key y)); [reflexivity|].
  rewrite IH. apply perm_swap.
Qed.

Lemma stable_sort_perm (l : list row) : Permutation (stable_sort key l) l.
Proof.
  induction l as [|x l IH]; simpl; [reflexivity|].
  rewrite insert_by_perm, IH. reflexivity.
Qed.

Lemma insert_by_sorted (x : row) (l : list row) :
  StronglySorted (fun a b => str_leb (key a) (key b) = true) l ->
  StronglySorted (fun a b => str_leb (key a) (key b) = true)
                 (insert_by key x l).
Proof.
  induction 1 as [|y l S IH F]; simpl.
  - constructor; constructor.
  - destruct (str_leb (key x) (key y)) eqn:L.
    + constructor; [constructor; assumption|].
      constructor; [exact L|].
      eapply Forall_impl; [|exact F]. intros z Hz.
      exact (str_leb_trans _ _ _ L Hz).
    + constructor; [exact IH|].
      apply Forall_forall. intros z Hz.
      apply (Permutation_in _ (insert_by_perm x l)) in Hz.
      destruct Hz as [<-|Hz]; [apply str_leb_total, L|].
      rewrite Forall_forall in F. apply F, Hz.
Qed.

Lemma stable_sort_sorted (l : list row) :
  StronglySorted (fun a b => str_leb (key a) (key b) = true)
                 (stable_sort key l).
Proof.
  induction l as [|x l IH]; simpl; [constructor|].
  apply insert_by_sorted, IH.
Qed.

Lemma list_sort_perm (reverse : bool) (l : list row) :
  Permutation (list_sort key reverse l) l.
Proof.
  unfold list_sort. destruct reverse; [|apply stable_sort_perm].
  rewrite <- Permutation_rev, stable_sort_perm, <- Permutation_rev.
  reflexivity.
Qed.

End Sorting.

Lemma sorted_snoc {A : Type} (R : A -> A -> Prop) (l : list A) (x : A) :
  StronglySorted R l -> Forall (fun a => R a x) l ->
  StronglySorted R (l ++ [x]).
Proof.
  induction 1 as [|y l S IH F]; intros H; simpl.
  - constructor; constructor.
  - inversion H; subst. constructor; [apply IH; assumption|].
    apply Forall_app. split; [exact F | constructor; [assumption|constructor]].
Qed.

Lemma sorted_rev {A : Type} (R : A -> A -> Prop) (l : list A) :
  StronglySorted R l -> StronglySorted (fun a b => R b a) (rev l).
Proof.
  induction 1 as [|y l S IH F]; simpl; [constructor|].
  apply sorted_snoc; [exact IH|].
  apply Forall_forall. intros a Ha. apply in_rev in Ha.
  rewrite Forall_forall in F. apply F, Ha.
Qed.

Lemma sorted_firstn {A : Type} (R : A -> A -> Prop) (n : nat) (l : list A) :
  StronglySorted R l -> StronglySorted R (firstn n l).
Proof.
  intros S. revert n. induction S as [|y l S IH F]; intros [|n]; simpl;
    try constructor.
  - apply IH.
  - apply Forall_forall. intros a Ha.
    rewrite Forall_forall in F. apply F.
    rewrite <- (firstn_skipn n l). apply in_or_app. left. exact Ha.
Qed.

Lemma list_sort_in_order (key : row -> pystr) (reverse : bool) (l : list row) :
  in_order key reverse (list_sort key reverse l).
Proof.
  unfold in_order, list_sort. destruct reverse.
  - apply (sorted_rev (fun a b => str_leb (key a) (key b) = true)).
    apply stable_sort_sorted.
  - apply stable_sort_sorted.
Qed.

Lemma sort_quotes_perm {L : Lowering} (sort_by : pystr) (reverse : bool) (l : list row) :
  Permutation (sort_quotes sort_by reverse l) l.
Proof.
  unfold sort_quotes.
  repeat (destruct (str_eqb sort_by _); [apply list_sort_perm|]).
  reflexivity.
Qed.

Lemma sort_quotes_in_order {L : Lowering} (sort_by : pystr) (reverse : bool) (l : list row) :
  str_in sort_by [py "quote"; py "author"; py "created_at"; py "updated_at"]
  = true ->
  in_order (sort_key_of sort_by) reverse (sort_quotes sort_by reverse l).
Proof.
  unfold sort_quotes, sort_key_of, str_in. cbn [existsb].
  repeat (destruct (str_eqb sort_by _); [intros _; apply list_sort_in_order|]).
  discriminate.
Qed.

Lemma slice_to_firstn {A : Type} (l : list A) (limit : Z) :
  exists n, slice_to l limit = firstn n l.
Proof. unfold slice_to. destruct (0 <=? limit); eexists; reflexivity. Qed.

Lemma firstn_In_list {A : Type} (n : nat) (l : list A) (x : A) :
  In x (firstn n l) -> In x l.
Proof.
  intros H. rewrite <- (firstn_skipn n l). apply in_or_app. left. exact H.
Qed.

Lemma in_order_firstn (key : row -> pystr) (d : bool) (n : nat) (l : list row) :
  in_order key d l -> in_order key d (firstn n l).
Proof. unfold in_order. destruct d; apply sorted_firstn. Qed.

Lemma paginate_page {L : Lowering} (with_sort : bool) (sort_by sort_order : pystr)
    (limit : Z) (quotes : list row) :
  fst (fst (paginate with_sort sort_by sort_order limit quotes)) =
  slice_to (sort_quotes sort_by (str_eqb sort_order (py "desc")) quotes) limit
  /\
  snd (fst (paginate with_sort sort_by sort_order limit quotes)) =
  (limit <? Z.of_nat (List.length quotes)).
Proof.
  unfold paginate. cbn [fst snd]. split; [reflexivity|].
  rewrite (Permutation_length (sort_quotes_perm _ _ quotes)). reflexivity.
Qed.

Lemma limit_of_le_1000 (p : int_param) (limit : Z) :
  limit_of p = Some limit -> limit <= 1000.
Proof.
  destruct p; simpl; intros E; inversion E; subst; try discriminate; lia.
Qed.

(** X24: for an admin, a limit that is a non-negative integer (at most
    1000 count), valid sort parameters and a completed scan, the listing
    answers 200; [total_count] is the number of scanned items that are
    neither the metadata record nor an image generation job, the page holds
    [min(limit, total_count)] quotes, never more than 1000, and [has_more]
    tells whether [total_count] exceeds the limit. *)
Theorem list_quotes_counts {L : Lowering}
    (user : user_claims) (params : query_params) (quotes_scan : scan_of row)
    (items : list row) (limit : Z) :
  is_admin user = true ->
  limit_of (param_limit params) = Some limit -> 0 <= limit ->
  str_in (or_default (param_sort_by params) (py "created_at"))
         [py "quote"; py "author"; py "created_at"; py "updated_at"] = true ->
  str_in (or_default (param_sort_order params) (py "desc"))
         [py "asc"; py "desc"] = true ->
  drain quotes_scan = Some items ->
  let total := Z.of_nat (List.length (filter is_quote_row items)) in
  exists quotes last_key,
    handle_list_quotes user params quotes_scan =
    (200, Listing quotes total (Z.min limit total) (limit <? total) last_key)
    /\ Z.of_nat (List.length quotes) = Z.min limit total
    /\ Z.min limit total <= 1000.
Proof.
  intros A Lim P SB SO D total. unfold handle_list_quotes.
  rewrite A, Lim, SB, SO, D. cbn [negb].
  destruct (paginate true _ _ limit (filter is_quote_row items))
    as [[page more] key] eqn:E.
  pose proof (paginate_page true
    (or_default (param_sort_by params) (py "created_at"))
    (or_default (param_sort_order params) (py "desc")) limit
    (filter is_quote_row items)) as [Hp Hm].
  rewrite E in Hp, Hm. cbn [fst snd] in Hp, Hm.
  assert (Len : Z.of_nat (List.length page) = Z.min limit total).
  { rewrite Hp. unfold slice_to.
    replace (0 <=? limit) with true by (symmetry; apply Z.leb_le; exact P).
    rewrite length_firstn,
      (Permutation_length (sort_quotes_perm _ _ (filter is_quote_row items))).
    unfold total. lia. }
  exists page, key. rewrite Len, Hm.
  split; [reflexivity|]. split; [reflexivity|].
  pose proof (limit_of_le_1000 _ _ Lim). lia.
Qed.

Lemma list_quotes_counts_witness :
  exists quotes last_key,
    handle_list_quotes admin_user sample_listing sample_rows =
    (200, Listing quotes 3 2 true last_key) /\
    Z.of_nat (List.length quotes) = 2.
Proof.
  destruct (list_quotes_counts admin_user sample_listing sample_rows
              [tags_metadata_row;
               quote_row "q1" "Be yourself" "Oscar Wilde" "2024-01-03";
               quote_row "q2" "Know thyself" "Socrates" "2024-01-01";
               quote_row "q3" "I can resist everything except temptation"
                         "oscar wilde" "2024-01-02"] 2
              eq_refl eq_refl ltac:(lia) eq_refl eq_refl eq_refl)
    as (quotes & key & E & Len & _).
  exists quotes, key. split; [exact E | exact Len].
Defined.

(** X25: the quotes of a 200 answer of the listing are in the order asked
    for, by the key of the sort field (quote and author compared in lower
    case), and each of them is an item of the scan that is neither the
    metadata record nor an image generation job. *)
Theorem list_quotes_page_in_order {L : Lowering}
    (user : user_claims) (params : query_params) (quotes_scan : scan_of row)
    (quotes : list row) (total_count count : Z) (has_more : bool)
    (last_key : option page_key) :
  handle_list_quotes user params quotes_scan =
  (200, Listing quotes total_count count has_more last_key) ->
  in_order (sort_key_of (or_default (param_sort_by params) (py "created_at")))
           (str_eqb (or_default (param_sort_order params) (py "desc"))
                    (py "desc"))
           quotes /\
  exists items,
    drain quotes_scan = Some items /\
    Forall (fun q => In q items /\ is_quote_row q = true) quotes.
Proof.
  unfold handle_list_quotes.
  destruct (negb (is_admin user)); [discriminate|].
  destruct (limit_of (param_limit params)) as [limit|]; [|discriminate].
  destruct (str_in (or_default (param_sort_by params) (py "created_at")) _)
    eqn:SB; cbn [negb]; [|discriminate].
  destruct (negb (str_in _ _)); [discriminate|].
  destruct (drain quotes_scan) as [items|]; [|discriminate].
  destruct (paginate true _ _ limit (filter is_quote_row items))
    as [[page more] key] eqn:E.
  pose proof (paginate_page true
    (or_default (param_sort_by params) (py "created_at"))
    (or_default (param_sort_order params) (py "desc")) limit
    (filter is_quote_row items)) as [Hp _].
  rewrite E in Hp. cbn [fst] in Hp.
  intros H. inversion H; subst quotes; clear H.
  destruct (slice_to_firstn
              (sort_quotes (or_default (param_sort_by params) (py "created_at"))
                 (str_eqb (or_default (param_sort_order params) (py "desc"))
                          (py "desc")) (filter is_quote_row items)) limit)
    as [n Hn].
  rewrite Hp, Hn. split.
  - apply in_order_firstn, sort_quotes_in_order, SB.
  - exists items. split; [reflexivity|].
    apply Forall_forall. intros q Hq.
    assert (Hs : In q (filter is_quote_row items)).
    { eapply Permutation_in; [apply sort_quotes_perm|].
      eapply firstn_In_list. exact Hq. }
    apply filter_In in Hs. exact Hs.
Qed.

Lemma list_quotes_page_in_order_witness :
  exists quotes total_count count has_more last_key,
    handle_list_quotes admin_user sample_listing sample_rows =
    (200, Listing quotes total_count count has_more last_key) /\
    List.map row_id quotes = [py "q2"; py "q3"] /\
    in_order created_at_key false quotes.
Proof.
  eexists _, _, _, _, _. split; [vm_compute; reflexivity|].
  split; [reflexivity|].
  eapply (list_quotes_page_in_order admin_user sample_listing sample_rows).
  vm_compute. reflexivity.
Defined.

Lemma existsb_map_lower {L : Lowering} (f : pystr -> bool)
    (l : list pystr) :
  existsb f (List.map str_lower l) = existsb (fun tag => f (str_lower tag)) l.
Proof.
  induction l as [|x l IH]; simpl; [reflexivity|]. rewrite IH. reflexivity.
Qed.

Lemma starts_with_refl (s : pystr) : starts_with s s = true.
Proof. apply starts_with_iff. exists []. rewrite app_nil_r. reflexivity. Qed.

Lemma matches_query_contains {L : Lowering} (search_query : pystr) (item : row) :
  search_query <> [] ->
  matches_query search_query item = contains_query search_query item.
Proof.
  intros NE. unfold matches_query, contains_query.
  rewrite <- existsb_map_lower, <- !orb_assoc. f_equal. f_equal.
  destruct (str_in search_query (List.map str_lower (tags_of item))) eqn:M;
    [|reflexivity].
  simpl. symmetry. apply existsb_exists.
  apply str_in_In in M. exists search_query. split; [exact M|].
  destruct search_query as [|c q]; [contradiction|].
  cbn [occurs_in]. rewrite starts_with_refl. reflexivity.
Qed.

(** X26: in a 200 answer of the search the query, folded to lower case, is
    not empty; [total] is the number of scanned items, metadata record and
    image generation jobs apart, whose lower-cased quote, author or one of
    whose lower-cased tags contains it; and every quote returned is one of
    these items. *)
Theorem search_results_contain_query {L : Lowering}
    (user : user_claims) (params : query_params) (quotes_scan : scan_of row)
    (quotes : list row) (total : Z) (has_more : bool)
    (last_key : option page_key) :
  handle_search_quotes user params quotes_scan =
  (200, SearchResults quotes total has_more last_key) ->
  let search_query := str_lower (or_default (param_q params) []) in
  search_query <> [] /\
  exists items,
    drain quotes_scan = Some items /\
    total = Z.of_nat (List.length
              (filter (fun item => is_quote_row item &&
                                   contains_query search_query item) items)) /\
    Forall (fun q => In q items /\ is_quote_row q = true /\
                     contains_query search_query q = true) quotes.
Proof.
  unfold handle_search_quotes.
  destruct (negb (is_admin user)); [discriminate|].
  destruct (limit_of (param_limit params)) as [limit|]; [|discriminate].
  destruct (is_empty (str_lower (or_default (param_q params) []))) eqn:Q;
    [discriminate|].
  assert (NE : str_lower (or_default (param_q params) []) <> []).
  { intros E. rewrite E in Q. discriminate. }
  destruct (drain quotes_scan) as [items|]; [|discriminate].
  set (query := str_lower (or_default (param_q params) [])) in *.
  assert (F : filter (fun item => is_quote_row item && matches_query query item)
                     items =
              filter (fun item => is_quote_row item && contains_query query item)
                     items).
  { apply filter_ext. intros r. rewrite matches_query_contains by exact NE.
    reflexivity. }
  rewrite F. clear F.
  set (matching := filter _ items).
  destruct (paginate false _ _ limit matching) as [[page more] key] eqn:E.
  pose proof (paginate_page false
    (or_default (param_sort_by params) (py "created_at"))
    (or_default (param_sort_order params) (py "desc")) limit matching)
    as [Hp _].
  rewrite E in Hp. cbn [fst] in Hp.
  intros H. inversion H; subst; clear H.
  cbv zeta. split; [exact NE|]. exists items.
  split; [reflexivity|]. split; [reflexivity|].
  destruct (slice_to_firstn
              (sort_quotes (or_default (param_sort_by params) (py "created_at"))
                 (str_eqb (or_default (param_sort_order params) (py "desc"))
                          (py "desc")) matching) limit) as [n Hn].
  rewrite Hn. apply Forall_forall. intros q Hq.
  assert (Hs : In q matching).
  { eapply Permutation_in; [apply sort_quotes_perm|].
    eapply firstn_In_list. exact Hq. }
  apply filter_In in Hs. destruct Hs as [Hi Hb].
  apply andb_true_iff in Hb. tauto.
Qed.

Lemma search_results_contain_query_witness :
  exists quotes total has_more last_key,
    handle_search_quotes admin_user sample_search sample_rows =
    (200, SearchResults quotes total has_more last_key) /\
    List.map row_id quotes = [py "q1"; py "q3"] /\
    Forall (fun q => contains_query (py "wilde") q = true) quotes.
Proof.
  eexists _, _, _, _. split; [vm_compute; reflexivity|].
  split; [reflexivity|].
  destruct (search_results_contain_query (L := latin1_lowering)
              admin_user sample_search sample_rows
              _ _ _ _ ltac:(vm_compute; reflexivity))
    as (_ & items & _ & _ & F).
  eapply Forall_impl; [|exact F]. intros q (_ & _ & C). exact C.
Defined.

(** * Properties of the deletion of a tag *)

Lemma untag_spec (tag timestamp : pystr) (item updated : row) :
  untag tag timestamp item = Some updated ->
  carries_tag tag item = true /\
  row_id updated = row_id item /\
  row_quote updated = row_quote item /\ row_quote updated <> None /\
  row_author updated = row_author item /\ row_author updated <> None /\
  row_updated_at updated = Some timestamp /\
  exists tags,
    row_tags item = Some tags /\
    row_tags updated =
    Some (filter (fun t => negb (str_eqb t tag)) tags) /\
    ~ In tag (filter (fun t => negb (str_eqb t tag)) tags).
Proof.
  unfold untag, carries_tag.
  destruct (row_quote item) as [q|] eqn:Q; [|discriminate].
  destruct (row_author item) as [a|] eqn:A; [|discriminate].
  destruct (row_tags item) as [tags|] eqn:T; [|discriminate].
  destruct (str_in tag tags) eqn:I; [|discriminate].
  intros E. inversion E; subst updated; clear E. cbn.
  repeat split; try discriminate.
  exists tags. repeat split.
  intros H. apply filter_In in H. destruct H as [_ H].
  rewrite str_eqb_refl in H. discriminate.
Qed.

Lemma untag_none (tag timestamp : pystr) (item : row) :
  untag tag timestamp item = None <-> carries_tag tag item = false.
Proof.
  unfold untag, carries_tag.
  destruct (row_quote item), (row_author item), (row_tags item);
    try (split; reflexivity).
  destruct (str_in tag l); split; congruence.
Qed.

Lemma untag_page_written (put_raises : row -> bool) (tag timestamp : pystr)
    (items : list row) (updated : row) :
  In updated (fst (untag_page put_raises tag timestamp items)) ->
  exists item, In item items /\ untag tag timestamp item = Some updated.
Proof.
  induction items as [|item items IH]; simpl; [intros []|].
  destruct (untag tag timestamp item) as [u|] eqn:U.
  - destruct (put_raises u); [intros []|].
    destruct (untag_page put_raises tag timestamp items) as [w r].
    simpl. intros [<-|H].
    + exists item. split; [left; reflexivity | exact U].
    + destruct (IH H) as (i & Hi & E). exists i. split; [right|]; assumption.
  - intros H. destruct (IH H) as (i & Hi & E).
    exists i. split; [right|]; assumption.
Qed.

Lemma untag_page_complete (put_raises : row -> bool) (tag timestamp : pystr)
    (items : list row) :
  snd (untag_page put_raises tag timestamp items) = false ->
  List.map Some (fst (untag_page put_raises tag timestamp items)) =
  List.map (untag tag timestamp) (filter (carries_tag tag) items).
Proof.
  induction items as [|item items IH]; simpl; [reflexivity|].
  destruct (untag tag timestamp item) as [u|] eqn:U.
  - destruct (untag_spec _ _ _ _ U) as [C _]. rewrite C.
    destruct (put_raises u); [discriminate|].
    destruct (untag_page put_raises tag timestamp items) as [w r].
    simpl in *. intros R. rewrite U, (IH R). reflexivity.
  - apply untag_none in U. rewrite U. exact IH.
Qed.

Lemma untag_scan_written (put_raises : row -> bool) (tag timestamp : pystr)
    (s : scan_of row) (updated : row) :
  In updated (fst (untag_scan put_raises tag timestamp s)) ->
  exists item, untag tag timestamp item = Some updated.
Proof.
  induction s as [items next IH|items|]; simpl.
  - destruct (untag_page put_raises tag timestamp items) as [w r] eqn:P.
    assert (W : In updated w -> exists item,
                  untag tag timestamp item = Some updated).
    { intros H. pose proof (untag_page_written put_raises tag timestamp items
                              updated) as G.
      rewrite P in G. destruct (G H) as (i & _ & E). exists i. exact E. }
    destruct r; [exact W|].
    destruct (untag_scan put_raises tag timestamp next) as [w' r'].
    simpl in *. intros H. apply in_app_or in H. destruct H; auto.
  - intros H. destruct (untag_page_written _ _ _ _ _ H) as (i & _ & E).
    exists i. exact E.
  - intros [].
Qed.

Lemma untag_scan_complete (put_raises : row -> bool) (tag timestamp : pystr)
    (s : scan_of row) :
  snd (untag_scan put_raises tag timestamp s) = false ->
  exists items,
    drain s = Some items /\
    List.map Some (fst (untag_scan put_raises tag timestamp s)) =
    List.map (untag tag timestamp) (filter (carries_tag tag) items).
Proof.
  induction s as [items next IH|items|]; simpl.
  - pose proof (untag_page_complete put_raises tag timestamp items) as P.
    destruct (untag_page put_raises tag timestamp items) as [w r].
    destruct r; [discriminate|].
    destruct (untag_scan put_raises tag timestamp next) as [w' r'].
    simpl in *. intros R. destruct (IH R) as (rest & D & E).
    rewrite D. exists (items ++ rest). split; [reflexivity|].
    rewrite filter_app, !map_app, (P eq_refl), E. reflexivity.
  - intros R. exists items. split; [reflexivity|].
    apply untag_page_complete, R.
  - discriminate.
Qed.

(** X27: every item [handle_delete_tag] puts back has a quote and an
    author, no longer carries the tag and is stamped with the time of the
    call.  When the answer is 200 the scan was drained, the items put back
    are, in scan order, exactly the scanned items with a quote, an author
    and the tag, [quotes_updated] is their number, and the tag is deleted
    from the tags table last. *)
Theorem delete_tag_rewrites_carriers
    (unquote : pystr -> pystr) (user : user_claims) (raw : pystr)
    (tag_item : pystr -> get_item_outcome unit) (quotes_scan : scan_of row)
    (put_raises : row -> bool) (delete_raises : bool) (timestamp : pystr) :
  let answer := handle_delete_tag unquote user (Some raw) tag_item quotes_scan
                  put_raises delete_raises timestamp in
  let tag := unquote raw in
  (forall r, In (RewriteRow r) (snd answer) ->
     row_quote r <> None /\ row_author r <> None /\
     row_updated_at r = Some timestamp /\
     exists tags, row_tags r = Some tags /\ ~ In tag tags) /\
  (fst (fst answer) = 200 ->
   exists items written,
     drain quotes_scan = Some items /\
     List.map Some written =
     List.map (untag tag timestamp) (filter (carries_tag tag) items) /\
     snd answer = List.map RewriteRow written ++ [DeleteTagItem tag] /\
     snd (fst answer) =
     TagDeleted (py "Successfully deleted tag '" ++ tag ++ py "'") tag
       (Z.of_nat (List.length (filter (carries_tag tag) items)))).
Proof.
  cbv zeta. unfold handle_delete_tag.
  destruct (negb (is_admin user));
    [split; [intros r [] | discriminate]|].
  destruct raw as [|c raw]; [split; [intros r [] | discriminate]|].
  destruct (tag_item (unquote (c :: raw)));
    try (split; [intros r [] | discriminate]).
  pose proof (untag_scan_written put_raises (unquote (c :: raw)) timestamp
                quotes_scan) as W.
  pose proof (untag_scan_complete put_raises (unquote (c :: raw)) timestamp
                quotes_scan) as C.
  destruct (untag_scan put_raises (unquote (c :: raw)) timestamp quotes_scan)
    as [written raised].
  cbn [fst snd] in W, C.
  assert (G : forall r, In r written ->
     row_quote r <> None /\ row_author r <> None /\
     row_updated_at r = Some timestamp /\
     exists tags, row_tags r = Some tags /\ ~ In (unquote (c :: raw)) tags).
  { intros r Hr. destruct (W r Hr) as (item & U).
    destruct (untag_spec _ _ _ _ U)
      as (_ & _ & _ & Q & _ & A & T & tags & _ & E & N).
    repeat split; try assumption. eexists. split; [exact E | exact N]. }
  assert (G' : forall l r, In (RewriteRow r)
                 (List.map RewriteRow written ++ l) ->
               (forall r', ~ In (RewriteRow r') l) -> In r written).
  { intros l r H Hl. apply in_app_or in H. destruct H as [H|H].
    - apply in_map_iff in H. destruct H as (r' & E & H).
      inversion E; subst. exact H.
    - destruct (Hl r H). }
  destruct raised.
  - split; [|discriminate]. intros r H. apply G.
    apply (G' [] r); [rewrite app_nil_r; exact H | intros r' []].
  - destruct delete_raises.
    + split; [|discriminate]. intros r H. apply G.
      apply (G' [] r); [rewrite app_nil_r; exact H | intros r' []].
    + split.
      * intros r H. apply G. apply (G' _ r H).
        intros r' [E|[]]. discriminate E.
      * intros _. destruct (C eq_refl) as (items & D & E).
        exists items, written. split; [exact D|]. split; [exact E|].
        split; [reflexivity|]. cbn [fst snd].
        apply (f_equal (@List.length _)) in E. rewrite !length_map in E.
        rewrite E. reflexivity.
Qed.
